(** * The survey ETL pipeline of [pipeline.py]: model and properties

    [pipeline.py] fetches a CSV export, cleans the column names, resolves
    which column answers which question, and loads every row into a freshly
    created PostgreSQL table.  This file embeds the program in Rocq, stage
    by stage, and proves what the design document says about it.

    Layout: the Python builtins the script calls ([Py]), the pandas objects
    it handles ([Pd]), the statements it sends to the store ([Db]), the
    script itself ([Pipeline]), the vocabulary of the properties, two
    stores ([MemStore], [DownStore]) and a few tables ([Sample]) to run it
    on; the properties follow the definitions. *)

From Stdlib Require Import ZArith Lia Bool List Ascii String.
From Stdlib Require Import Floats.SpecFloat.
From stdpp Require Import base decidable option list strings gmap.

Local Open Scope string_scope.
Local Open Scope list_scope.
Local Open Scope Z_scope.

(** ** Python builtins *)

Module Py.

(** A [str] is modelled as a [string]: a sequence of code points below 256
    (one [ascii] each), which covers ASCII and Latin-1 text. *)

Definition chr (n : nat) : ascii := ascii_of_nat n.
Definition ord (c : ascii) : nat := nat_of_ascii c.

(** [c.isspace()]: the code points below 256 that Python counts as
    whitespace. *)
Definition isspace (c : ascii) : bool :=
  let n := ord c in
  ((9 <=? n) && (n <=? 13) || (28 <=? n) && (n <=? 32)
   || (n =? 133) || (n =? 160))%nat.

(** [s.lstrip()], [s.rstrip()] and [s.strip()] without argument. *)
Fixpoint lstrip (s : string) : string :=
  match s with
  | String c s' => if isspace c then lstrip s' else s
  | EmptyString => EmptyString
  end.

Fixpoint rstrip (s : string) : string :=
  match s with
  | String c s' =>
      match rstrip s' with
      | EmptyString => if isspace c then EmptyString else String c EmptyString
      | r => String c r
      end
  | EmptyString => EmptyString
  end.

Definition strip (s : string) : string := rstrip (lstrip s).

(** [s.replace(old, new)] for a one-character [old], which is what each
    of the five calls of line 46 passes. *)
Fixpoint replace (old : ascii) (new : string) (s : string) : string :=
  match s with
  | String c s' =>
      if Ascii.eqb c old then new +:+ replace old new s'
      else String c (replace old new s')
  | EmptyString => EmptyString
  end.

(** [c.lower()] on code points below 256: A-Z and the Latin-1 capitals
    (all of 192..222 but the multiplication sign 215) move up by 32. *)
Definition lower_char (c : ascii) : ascii :=
  let n := ord c in
  if ((65 <=? n) && (n <=? 90)
      || (192 <=? n) && (n <=? 222) && negb (n =? 215))%nat
  then chr (n + 32) else c.

Fixpoint lower (s : string) : string :=
  match s with
  | String c s' => String (lower_char c) (lower s')
  | EmptyString => EmptyString
  end.

(** [sub in s]. *)
Fixpoint contains (sub s : string) : bool :=
  String.prefix sub s ||
  match s with
  | String _ s' => contains sub s'
  | EmptyString => false
  end.

(** *** Numbers

    A [float] is an IEEE binary64, carried as the standard library's
    [spec_float]; an [int] is a [Z]. *)

Definition prec : Z := 53.
Definition emax : Z := 1024.

Definition pos_zero : spec_float := S754_zero false.
Definition one : spec_float := S754_finite false 4503599627370496 (-52).

(** [float(n)] for an integer: the nearest binary64, [OverflowError]
    ([None]) when [n] is out of range. *)
Definition float_of_int (n : Z) : option spec_float :=
  match binary_normalize prec emax n 0 false with
  | S754_infinity _ => None
  | f => Some f
  end.

(** [int(f)]: the integer part, rounding toward zero; [OverflowError] on
    an infinity and [ValueError] on a NaN (both [None]). *)
Definition int_of_float (f : spec_float) : option Z :=
  match f with
  | S754_zero _ => Some 0
  | S754_finite s m e => Some (cond_Zopp s (Z.shiftl (Zpos m) e))
  | S754_infinity _ => None
  | S754_nan => None
  end.

Definition isdigit (c : ascii) : bool := ((48 <=? ord c) && (ord c <=? 57))%nat.
Definition digit (c : ascii) : Z := Z.of_nat (ord c - 48).

(** A digit part of a float literal, [digit (["_"] digit)*]: its value,
    its number of digits and the unread rest. *)
Fixpoint digits_tail (s : string) (acc n : Z) : Z * Z * string :=
  match s with
  | String c s' =>
      if isdigit c then digits_tail s' (10 * acc + digit c) (n + 1)
      else if Ascii.eqb c "_" then
        match s' with
        | String d s'' =>
            if isdigit d then digits_tail s'' (10 * acc + digit d) (n + 1)
            else (acc, n, s)
        | EmptyString => (acc, n, s)
        end
      else (acc, n, s)
  | EmptyString => (acc, n, s)
  end.

Definition digitpart (s : string) : option (Z * Z * string) :=
  match s with
  | String c s' => if isdigit c then Some (digits_tail s' (digit c) 1) else None
  | EmptyString => None
  end.

Definition sign (s : string) : bool * string :=
  match s with
  | String "+" s' => (false, s')
  | String "-" s' => (true, s')
  | _ => (false, s)
  end.

(** What follows the mantissa: nothing, or [e] or [E], an optional sign
    and a digit part, up to the end of the text. *)
Definition exponent (s : string) : option Z :=
  match s with
  | EmptyString => Some 0
  | String c s' =>
      if Ascii.eqb c "e" || Ascii.eqb c "E" then
        let '(neg, s'') := sign s' in
        match digitpart s'' with
        | Some (v, _, EmptyString) => Some (cond_Zopp neg v)
        | _ => None
        end
      else None
  end.

(** An unsigned decimal literal as [(M, E)], standing for [M * 10^E]. *)
Definition decimal (s : string) : option (Z * Z) :=
  let finish (M n : Z) (rest : string) :=
    match exponent rest with
    | Some e => Some (M, e - n)
    | None => None
    end in
  match digitpart s with
  | Some (iv, _, rest) =>
      match rest with
      | String "." r =>
          match digitpart r with
          | Some (fv, fn, r') => finish (iv * 10 ^ fn + fv) fn r'
          | None => finish iv 0 r
          end
      | _ => finish iv 0 rest
      end
  | None =>
      match s with
      | String "." r =>
          match digitpart r with
          | Some (fv, fn, r') => finish fv fn r'
          | None => None
          end
      | _ => None
      end
  end.

(** The binary64 nearest to [M * 10^E] (ties to even). *)
Definition float_of_decimal (neg : bool) (M E : Z) : spec_float :=
  match M with
  | Zpos _ =>
      if 0 <=? E then binary_normalize prec emax (cond_Zopp neg (M * 10 ^ E)) 0 neg
      else
        let '(q, e, l) := SFdiv_core_binary prec emax M 0 (10 ^ (- E)) 0 in
        binary_round_aux prec emax neg q e l
  | _ => S754_zero neg
  end.

(** The whitespace [float] drops around a text: the six ASCII blanks
    (9 to 13 and the space), and the two Latin-1 blanks (133, 160) that it
    first turns into spaces.  The separators 28 to 31, which [str.strip]
    drops, are not among them. *)
Definition float_space (c : ascii) : bool :=
  let n := ord c in
  ((9 <=? n) && (n <=? 13) || (n =? 32) || (n =? 133) || (n =? 160))%nat.

Fixpoint drop_leading (p : ascii -> bool) (s : string) : string :=
  match s with
  | String c s' => if p c then drop_leading p s' else s
  | EmptyString => EmptyString
  end.

Fixpoint drop_trailing (p : ascii -> bool) (s : string) : string :=
  match s with
  | String c s' =>
      match drop_trailing p s' with
      | EmptyString => if p c then EmptyString else String c EmptyString
      | r => String c r
      end
  | EmptyString => EmptyString
  end.

(** [float(s)] for a [str]: surrounding whitespace is dropped, then the
    text is a signed [inf], [infinity] or [nan] in any case, or a signed
    decimal literal; anything else is a [ValueError] ([None]). *)
Definition float_of_str (s : string) : option spec_float :=
  let '(neg, body) := sign (drop_trailing float_space (drop_leading float_space s)) in
  let word := lower body in
  if String.eqb word "inf" || String.eqb word "infinity" then Some (S754_infinity neg)
  else if String.eqb word "nan" then Some S754_nan
  else
    match decimal body with
    | Some (M, E) => Some (float_of_decimal neg M E)
    | None => None
    end.

(** *** Values

    The objects a cell of a decoded row can hold, and what a row lookup can
    return.  An empty CSV field decodes to the float NaN, [PyFloat
    S754_nan]; numpy's integer and float scalars are not told apart from
    Python's. *)
Inductive scalar :=
  | PyNone
  | PyInt (n : Z)
  | PyFloat (f : spec_float)
  | PyStr (s : string)
  | PyBool (b : bool)
  | Timestamp (ns : Z)
  | NaT.

Inductive value :=
  | Scalar (x : scalar)
  | Series (cells : list scalar).

Definition NaN : scalar := PyFloat S754_nan.

(** Exceptions, as far as the script's handlers tell them apart:
    [psycopg2.Error] (line 190) and every other [Exception] (line 192). *)
Inductive exn :=
  | Psycopg2Error (msg : string)
  | Exception (kind msg : string).

(** [float(v)]; a [TypeError] ([None]) for the values that have no
    float conversion. *)
Definition float (v : value) : option spec_float :=
  match v with
  | Scalar (PyInt n) => float_of_int n
  | Scalar (PyFloat f) => Some f
  | Scalar (PyStr s) => float_of_str s
  | Scalar (PyBool b) => Some (if b then one else pos_zero)
  | _ => None
  end.

End Py.

(** ** Schema Normalizer (line 46) *)

(** [col.strip().replace(" ", "_").replace("/", "_").replace("?", "")
        .replace("-", "_").replace("&", "and")] *)
Definition substitute (s : string) : string :=
  Py.replace "&" "and"
    (Py.replace "-" "_"
      (Py.replace "?" ""
        (Py.replace "/" "_"
          (Py.replace " " "_" s)))).

Definition normalize (col : string) : string := substitute (Py.strip col).

(** The rewrite in the order the design document gives it in section 4.2:
    the substitutions first, the trimming last. *)
Definition normalize_spec (col : string) : string := Py.strip (substitute col).

(** ** pandas objects *)

Module Pd.
Import Py.

(** A [DataFrame]: the column labels in order (labels may repeat once the
    names have been cleaned) and the rows, each holding one cell per
    column.  The index is the default one, [0 .. len(df) - 1]. *)
Record DataFrame := { columns : list string; rows : list (list scalar) }.

Definition len (df : DataFrame) : nat := length (rows df).

(** What [pandas] does that the script cannot see into: decoding the CSV
    text ([pd.read_csv(..., sep=';', on_bad_lines='skip')], which raises
    when the text is no table at all); and [pd.to_datetime(column,
    errors='coerce')], which either raises all the same on the column as a
    whole ([to_datetime_error]: it does so when the cells carry different
    UTC offsets) or reads each cell as a point in time (nanoseconds since
    the epoch), [None] when the cell cannot be read as one. *)
Class Library := {
  read_csv : string -> exn + DataFrame;
  to_datetime_error : list scalar -> option exn;
  parse_datetime : list scalar -> scalar -> option Z
}.

(** [pd.notna(x)] on a scalar. *)
Definition notna_scalar (x : scalar) : bool :=
  match x with
  | PyNone | NaT | PyFloat S754_nan => false
  | _ => true
  end.

(** The truth value of [pd.notna(v)], as [... if pd.notna(v) else ...]
    takes it: on a [Series] the test raises [ValueError] ([None]). *)
Definition notna (v : value) : option bool :=
  match v with
  | Scalar x => Some (notna_scalar x)
  | Series _ => None
  end.

(** A row as [df.iterrows()] yields it: the cells under their labels.  (The
    up-casting of integers to floats that [iterrows] applies to an
    all-numeric frame is not modelled; it changes neither [int(float(v))]
    nor [float(v)].) *)
Definition row := list (string * scalar).

Definition iterrows (df : DataFrame) : list (nat * row) :=
  imap (fun idx r => (idx, zip (columns df) r)) (rows df).

(** [row.get(key, default)]: the cell under [key]; [default] when no label
    is [key]; a [Series] of all the cells under [key] when the label is
    repeated. *)
Definition get (r : row) (key : string) (default : value) : value :=
  match List.map snd (List.filter (fun p => String.eqb (fst p) key) r) with
  | [] => default
  | [x] => Scalar x
  | cells => Series cells
  end.

(** [pd.to_datetime(column, errors='coerce')] on one column: unless it
    raises, every cell becomes a [Timestamp], or [NaT] when it cannot be
    read as one. *)
Definition coerce `{Library} (column : list scalar) (x : scalar) : scalar :=
  match parse_datetime column x with
  | Some ns => Timestamp ns
  | None => NaT
  end.

Definition to_datetime `{Library} (column : list scalar) : exn + list scalar :=
  match to_datetime_error column with
  | Some e => inl e
  | None => inr (List.map (coerce column) column)
  end.

(** [df[key]] for a label that occurs once, at position [i]. *)
Definition column_at (i : nat) (df : DataFrame) : list scalar :=
  List.map (fun r => nth i r PyNone) (rows df).

Fixpoint index_of (key : string) (l : list string) : option nat :=
  match l with
  | [] => None
  | c :: l' => if String.eqb c key then Some 0%nat else S <$> index_of key l'
  end.

(** [if key in df.columns: df[key] = pd.to_datetime(df[key], errors='coerce')].
    With [key] repeated among the labels, [df[key]] is a frame, which
    [to_datetime] refuses with a [ValueError]. *)
Definition convert_dates `{Library} (key : string) (df : DataFrame) : exn + DataFrame :=
  match List.filter (String.eqb key) (columns df), index_of key (columns df) with
  | [_], Some i =>
      match to_datetime (column_at i df) with
      | inr times =>
          inr {| columns := columns df;
                 rows := zip_with (fun r t => <[i := t]> r) (rows df) times |}
      | inl e => inl e
      end
  | _ :: _ :: _, _ =>
      inl (Exception "ValueError" "cannot assemble with duplicate keys")
  | _, _ => inr df
  end.

End Pd.

(** ** The relational store, as seen through psycopg2 *)

Module Db.
Import Py.

Inductive sqltype :=
  | SERIAL_PRIMARY_KEY
  | TIMESTAMP
  | VARCHAR (n : nat)
  | INTEGER
  | DECIMAL (p s : nat)
  | TIMESTAMP_DEFAULT_CURRENT_TIMESTAMP.

(** The five statements the script sends, with their identifiers and
    parameters. *)
Inductive sql :=
  | CREATE_SCHEMA_IF_NOT_EXISTS (schema : string)
  | DROP_TABLE_IF_EXISTS (schema table : string)
  | CREATE_TABLE (schema table : string) (cols : list (string * sqltype))
  | INSERT_INTO (schema table : string) (cols : list string) (params : list value)
  | SELECT_COUNT (schema table : string).

(** The calls the script makes: [psycopg2.connect(...)], [conn.cursor()],
    [cur.execute(q)], [cur.fetchone()[0]], [conn.commit()], [cur.close()],
    [conn.close()]. *)
Inductive call :=
  | connect
  | cursor
  | execute (q : sql)
  | fetchone
  | commit
  | cursor_close
  | close.

(** A store answers every call with its next state and, when the call
    raises, the exception; [fetched] is the number [cur.fetchone()[0]]
    returns. *)
Class Store (C : Type) := {
  perform : call -> C -> C * option exn;
  fetched : C -> Z
}.

End Db.

(** ** The run: state, output and control *)

(** Every [print] of the script, by line number of the source. *)
Inductive line :=
  | MsgFetching                          (* 29 *)
  | MsgFetched                           (* 33 *)
  | MsgRecords (n : nat)                 (* 39 *)
  | MsgColumns (n : nat)                 (* 40 *)
  | MsgProcessing                        (* 43 *)
  | MsgCleaned (n : nat)                 (* 55 *)
  | MsgConnecting                        (* 58 *)
  | MsgConnected                         (* 71 *)
  | MsgSchemaReady (schema : string)     (* 75 *)
  | MsgTableCreated (table : string)     (* 107 *)
  | MsgInserting (n : nat)               (* 122 *)
  | MsgProgress (inserted total : nat)   (* 163 *)
  | MsgWarning (idx : nat) (e : Py.exn)  (* 168 *)
  | MsgInserted (n : nat)                (* 172 *)
  | MsgFailed (n : nat)                  (* 174 *)
  | MsgTotal (n : Z)                     (* 179 *)
  | MsgClosed                            (* 184 *)
  | MsgCompleted                         (* 186-188 *)
  | MsgPostgresError (e : Py.exn)        (* 191 *)
  | MsgError (e : Py.exn)                (* 193 *)
  | MsgFetchFailed (status_code : Z)     (* 196 *)
  | MsgPleaseCheck                       (* 197 *)
  | MsgCheckCredentials                  (* 198 *)
  | MsgCheckUrl                          (* 199 *)
  | MsgCheckConnection.                  (* 200 *)

(** The world a run acts on: the store, what has been printed, and the
    calls made to the store with the exception each one raised, if any. *)
Record world (C : Type) := World {
  db : C;
  stdout : list line;
  calls : list (Db.call * option Py.exn)
}.
Arguments World {C}.
Arguments db {C}.
Arguments stdout {C}.
Arguments calls {C}.

(** A piece of the script: it changes the world and either raises or
    yields a value. *)
Definition M (C A : Type) : Type := world C -> world C * (Py.exn + A).

Definition ret {C A} (a : A) : M C A := fun w => (w, inr a).

Definition bind {C A B} (m : M C A) (k : A -> M C B) : M C B :=
  fun w => match m w with
           | (w', inr a) => k a w'
           | (w', inl e) => (w', inl e)
           end.

Notation "x <- m ;; k" := (bind m (fun x => k))
  (at level 100, m at next level, right associativity).
Notation "m ;; k" := (bind m (fun _ => k))
  (at level 100, right associativity).

(** Lifting a computation that may raise. *)
Definition lift {C A} (r : Py.exn + A) : M C A := fun w => (w, r).

(** [try: body except <any exception> as e: handler(e)]. *)
Definition try_except {C A} (body : M C A) (handler : Py.exn -> M C A) : M C A :=
  fun w => match body w with
           | (w', inl e) => handler e w'
           | r => r
           end.

Definition print {C} (l : line) : M C unit :=
  fun w => (World (db w) (stdout w ++ [l]) (calls w), inr tt).

(** A call to the store: performed, logged, and raising what the store
    raises. *)
Definition db_call {C} `{Db.Store C} (c : Db.call) : M C unit :=
  fun w =>
    let '(d, r) := Db.perform c (db w) in
    (World d (stdout w) (calls w ++ [(c, r)]),
     match r with Some e => inl e | None => inr tt end).

Definition db_fetched {C} `{Db.Store C} : M C Z :=
  fun w => (w, inr (Db.fetched (db w))).

(** [for x in l: ...], the loop variables threaded through [acc]. *)
Fixpoint for_each {C A S} (l : list A) (body : S -> A -> M C S) (acc : S) : M C S :=
  match l with
  | [] => ret acc
  | x :: l' => acc' <- body acc x ;; for_each l' body acc'
  end.

(** A computation that raises ([None]) inside a [try] whose handler
    yields [d]. *)
Definition try_or {A} (body : option A) (d : A) : A :=
  match body with Some a => a | None => d end.

(** ** The script *)

Module Pipeline.
Import Py.

(** The answer of [requests.get] (line 30). *)
Record response := { status_code : Z; text : string }.

(** Lines 25-26. *)
Definition schema_name : string := "Ribka-Blossom-academy-capstone-project".
Definition table_name : string := "public_health_data".

(** *** Column Resolver (lines 81-88) *)

Definition age_col (columns : list string) : list string :=
  List.filter (fun c => Py.contains "age" (Py.lower c) && Py.contains "group" (Py.lower c)) columns.
Definition vacc_col (columns : list string) : list string :=
  List.filter (fun c => Py.contains "vaccin" (Py.lower c)) columns.
Definition visit_col (columns : list string) : list string :=
  List.filter (fun c => Py.contains "healthcare" (Py.lower c) || Py.contains "visit" (Py.lower c)) columns.
Definition exercise_col (columns : list string) : list string :=
  List.filter (fun c => Py.contains "exercise" (Py.lower c) || Py.contains "physical" (Py.lower c)) columns.
Definition water_col (columns : list string) : list string :=
  List.filter (fun c => Py.contains "water" (Py.lower c) || Py.contains "drinking" (Py.lower c)) columns.
Definition sleep_col (columns : list string) : list string :=
  List.filter (fun c => Py.contains "sleep" (Py.lower c) || Py.contains "hour" (Py.lower c)) columns.
Definition insurance_col (columns : list string) : list string :=
  List.filter (fun c => Py.contains "insurance" (Py.lower c) || Py.contains "coverage" (Py.lower c)) columns.
Definition gender_col (columns : list string) : list string :=
  List.filter (fun c => Py.contains "gender" (Py.lower c)) columns.

(** *** Statements (lines 74, 78, 91-106, 110-116, 177) *)

Definition create_schema_query : Db.sql := Db.CREATE_SCHEMA_IF_NOT_EXISTS schema_name.
Definition drop_table_query : Db.sql := Db.DROP_TABLE_IF_EXISTS schema_name table_name.
Definition create_table_query : Db.sql :=
  Db.CREATE_TABLE schema_name table_name
    [ ("id", Db.SERIAL_PRIMARY_KEY);
      ("submission_start", Db.TIMESTAMP);
      ("submission_end", Db.TIMESTAMP);
      ("age_group", Db.VARCHAR 100);
      ("gender", Db.VARCHAR 50);
      ("vaccination_status", Db.VARCHAR 100);
      ("healthcare_visits_count", Db.INTEGER);
      ("exercise_frequency", Db.VARCHAR 100);
      ("water_source", Db.VARCHAR 100);
      ("sleep_hours", Db.DECIMAL 5 2);
      ("health_insurance", Db.VARCHAR 50);
      ("created_at", Db.TIMESTAMP_DEFAULT_CURRENT_TIMESTAMP) ].
Definition insert_query (params : list value) : Db.sql :=
  Db.INSERT_INTO schema_name table_name
    [ "submission_start"; "submission_end"; "age_group"; "gender"; "vaccination_status";
      "healthcare_visits_count"; "exercise_frequency"; "water_source";
      "sleep_hours"; "health_insurance" ] params.
Definition count_query : Db.sql := Db.SELECT_COUNT schema_name table_name.

(** *** Row values (lines 127-145) *)

(** [row.get(col[0]) if col else None] *)
Definition get_or_none (col : list string) (row : Pd.row) : value :=
  match col with
  | c :: _ => Pd.get row c (Scalar PyNone)
  | [] => Scalar PyNone
  end.

(** [row.get(col[0], 0) if col else 0] *)
Definition get_or_zero (col : list string) (row : Pd.row) : value :=
  match col with
  | c :: _ => Pd.get row c (Scalar (PyInt 0))
  | [] => Scalar (PyInt 0)
  end.

Definition age_val (columns : list string) := get_or_none (age_col columns).
Definition gender_val (columns : list string) := get_or_none (gender_col columns).
Definition vacc_val (columns : list string) := get_or_none (vacc_col columns).
Definition exercise_val (columns : list string) := get_or_none (exercise_col columns).
Definition water_val (columns : list string) := get_or_none (water_col columns).
Definition insurance_val (columns : list string) := get_or_none (insurance_col columns).

(** Lines 137-140:
    [try: visit_val = int(float(visit_val)) if pd.notna(visit_val) else 0]
    [except: visit_val = 0] *)
Definition int_float_or_zero (v : value) : Z :=
  try_or (b ← Pd.notna v;
          if b : bool then f ← Py.float v; Py.int_of_float f else Some 0)
         0.

(** Lines 142-145:
    [try: sleep_val = float(sleep_val) if pd.notna(sleep_val) else 0]
    [except: sleep_val = 0] *)
Definition float_or_zero (v : value) : scalar :=
  try_or (b ← Pd.notna v;
          if b : bool then f ← Py.float v; Some (PyFloat f) else Some (PyInt 0))
         (PyInt 0).

Definition visit_val (columns : list string) (row : Pd.row) : Z :=
  int_float_or_zero (get_or_zero (visit_col columns) row).
Definition sleep_val (columns : list string) (row : Pd.row) : scalar :=
  float_or_zero (get_or_zero (sleep_col columns) row).

(** The parameters of the insert (lines 147-158), in the order of the
    statement's columns. *)
Definition params (columns : list string) (row : Pd.row) : list value :=
  [ Pd.get row "start" (Scalar PyNone);
    Pd.get row "end" (Scalar PyNone);
    age_val columns row;
    gender_val columns row;
    vacc_val columns row;
    Scalar (PyInt (visit_val columns row));
    exercise_val columns row;
    water_val columns row;
    Scalar (sleep_val columns row);
    insurance_val columns row ].

(** What a run reports at its end (lines 172-179). *)
Record report := {
  records_inserted : nat;
  errors_count : nat;
  total_records : Z
}.

Section Script.
Context `{Pd.Library} {C : Type} `{Db.Store C}.

(** *** Schema Normalizer (lines 46-52) *)

Definition clean (df : Pd.DataFrame) : exn + Pd.DataFrame :=
  let df := {| Pd.columns := List.map normalize (Pd.columns df); Pd.rows := Pd.rows df |} in
  match Pd.convert_dates "start" df with
  | inr df => Pd.convert_dates "end" df
  | inl e => inl e
  end.

(** *** Row Loader (lines 124-168)

    One turn of the loop.  Inside the [try], only [cur.execute] can raise:
    the lookups are total and the two conversions have handlers of their
    own.  So the handler sees the counters as they were when the turn
    began. *)
Definition insert_row (df : Pd.DataFrame) (acc : nat * nat) (it : nat * Pd.row)
  : M C (nat * nat) :=
  let '(records_inserted, errors_count) := acc in
  let '(idx, row) := it in
  try_except
    (db_call (Db.execute (insert_query (params (Pd.columns df) row))) ;;
     let records_inserted := S records_inserted in
     (if (records_inserted mod 10 =? 0)%nat
      then print (MsgProgress records_inserted (Pd.len df)) else ret tt) ;;
     ret (records_inserted, errors_count))
    (fun e =>
     let errors_count := S errors_count in
     (if (errors_count <=? 3)%nat then print (MsgWarning idx e) else ret tt) ;;
     ret (records_inserted, errors_count)).

Definition insert_rows (df : Pd.DataFrame) : M C (nat * nat) :=
  for_each (Pd.iterrows df) (insert_row df) (0%nat, 0%nat).

(** *** Step 3, the body of the outer [try] (lines 62-188) *)
Definition upload (df : Pd.DataFrame) : M C report :=
  db_call Db.connect ;;
  db_call Db.cursor ;;
  print MsgConnected ;;
  db_call (Db.execute create_schema_query) ;;
  print (MsgSchemaReady schema_name) ;;
  db_call (Db.execute drop_table_query) ;;
  db_call (Db.execute create_table_query) ;;
  print (MsgTableCreated table_name) ;;
  print (MsgInserting (Pd.len df)) ;;
  counters <- insert_rows df ;;
  let '(records_inserted, errors_count) := counters in
  db_call Db.commit ;;
  print (MsgInserted records_inserted) ;;
  (if (0 <? errors_count)%nat then print (MsgFailed errors_count) else ret tt) ;;
  db_call (Db.execute count_query) ;;
  db_call Db.fetchone ;;
  total_records <- db_fetched ;;
  print (MsgTotal total_records) ;;
  db_call Db.cursor_close ;;
  db_call Db.close ;;
  print MsgClosed ;;
  print MsgCompleted ;;
  ret {| records_inserted := records_inserted;
         errors_count := errors_count;
         total_records := total_records |}.

(** The handlers of lines 190-193. *)
Definition handler (e : exn) : M C (option report) :=
  match e with
  | Psycopg2Error _ => print (MsgPostgresError e) ;; ret None
  | Exception _ _ => print (MsgError e) ;; ret None
  end.

(** *** The whole script (lines 29-200), from the answer of the fetch on.
    It yields the report of a completed load, [None] when the load was not
    reached or was abandoned; an exception it raises is one no handler
    caught. *)
Definition main (response : response) : M C (option report) :=
  print MsgFetching ;;
  if status_code response =? 200 then
    print MsgFetched ;;
    df <- lift (Pd.read_csv (text response)) ;;
    print (MsgRecords (Pd.len df)) ;;
    print (MsgColumns (length (Pd.columns df))) ;;
    print MsgProcessing ;;
    df <- lift (clean df) ;;
    print (MsgCleaned (Pd.len df)) ;;
    print MsgConnecting ;;
    try_except (r <- upload df ;; ret (Some r)) handler
  else
    print (MsgFetchFailed (status_code response)) ;;
    print MsgPleaseCheck ;;
    print MsgCheckCredentials ;;
    print MsgCheckUrl ;;
    print MsgCheckConnection ;;
    ret None.

End Script.
End Pipeline.

(** ** Vocabulary of the properties *)

(** A fresh process attached to a store in state [c]: nothing printed,
    nothing called yet. *)
Definition start {C} (c : C) : world C := World c [] [].

(** The calls of a log that raised. *)
Definition raised (log : list (Db.call * option Py.exn)) : list (Db.call * Py.exn) :=
  omap (fun cr => match snd cr with Some e => Some (fst cr, e) | None => None end) log.

(** The parameter tuples of the inserts of a log, and of those that went
    through. *)
Definition attempted (log : list (Db.call * option Py.exn)) : list (list Py.value) :=
  omap (fun cr => match fst cr with
                  | Db.execute (Db.INSERT_INTO _ _ _ ps) => Some ps
                  | _ => None
                  end) log.

Definition inserted (log : list (Db.call * option Py.exn)) : list (list Py.value) :=
  omap (fun cr => match cr with
                  | (Db.execute (Db.INSERT_INTO _ _ _ ps), None) => Some ps
                  | _ => None
                  end) log.

Definition is_warning (l : line) : bool :=
  match l with MsgWarning _ _ => true | _ => false end.

Definition is_commit (cr : Db.call * option Py.exn) : bool :=
  match fst cr with Db.commit => true | _ => false end.

(** The eight roles the Column Resolver binds by keywords, each with the
    rule, the candidate list and the row value the script gives it. *)
Inductive role :=
  | age_group
  | gender
  | vaccination_status
  | healthcare_visits_count
  | exercise_frequency
  | water_source
  | sleep_hours
  | health_insurance.

Definition matches (r : role) (c : string) : bool :=
  let name := Py.lower c in
  match r with
  | age_group => Py.contains "age" name && Py.contains "group" name
  | gender => Py.contains "gender" name
  | vaccination_status => Py.contains "vaccin" name
  | healthcare_visits_count => Py.contains "healthcare" name || Py.contains "visit" name
  | exercise_frequency => Py.contains "exercise" name || Py.contains "physical" name
  | water_source => Py.contains "water" name || Py.contains "drinking" name
  | sleep_hours => Py.contains "sleep" name || Py.contains "hour" name
  | health_insurance => Py.contains "insurance" name || Py.contains "coverage" name
  end.

Definition candidates (r : role) (columns : list string) : list string :=
  match r with
  | age_group => Pipeline.age_col columns
  | gender => Pipeline.gender_col columns
  | vaccination_status => Pipeline.vacc_col columns
  | healthcare_visits_count => Pipeline.visit_col columns
  | exercise_frequency => Pipeline.exercise_col columns
  | water_source => Pipeline.water_col columns
  | sleep_hours => Pipeline.sleep_col columns
  | health_insurance => Pipeline.insurance_col columns
  end.

(** The name a role is bound to: [col[0]], when there is one. *)
Definition bound (r : role) (columns : list string) : option string :=
  head (candidates r columns).

(** The value a row sends to the store for a role. *)
Definition role_value (r : role) (columns : list string) (row : Pd.row) : Py.value :=
  match r with
  | age_group => Pipeline.age_val columns row
  | gender => Pipeline.gender_val columns row
  | vaccination_status => Pipeline.vacc_val columns row
  | healthcare_visits_count => Py.Scalar (Py.PyInt (Pipeline.visit_val columns row))
  | exercise_frequency => Pipeline.exercise_val columns row
  | water_source => Pipeline.water_val columns row
  | sleep_hours => Py.Scalar (Pipeline.sleep_val columns row)
  | health_insurance => Pipeline.insurance_val columns row
  end.

(** Where a role's value sits among the parameters of the insert. *)
Definition position (r : role) : nat :=
  match r with
  | age_group => 2
  | gender => 3
  | vaccination_status => 4
  | healthcare_visits_count => 5
  | exercise_frequency => 6
  | water_source => 7
  | sleep_hours => 8
  | health_insurance => 9
  end.

(** What a role holds when its source value is absent: null for the six
    text roles, zero for the two numeric ones. *)
Definition absent (r : role) : Py.value :=
  match r with
  | healthcare_visits_count => Py.Scalar (Py.PyInt 0)
  | sleep_hours => Py.Scalar (Py.PyFloat Py.pos_zero)
  | _ => Py.Scalar Py.PyNone
  end.

Definition is_text (r : role) : bool :=
  match r with
  | healthcare_visits_count | sleep_hours => false
  | _ => true
  end.


(** The simultaneous reading of the five substitutions of line 46. *)
Definition substitute_char (c : ascii) : string :=
  if Ascii.eqb c " " || Ascii.eqb c "/" || Ascii.eqb c "-" then "_"
  else if Ascii.eqb c "?" then ""
  else if Ascii.eqb c "&" then "and"
  else String c "".

Fixpoint flat_map_string (f : ascii -> string) (s : string) : string :=
  match s with
  | String c s' => f c +:+ flat_map_string f s'
  | EmptyString => EmptyString
  end.

(** Every character of [s] satisfies [p]. *)
Fixpoint all_chars (p : ascii -> bool) (s : string) : bool :=
  match s with
  | String c s' => p c && all_chars p s'
  | EmptyString => true
  end.

(** A name whose only whitespace, if any, is the plain space. *)
Definition only_plain_spaces (s : string) : bool :=
  all_chars (fun c => negb (Py.isspace c) || Ascii.eqb c " ") s.

(** ** What the properties read off a store *)

(** What can be read off a store: whether a namespace exists, and the rows
    of a table (the parameter tuples, in insertion order) when it exists. *)
Class Observable (C : Type) := {
  has_schema : string -> C -> bool;
  content : string -> string -> C -> option (list (list Py.value))
}.

(** ** A PostgreSQL server in memory, and the session the script holds

    The script talks to the server through one psycopg2 connection, opened
    at line 62 with the defaults: every statement runs inside one
    transaction, which the first statement opens and [conn.commit()] ends.
    When the server refuses a statement the transaction is aborted: the
    server then refuses every further statement until the transaction
    ends, and the [COMMIT] that ends an aborted transaction rolls it back
    without raising.  A parameter that psycopg2 cannot adapt (a [Series])
    raises before anything is sent, and leaves the transaction as it is. *)

Module MemStore.
Import Py.

(** A database: its namespaces, and its tables with their declared columns
    and their rows. *)
Record database := Database {
  schemas : gset string;
  tables : gmap (string * string) (list (string * Db.sqltype) * list (list value))
}.

(** The server and the session: the rule by which the server refuses a
    tuple for a table of given columns ([None]: it takes it), what is
    committed, what the session sees inside its transaction, whether the
    transaction is aborted, and the cursor's result. *)
Record t := Mem {
  rules : list (string * Db.sqltype) -> list string -> list value -> option exn;
  committed : database;
  session : database;
  aborted : bool;
  result : option Z
}.

(** One statement on the session's view of the database: the view after it
    and the result it leaves in the cursor, or what the server raises. *)
Definition exec (m : t) (q : Db.sql) : exn + database * option Z :=
  let d := session m in
  match q with
  | Db.CREATE_SCHEMA_IF_NOT_EXISTS s =>
      inr (Database ({[ s ]} ∪ schemas d) (tables d), result m)
  | Db.DROP_TABLE_IF_EXISTS s tb =>
      inr (Database (schemas d) (delete (s, tb) (tables d)), result m)
  | Db.CREATE_TABLE s tb cols =>
      if decide (s ∈ schemas d) then
        match tables d !! (s, tb) with
        | Some _ => inl (Psycopg2Error "relation already exists")
        | None => inr (Database (schemas d) (<[(s, tb) := (cols, [])]> (tables d)), result m)
        end
      else inl (Psycopg2Error "schema does not exist")
  | Db.INSERT_INTO s tb cols ps =>
      match tables d !! (s, tb) with
      | Some (tcols, rs) =>
          match rules m tcols cols ps with
          | None => inr (Database (schemas d) (<[(s, tb) := (tcols, rs ++ [ps])]> (tables d)),
                         result m)
          | Some e => inl e
          end
      | None => inl (Psycopg2Error "relation does not exist")
      end
  | Db.SELECT_COUNT s tb =>
      match tables d !! (s, tb) with
      | Some (_, rs) => inr (d, Some (Z.of_nat (length rs)))
      | None => inl (Psycopg2Error "relation does not exist")
      end
  end.

(** Whether psycopg2 can adapt every parameter of a statement. *)
Definition adaptable (v : value) : bool :=
  match v with Series _ => false | Scalar _ => true end.

Definition sendable (q : Db.sql) : bool :=
  match q with
  | Db.INSERT_INTO _ _ _ ps => forallb adaptable ps
  | _ => true
  end.

Definition perform (c : Db.call) (m : t) : t * option exn :=
  match c with
  | Db.connect => (Mem (rules m) (committed m) (committed m) false None, None)
  | Db.execute q =>
      if negb (sendable q) then (m, Some (Psycopg2Error "can't adapt type 'Series'"))
      else if aborted m then
        (m, Some (Psycopg2Error "current transaction is aborted, commands ignored until end of transaction block"))
      else
        match exec m q with
        | inr (d, r) => (Mem (rules m) (committed m) d false r, None)
        | inl e => (Mem (rules m) (committed m) (session m) true (result m), Some e)
        end
  | Db.commit =>
      if aborted m then (Mem (rules m) (committed m) (committed m) false (result m), None)
      else (Mem (rules m) (session m) (session m) false (result m), None)
  | Db.fetchone =>
      match result m with
      | Some _ => (m, None)
      | None => (m, Some (Psycopg2Error "no results to fetch"))
      end
  | Db.cursor | Db.cursor_close => (m, None)
  | Db.close => (Mem (rules m) (committed m) (committed m) false None, None)
  end.

#[global] Instance store : Db.Store t := {
  perform := perform;
  fetched m := default 0 (result m)
}.

(** What is read off the store is what is committed. *)
#[global] Instance observable : Observable t := {
  has_schema s m := bool_decide (s ∈ schemas (committed m));
  content s tb m := snd <$> tables (committed m) !! (s, tb)
}.

(** The rule of a server that checks each value against the type of its
    column, for the values the script can send: a null goes anywhere; NaT,
    which psycopg2 writes as the timestamp text ['NaT'], goes nowhere; a
    timestamp column takes timestamps; a text column takes any other value
    (a text of at most its width); the integer column takes the 32-bit
    integers; the decimal column takes the numbers that fit its precision
    once rounded to its scale. *)
Definition in_decimal (p s : nat) (f : spec_float) : bool :=
  match f with
  | S754_zero _ | S754_nan => true
  | S754_infinity _ => false
  | S754_finite _ m e =>
      if 0 <=? e
      then Zpos m * 2 ^ e * (2 * 10 ^ Z.of_nat s) <? 2 * 10 ^ Z.of_nat p - 1
      else Zpos m * (2 * 10 ^ Z.of_nat s) <? (2 * 10 ^ Z.of_nat p - 1) * 2 ^ (- e)
  end.

Definition fits (ty : Db.sqltype) (v : value) : bool :=
  match v with
  | Series _ => false
  | Scalar PyNone => true
  | Scalar NaT => false
  | Scalar x =>
      match ty, x with
      | Db.TIMESTAMP, Timestamp _ => true
      | Db.VARCHAR n, PyStr s => (String.length s <=? n)%nat
      | Db.VARCHAR _, _ => true
      | Db.INTEGER, PyInt n => (-2147483648 <=? n) && (n <=? 2147483647)
      | Db.DECIMAL p s, PyInt n => Z.abs n <? 10 ^ (Z.of_nat p - Z.of_nat s)
      | Db.DECIMAL p s, PyFloat f => in_decimal p s f
      | _, _ => false
      end
  end.

Fixpoint type_of (name : string) (cols : list (string * Db.sqltype)) : option Db.sqltype :=
  match cols with
  | [] => None
  | (c, ty) :: cols' => if String.eqb c name then Some ty else type_of name cols'
  end.

Definition typed (tcols : list (string * Db.sqltype)) (cols : list string) (ps : list value)
  : option exn :=
  if (length cols =? length ps)%nat &&
     forallb (fun cp => match type_of (fst cp) tcols with
                        | Some ty => fits ty (snd cp)
                        | None => false
                        end) (zip cols ps)
  then None else Some (Psycopg2Error "value refused").

(** A server with nothing in it. *)
Definition empty : t := Mem typed (Database ∅ ∅) (Database ∅ ∅) false None.

End MemStore.

(** The characters the substitutions rewrite. *)
Definition is_target (c : ascii) : bool :=
  Ascii.eqb c " " || Ascii.eqb c "/" || Ascii.eqb c "?" || Ascii.eqb c "-" || Ascii.eqb c "&".

(** Whether a name neither begins nor ends with whitespace. *)
Fixpoint last_char (s : string) : option ascii :=
  match s with
  | EmptyString => None
  | String c EmptyString => Some c
  | String _ s' => last_char s'
  end.

Definition trimmed (s : string) : bool :=
  match s with
  | EmptyString => true
  | String c _ =>
      negb (Py.isspace c) &&
      match last_char s with Some d => negb (Py.isspace d) | None => true end
  end.

(** The value of a role, read off the row under a given name. *)
Definition value_under (r : role) (name : string) (row : Pd.row) : Py.value :=
  match r with
  | healthcare_visits_count =>
      Py.Scalar (Py.PyInt (Pipeline.int_float_or_zero (Pd.get row name (Py.Scalar (Py.PyInt 0)))))
  | sleep_hours =>
      Py.Scalar (Pipeline.float_or_zero (Pd.get row name (Py.Scalar (Py.PyInt 0))))
  | _ => Pd.get row name (Py.Scalar Py.PyNone)
  end.

(** The insert the loop sends for a row. *)
Definition insert_call (columns : list string) (it : nat * Pd.row) : Db.call :=
  Db.execute (Pipeline.insert_query (Pipeline.params columns (snd it))).

(** The inserts of the loop, sent one after the other to a store in state
    [c]: the log they leave and the state they end in. *)
Fixpoint loop_log {C} `{Db.Store C} (columns : list string) (its : list (nat * Pd.row)) (c : C)
  : list (Db.call * option Py.exn) :=
  match its with
  | [] => []
  | it :: its' =>
      let '(c', r) := Db.perform (insert_call columns it) c in
      (insert_call columns it, r) :: loop_log columns its' c'
  end.

Fixpoint loop_db {C} `{Db.Store C} (columns : list string) (its : list (nat * Pd.row)) (c : C) : C :=
  match its with
  | [] => c
  | it :: its' => loop_db columns its' (fst (Db.perform (insert_call columns it) c))
  end.

(** The calls around the loop, when none of them raises. *)
Definition prepare_calls : list (Db.call * option Py.exn) :=
  [ (Db.connect, None); (Db.cursor, None);
    (Db.execute Pipeline.create_schema_query, None);
    (Db.execute Pipeline.drop_table_query, None);
    (Db.execute Pipeline.create_table_query, None) ].

Definition finish_calls : list (Db.call * option Py.exn) :=
  [ (Db.commit, None);
    (Db.execute Pipeline.count_query, None);
    (Db.fetchone, None); (Db.cursor_close, None); (Db.close, None) ].

Definition is_insert (c : Db.call) : bool :=
  match c with Db.execute (Db.INSERT_INTO _ _ _ _) => true | _ => false end.

(** [m] adds to the log only calls that satisfy [Q]. *)
Definition log_inv {C A} (Q : Db.call -> Prop) (m : M C A) : Prop :=
  forall w, Forall (fun cr => Q (fst cr)) (calls w) ->
            Forall (fun cr => Q (fst cr)) (calls (fst (m w))).

(** What an insert carries satisfies [P]. *)
Definition carries (P : list Py.value -> Prop) (c : Db.call) : Prop :=
  match c with
  | Db.execute (Db.INSERT_INTO _ _ _ ps) => P ps
  | _ => True
  end.

(** A keyword made of characters that cleaning leaves alone: no
    whitespace, none of the rewritten characters. *)
Definition plain (kw : string) : bool :=
  all_chars (fun c => negb (is_target c) && negb (Py.isspace c)) kw.

(** The progress lines of the loop. *)
Definition is_progress (l : line) : bool :=
  match l with MsgProgress _ _ => true | _ => false end.

(** The message the outer handlers print for an exception (lines 190-193). *)
Definition error_line (e : Py.exn) : line :=
  match e with
  | Py.Psycopg2Error _ => MsgPostgresError e
  | Py.Exception _ _ => MsgError e
  end.

(** The calls of [l] up to its [n]-th, which raises [e]. *)
Definition cut (l : list (Db.call * option Py.exn)) (n : nat) (e : Py.exn)
  : list (Db.call * option Py.exn) :=
  take n l ++ match l !! n with
              | Some (c, _) => [(c, Some e)]
              | None => []
              end.

(** The inserts of a log, with their outcomes. *)
Definition inserts (log : list (Db.call * option Py.exn)) : list (Db.call * option Py.exn) :=
  List.filter (fun cr => is_insert (fst cr)) log.

(** The warnings a log of inserts calls for when none is held back: one
    for each insert that raised, with the position of its row and the
    exception. *)
Definition failures (log : list (Db.call * option Py.exn)) : list line :=
  omap id (imap (fun idx cr => MsgWarning idx <$> snd cr) log).

(** What has been printed of warnings and progress lines agrees with the
    answers of the store so far, for a table of [n] rows. *)
Definition output_follows {C} (n : nat) (w : world C) : Prop :=
  List.filter is_warning (stdout w) = take 3 (failures (inserts (calls w)))
  /\ List.filter is_progress (stdout w)
     = List.map (fun k => MsgProgress (10 * k) n)
         (seq 1 (length (inserted (calls w)) / 10)).

(** How often a name occurs among the labels. *)
Definition occurrences (name : string) (columns : list string) : nat :=
  length (List.filter (String.eqb name) columns).

(** ** A store that is down *)

Module DownStore.

(** Every call raises; there is no state to speak of. *)
#[global] Instance store : Db.Store unit := {
  perform _ _ := (tt, Some (Py.Psycopg2Error "could not connect to server"));
  fetched _ := 0
}.

End DownStore.

(** What the server of a session answers to the insert of a tuple into the
    table the script creates, if it refuses it. *)
Definition target : string * string := (Pipeline.schema_name, Pipeline.table_name).

Definition target_columns : list (string * Db.sqltype) :=
  match Pipeline.create_table_query with
  | Db.CREATE_TABLE _ _ cols => cols
  | _ => []
  end.

Definition insert_columns : list string :=
  match Pipeline.insert_query [] with
  | Db.INSERT_INTO _ _ cols _ => cols
  | _ => []
  end.

Definition verdict (c : MemStore.t) (ps : list Py.value) : option Py.exn :=
  MemStore.rules c target_columns insert_columns ps.

(** A row whose insert reaches the server and is refused there. *)
Definition refused (c : MemStore.t) (columns : list string) (it : nat * Pd.row) : bool :=
  forallb MemStore.adaptable (Pipeline.params columns (snd it))
  && bool_decide (is_Some (verdict c (Pipeline.params columns (snd it)))).

(** The tuples of the rows that psycopg2 can send. *)
Definition sent_rows (columns : list string) (its : list (nat * Pd.row)) : list (list Py.value) :=
  List.filter (forallb MemStore.adaptable)
    (List.map (fun it => Pipeline.params columns (snd it)) its).

(** The session once the script has prepared its table, on a server in
    state [c]. *)
Definition prepared (c : MemStore.t) : MemStore.t :=
  MemStore.Mem (MemStore.rules c) (MemStore.committed c)
    (MemStore.Database
       ({[ Pipeline.schema_name ]} ∪ MemStore.schemas (MemStore.committed c))
       (<[target := (target_columns, [])]>
          (delete target (MemStore.tables (MemStore.committed c)))))
    false None.

(** A database in which the script's table has been replaced by one that
    holds [rows]. *)
Definition replaced (d : MemStore.database) (rows : list (list Py.value)) : MemStore.database :=
  MemStore.Database
    ({[ Pipeline.schema_name ]} ∪ MemStore.schemas d)
    (<[target := (target_columns, rows)]> (MemStore.tables d)).



(** The conversion of the column named [key] raises [e] on a decoded
    table: the cleaned name is borne by two columns or more, or by one on
    which [to_datetime] raises. *)
Definition date_failure `{Pd.Library} (key : string) (raw : Pd.DataFrame) (e : Py.exn) : Prop :=
  ((2 <= occurrences key (List.map normalize (Pd.columns raw)))%nat
   /\ e = Py.Exception "ValueError" "cannot assemble with duplicate keys")
  \/ (occurrences key (List.map normalize (Pd.columns raw)) = 1%nat
      /\ exists i, List.map normalize (Pd.columns raw) !! i = Some key
                   /\ Pd.to_datetime_error (Pd.column_at i raw) = Some e).

(** The load after its commit (lines 172-188). *)
Definition after_commit {C} `{Db.Store C} (records_inserted errors_count : nat)
  : M C Pipeline.report :=
  print (MsgInserted records_inserted) ;;
  (if (0 <? errors_count)%nat then print (MsgFailed errors_count) else ret tt) ;;
  db_call (Db.execute Pipeline.count_query) ;;
  db_call Db.fetchone ;;
  total_records <- db_fetched ;;
  print (MsgTotal total_records) ;;
  db_call Db.cursor_close ;;
  db_call Db.close ;;
  print MsgClosed ;;
  print MsgCompleted ;;
  ret {| Pipeline.records_inserted := records_inserted;
         Pipeline.errors_count := errors_count;
         Pipeline.total_records := total_records |}.

(** [m] keeps a property of the store, given that each of its calls does. *)
Definition keeps {C A} (P : C -> Prop) (m : M C A) : Prop :=
  forall w, P (db w) -> P (db (fst (m w))).

(** [m] only adds to the log and to the output, and the calls it adds
    satisfy [Q]. *)
Definition adds {C A} (Q : Db.call * option Py.exn -> Prop) (m : M C A) : Prop :=
  forall w, exists rest out,
    calls (fst (m w)) = calls w ++ rest
    /\ Forall Q rest
    /\ stdout (fst (m w)) = stdout w ++ out.

(** ** Sample tables *)

Module Sample.
Import Py.

(** The table of the design document's end-to-end scenario: the header
    [Start;End;Age Group;Gender?;Vaccination Status] and two rows, the
    second with no age group. *)
Definition survey : Pd.DataFrame := {|
  Pd.columns := ["Start"; "End"; "Age Group"; "Gender?"; "Vaccination Status"];
  Pd.rows := [ [PyStr "1709287200"; PyStr "1709287500"; PyStr "18-25"; PyStr "F"; PyStr "Yes"];
               [PyStr "1709290800"; PyStr "1709291100"; NaN; PyStr "M"; PyStr "No"] ]
|}.

Definition float_lit (s : string) : scalar := PyFloat (default pos_zero (float_of_str s)).

(** A decoded table of four rows with their submission times; the answer
    to the gender question of the second row is longer than the fifty
    characters its column takes. *)
Definition batch : Pd.DataFrame := {|
  Pd.columns := ["start"; "end"; "Age Group"; "Gender"; "Healthcare visits"; "Sleep hours"];
  Pd.rows := [ [PyStr "2024-03-01T10:00:00.000+03:00"; PyStr "2024-03-01T10:05:00.000+03:00";
                PyStr "18-25"; PyStr "F"; float_lit "3.7"; float_lit "7.5"];
               [PyStr "2024-03-01T11:00:00.000+03:00"; PyStr "2024-03-01T11:05:00.000+03:00";
                PyStr "26-35";
                PyStr "prefer to describe myself in my own words, at some length";
                NaN; NaN];
               [PyStr "2024-03-01T12:00:00.000+03:00"; PyStr "2024-03-01T12:05:00.000+03:00";
                PyStr "36-45"; PyStr "M"; float_lit "2"; float_lit "8"];
               [PyStr "2024-03-01T13:00:00.000+03:00"; PyStr "2024-03-01T13:05:00.000+03:00";
                PyStr "46-55"; PyStr "F"; float_lit "0"; float_lit "6.5"] ]
|}.

(** The same four rows with the long answer in the last one. *)
Definition late : Pd.DataFrame := {|
  Pd.columns := Pd.columns batch;
  Pd.rows := match Pd.rows batch with
             | [r1; r2; r3; r4] => [r1; r3; r4; r2]
             | rs => rs
             end
|}.

(** A table with two raw names that clean to the same reserved name. *)
Definition collision : Pd.DataFrame := {|
  Pd.columns := ["start"; " start"; "Gender"];
  Pd.rows := [ [PyStr "1709287200"; PyStr "1709287260"; PyStr "F"] ]
|}.

(** A table whose submissions were opened under two different UTC
    offsets. *)
Definition offsets : Pd.DataFrame := {|
  Pd.columns := ["start"; "Gender"];
  Pd.rows := [ [PyStr "2024-03-01T10:00:00.000+03:00"; PyStr "F"];
               [PyStr "2024-03-01T09:30:00.000+02:00"; PyStr "M"] ]
|}.

(** A stand-in for [pd.read_csv]: a few bodies by name; an empty body is no
    table at all, and any other body is read as a header without rows. *)
Definition decode (text : string) : exn + Pd.DataFrame :=
  if String.eqb text "survey" then inr survey
  else if String.eqb text "batch" then inr batch
  else if String.eqb text "late" then inr late
  else if String.eqb text "collision" then inr collision
  else if String.eqb text "offsets" then inr offsets
  else if String.eqb text "" then inl (Exception "EmptyDataError" "No columns to parse from file")
  else inr {| Pd.columns := [text]; Pd.rows := [] |}.

(** A stand-in for [pd.to_datetime]: it reads the ISO 8601 texts
    [YYYY-MM-DD(T| )hh:mm:ss], with an optional [.fff] and an optional
    [Z] or [(+|-)hh:mm], and leaves timestamps as they are. *)
Fixpoint digits (s : string) (acc : Z) : option Z :=
  match s with
  | EmptyString => Some acc
  | String c s' => if isdigit c then digits s' (10 * acc + digit c) else None
  end.

Definition number (s : string) : option Z :=
  match s with
  | EmptyString => None
  | _ => digits s 0
  end.

(** Days from 1970-01-01 to a date of the Gregorian calendar. *)
Definition days_from_civil (y m d : Z) : Z :=
  let y' := if m <=? 2 then y - 1 else y in
  let era := y' / 400 in
  let yoe := y' - era * 400 in
  let doy := (153 * (if 2 <? m then m - 3 else m + 9) + 2) / 5 + d - 1 in
  let doe := yoe * 365 + yoe / 4 - yoe / 100 + doy in
  era * 146097 + doe - 719468.

(** The UTC offset a text ends with, in seconds: none, [Z], or
    [(+|-)hh:mm]. *)
Definition zone (s : string) : option (option Z) :=
  match s with
  | EmptyString => Some None
  | String "Z" EmptyString => Some (Some 0)
  | String sg s' =>
      if (Ascii.eqb sg "+" || Ascii.eqb sg "-") && (String.length s' =? 5)%nat
         && String.eqb (substring 2 1 s') ":"
      then h ← number (substring 0 2 s');
           m ← number (substring 3 2 s');
           Some (Some ((if Ascii.eqb sg "-" then -1 else 1) * (h * 3600 + m * 60)))
      else None
  end.

(** A text as a point in time (nanoseconds since the epoch) and its UTC
    offset. *)
Definition iso (s : string) : option (Z * option Z) :=
  if String.eqb (substring 4 1 s) "-" && String.eqb (substring 7 1 s) "-"
     && (String.eqb (substring 10 1 s) "T" || String.eqb (substring 10 1 s) " ")
     && String.eqb (substring 13 1 s) ":" && String.eqb (substring 16 1 s) ":"
  then
    y ← number (substring 0 4 s);
    mo ← number (substring 5 2 s);
    d ← number (substring 8 2 s);
    h ← number (substring 11 2 s);
    mi ← number (substring 14 2 s);
    sec ← number (substring 17 2 s);
    let rest := substring 19 (String.length s - 19) s in
    '(ms, rest) ← (if String.eqb (substring 0 1 rest) "."
                   then ms ← number (substring 1 3 rest);
                        Some (ms, substring 4 (String.length rest - 4) rest)
                   else Some (0, rest));
    off ← zone rest;
    if (1 <=? mo) && (mo <=? 12) && (1 <=? d) && (d <=? 31)
       && (h <? 24) && (mi <? 60) && (sec <? 60)
    then Some (((days_from_civil y mo d * 86400 + h * 3600 + mi * 60 + sec
                 - default 0 off) * 1000 + ms) * 1000000, off)
    else None
  else None.

Definition offset_of (x : scalar) : option (option Z) :=
  match x with
  | PyStr s => snd <$> iso s
  | _ => None
  end.

(** The offsets of the cells that are read; two different ones make
    [to_datetime] raise. *)
Fixpoint same_offsets (seen : option (option Z)) (column : list scalar) : bool :=
  match column with
  | [] => true
  | x :: column' =>
      match offset_of x, seen with
      | Some off, Some off' => bool_decide (off = off') && same_offsets seen column'
      | Some off, None => same_offsets (Some off) column'
      | None, _ => same_offsets seen column'
      end
  end.

Definition pandas : Pd.Library := {|
  Pd.read_csv := decode;
  Pd.to_datetime_error column :=
    if same_offsets None column then None
    else Some (Exception "ValueError" "Mixed timezones detected. Pass utc=True in to_datetime");
  Pd.parse_datetime _ x :=
    match x with
    | PyStr s => fst <$> iso s
    | Timestamp ns => Some ns
    | _ => None
    end
|}.

(** A decoded table after the cleaning step. *)
Definition cleaned (raw : Pd.DataFrame) : Pd.DataFrame :=
  match @Pipeline.clean pandas raw with
  | inr df => df
  | inl _ => raw
  end.

(** A server on which an earlier run has loaded the two rows of [survey]. *)
Definition loaded : MemStore.t :=
  db (fst (@Pipeline.main pandas _ _ (Pipeline.Build_response 200 "survey")
             (start MemStore.empty))).

End Sample.

(** * Properties *)

(** ** Strings *)

Section StringFacts.

Lemma append_nil_l (s : string) : "" +:+ s = s.
Proof. reflexivity. Qed.

Lemma append_cons c (s t : string) : String c s +:+ t = String c (s +:+ t).
Proof. reflexivity. Qed.

Ltac str_simpl := simpl; rewrite ?append_cons, ?append_nil_l; simpl.
Ltac str_simpl_in H := simpl in H; rewrite ?append_cons, ?append_nil_l in H; simpl in H.

Lemma append_assoc (a b c : string) : (a +:+ b) +:+ c = a +:+ (b +:+ c).
Proof. induction a as [|x a IH]; str_simpl; [reflexivity | now rewrite IH]. Qed.

Lemma flat_map_string_app f (a b : string) :
  flat_map_string f (a +:+ b) = flat_map_string f a +:+ flat_map_string f b.
Proof.
  induction a as [|x a IH]; str_simpl; [reflexivity|].
  now rewrite IH, append_assoc.
Qed.

Lemma flat_map_string_ext f g (s : string) :
  (forall c, f c = g c) -> flat_map_string f s = flat_map_string g s.
Proof. intros E. induction s as [|c s IH]; str_simpl; [reflexivity | now rewrite E, IH]. Qed.

Lemma flat_map_string_compose f g (s : string) :
  flat_map_string g (flat_map_string f s)
  = flat_map_string (fun c => flat_map_string g (f c)) s.
Proof.
  induction s as [|c s IH]; str_simpl; [reflexivity|].
  now rewrite flat_map_string_app, IH.
Qed.

Lemma replace_flat_map old new (s : string) :
  Py.replace old new s
  = flat_map_string (fun c => if Ascii.eqb c old then new else String c "") s.
Proof.
  induction s as [|c s IH]; str_simpl; [reflexivity|].
  rewrite IH. now destruct (Ascii.eqb c old).
Qed.

Lemma all_chars_app p (a b : string) :
  all_chars p (a +:+ b) = all_chars p a && all_chars p b.
Proof.
  induction a as [|x a IH]; str_simpl; [reflexivity|].
  now rewrite IH, andb_assoc.
Qed.

Lemma all_chars_flat_map (p q : ascii -> bool) f (s : string) :
  (forall c, p c = true -> all_chars q (f c) = true) ->
  all_chars p s = true -> all_chars q (flat_map_string f s) = true.
Proof.
  intros Hf. induction s as [|c s IH]; str_simpl; [reflexivity|].
  intros [Hc Hs]%andb_true_iff.
  rewrite all_chars_app, (Hf c Hc), (IH Hs). reflexivity.
Qed.

Lemma all_chars_lstrip p (s : string) :
  all_chars p s = true -> all_chars p (Py.lstrip s) = true.
Proof.
  induction s as [|c s IH]; str_simpl; [reflexivity|].
  intros H. destruct (Py.isspace c).
  - apply IH. now apply andb_true_iff in H.
  - exact H.
Qed.

Lemma all_chars_rstrip p (s : string) :
  all_chars p s = true -> all_chars p (Py.rstrip s) = true.
Proof.
  induction s as [|c s IH]; str_simpl; [reflexivity|].
  intros [Hc Hs]%andb_true_iff. specialize (IH Hs).
  destruct (Py.rstrip s) as [|d r].
  - destruct (Py.isspace c); str_simpl; [reflexivity | now rewrite Hc].
  - simpl in *; rewrite ?append_cons, ?append_nil_l in *; simpl in *. now rewrite Hc, IH.
Qed.

Lemma all_chars_strip p (s : string) :
  all_chars p s = true -> all_chars p (Py.strip s) = true.
Proof. intros H. unfold Py.strip. now apply all_chars_rstrip, all_chars_lstrip. Qed.

(** What trimming removes is whitespace, at the two ends. *)
Lemma lstrip_split (s : string) :
  exists l, s = l +:+ Py.lstrip s /\ all_chars Py.isspace l = true.
Proof.
  induction s as [|c s [l [E Hl]]]; str_simpl.
  - now exists "".
  - destruct (Py.isspace c) eqn:Hc.
    + exists (String c l). str_simpl. rewrite Hc, Hl. split; [now rewrite <- E | reflexivity].
    + now exists "".
Qed.

Lemma rstrip_split (s : string) :
  exists r, s = Py.rstrip s +:+ r /\ all_chars Py.isspace r = true.
Proof.
  induction s as [|c s [r [E Hr]]].
  - now exists "".
  - simpl. destruct (Py.rstrip s) as [|d t] eqn:Ht.
    + rewrite append_nil_l in E. subst r.
      destruct (Py.isspace c) eqn:Hc.
      * exists (String c s). split; [reflexivity | simpl; now rewrite Hc, Hr].
      * exists s. split; [reflexivity | exact Hr].
    + exists r. split; [| exact Hr].
      rewrite append_cons. f_equal. exact E.
Qed.

Lemma rstrip_last (s : string) d :
  last_char (Py.rstrip s) = Some d -> Py.isspace d = false.
Proof.
  induction s as [|c s IH]; simpl; [discriminate|].
  destruct (Py.rstrip s) as [|d' t] eqn:Ht.
  - destruct (Py.isspace c) eqn:Hc; simpl; [discriminate | now intros [= <-]].
  - intros H. apply IH. exact H.
Qed.

Lemma rstrip_id (s : string) d :
  last_char s = Some d -> Py.isspace d = false -> Py.rstrip s = s.
Proof.
  induction s as [|c s IH]; str_simpl; [discriminate|].
  destruct s as [|c' s'].
  - intros [= ->] ->. reflexivity.
  - intros H Hd. rewrite (IH H Hd). reflexivity.
Qed.

Lemma rstrip_head c (s : string) :
  Py.isspace c = false -> exists t, Py.rstrip (String c s) = String c t.
Proof.
  intros Hc. str_simpl. destruct (Py.rstrip s); rewrite ?Hc; eauto.
Qed.

Lemma lstrip_head (s : string) :
  match Py.lstrip s with
  | String c _ => Py.isspace c = false
  | EmptyString => True
  end.
Proof.
  induction s as [|c s IH]; str_simpl; [exact I|].
  destruct (Py.isspace c) eqn:Hc; [exact IH | exact Hc].
Qed.

Lemma strip_trimmed (s : string) : trimmed (Py.strip s) = true.
Proof.
  unfold Py.strip. pose proof (lstrip_head s) as Hh.
  destruct (Py.lstrip s) as [|c t] eqn:Ht; [reflexivity|].
  destruct (rstrip_head c t Hh) as [u Hu].
  pose proof (rstrip_last (String c t)) as Hl. rewrite Hu in *.
  unfold trimmed. rewrite Hh. simpl negb.
  destruct (last_char (String c u)) as [d|]; [|reflexivity].
  now rewrite (Hl d eq_refl).
Qed.

Lemma last_char_cons c (s : string) : exists d, last_char (String c s) = Some d.
Proof.
  revert c. induction s as [|x s IH]; intros c; [now exists c|].
  destruct (IH x) as [d Hd]. exists d. exact Hd.
Qed.

Lemma trimmed_strip (s : string) : trimmed s = true -> Py.strip s = s.
Proof.
  destruct s as [|c s]; [reflexivity|].
  unfold trimmed. intros [Hc Hl]%andb_true_iff.
  apply negb_true_iff in Hc. unfold Py.strip.
  assert (Py.lstrip (String c s) = String c s) as -> by (str_simpl; now rewrite Hc).
  destruct (last_char (String c s)) as [d|] eqn:Hd.
  - apply (rstrip_id _ d Hd). now apply negb_true_iff.
  - destruct (last_char_cons c s) as [d E]. congruence.
Qed.

Lemma trimmed_iff (s : string) : trimmed s = true <-> Py.strip s = s.
Proof.
  split; [apply trimmed_strip|]. intros <-. apply strip_trimmed.
Qed.

Lemma no_space_trimmed (s : string) :
  all_chars (fun c => negb (Py.isspace c)) s = true -> trimmed s = true.
Proof.
  destruct s as [|c s]; [reflexivity|].
  intros H. unfold trimmed.
  assert (forall t d, all_chars (fun c => negb (Py.isspace c)) t = true ->
                      last_char t = Some d -> negb (Py.isspace d) = true) as L.
  { induction t as [|x t IH]; str_simpl; [discriminate|].
    intros d [Hx Ht]%andb_true_iff. destruct t; [now intros [= <-] | now apply IH]. }
  simpl in H. apply andb_true_iff in H as [Hc Hs]. rewrite Hc. cbn [andb].
  destruct (last_char (String c s)) as [d|] eqn:Hd; [|reflexivity].
  apply (L (String c s)); [str_simpl; now rewrite Hc, Hs | exact Hd].
Qed.

Lemma strip_split (s : string) :
  exists l r, s = l +:+ Py.strip s +:+ r
    /\ all_chars Py.isspace l = true /\ all_chars Py.isspace r = true.
Proof.
  destruct (lstrip_split s) as [l [El Hl]].
  destruct (rstrip_split (Py.lstrip s)) as [r [Er Hr]].
  exists l, r. unfold Py.strip. now rewrite <- Er, <- El.
Qed.

End StringFacts.

(** ** Schema Normalizer *)

Ltac each_char c := destruct c as [[] [] [] [] [] [] [] []].

(** The five replacements in a row rewrite each character once: no
    replacement text contains a character a later replacement looks for. *)
Lemma substitute_flat_map (s : string) :
  substitute s = flat_map_string substitute_char s.
Proof.
  unfold substitute. rewrite !replace_flat_map, !flat_map_string_compose.
  apply flat_map_string_ext.
  intros c. each_char c; reflexivity.
Qed.

Lemma substitute_clean (s : string) :
  all_chars (fun c => negb (is_target c)) (substitute s) = true.
Proof.
  rewrite substitute_flat_map.
  apply (all_chars_flat_map (fun _ => true)).
  - intros c _. each_char c; reflexivity.
  - induction s; simpl; auto.
Qed.

Lemma substitute_id (s : string) :
  all_chars (fun c => negb (is_target c)) s = true -> substitute s = s.
Proof.
  rewrite substitute_flat_map.
  induction s as [|c s IH]; simpl; [reflexivity|].
  intros [Hc Hs]%andb_true_iff. rewrite (IH Hs).
  revert Hc. each_char c; (reflexivity || discriminate).
Qed.

Lemma substitute_no_space (s : string) :
  only_plain_spaces s = true ->
  all_chars (fun c => negb (Py.isspace c)) (substitute s) = true.
Proof.
  rewrite substitute_flat_map. apply all_chars_flat_map.
  intros c. each_char c; (reflexivity || discriminate).
Qed.

(** A second pass only trims: the substitutions have nothing left to do. *)
Lemma normalize_twice (raw : string) :
  normalize (normalize raw) = Py.strip (normalize raw).
Proof.
  unfold normalize at 1. apply substitute_id, all_chars_strip, substitute_clean.
Qed.

Example normalize_ex1 : normalize " Age Group? " = "Age_Group".
Proof. reflexivity. Qed.

Example normalize_ex2 : normalize "Water/Drinking-source & use" = "Water_Drinking_source_and_use".
Proof. reflexivity. Qed.

(** C3, as the claim states it, fails: the script trims the raw name
    before it substitutes, so a leading space is dropped, where the order
    of the claim (substitute, then trim) turns it into an underscore. *)
Lemma normalize_order_counterexample :
  normalize " Age Group" = "Age_Group"
  /\ normalize_spec " Age Group" = "_Age_Group"
  /\ normalize " Age Group" <> normalize_spec " Age Group".
Proof. repeat split. discriminate. Qed.

(** C3, amended: for every raw field name the Schema Normalizer first trims
    the surrounding whitespace and then rewrites each remaining character
    on its own (space, slash and hyphen to an underscore, question mark to
    nothing, ampersand to "and", any other character to itself); it is
    defined for every name, and equal names get equal results. *)
Theorem normalize_trims_then_substitutes (raw : string) :
  normalize raw = flat_map_string substitute_char (Py.strip raw)
  /\ trimmed (Py.strip raw) = true
  /\ (exists l r, raw = l +:+ Py.strip raw +:+ r
        /\ all_chars Py.isspace l = true /\ all_chars Py.isspace r = true)
  /\ (exists canonical, normalize raw = canonical)
  /\ (forall raw', raw' = raw -> normalize raw' = normalize raw).
Proof.
  split; [apply substitute_flat_map|].
  split; [apply strip_trimmed|].
  split; [apply strip_split|].
  split; [now exists (normalize raw) | now intros ? ->].
Qed.

(** C9, as the claim states it, fails: a question mark shields an inner
    tab from the first trimming, its removal leaves the tab at the end, and
    the second pass trims it. *)
Lemma normalize_idempotence_counterexample :
  let raw := "Vaccinated" +:+ String "009" "?" in
  normalize raw = "Vaccinated" +:+ String "009" ""
  /\ normalize (normalize raw) = "Vaccinated"
  /\ normalize (normalize raw) <> normalize raw.
Proof. repeat split. discriminate. Qed.

(** C9, amended: for every raw field name, rewriting twice gives the same
    as rewriting once exactly when the first result neither begins nor
    ends with whitespace, which is the case for every name whose only
    whitespace characters are plain spaces; equal inputs always give equal
    outputs. *)
Theorem normalize_idempotent_when_trimmed (raw : string) :
  (normalize (normalize raw) = normalize raw <-> trimmed (normalize raw) = true)
  /\ (only_plain_spaces raw = true -> normalize (normalize raw) = normalize raw)
  /\ (forall raw', raw = raw' -> normalize raw = normalize raw').
Proof.
  rewrite normalize_twice, trimmed_iff. split; [reflexivity|].
  split; [|now intros ? ->].
  intros H. apply trimmed_strip, no_space_trimmed, substitute_no_space.
  now apply all_chars_strip.
Qed.

Lemma normalize_idempotent_witness :
  only_plain_spaces " Water/Drinking-source & use? " = true
  /\ normalize (normalize " Water/Drinking-source & use? ")
     = normalize " Water/Drinking-source & use? ".
Proof.
  split; [reflexivity|].
  apply (proj1 (proj2 (normalize_idempotent_when_trimmed " Water/Drinking-source & use? "))).
  reflexivity.
Defined.

(** ** Column Resolver *)

Lemma candidates_filter (r : role) (columns : list string) :
  candidates r columns = List.filter (matches r) columns.
Proof. destruct r; reflexivity. Qed.

Lemma head_filter_Some {A} (p : A -> bool) (l : list A) (x : A) :
  head (List.filter p l) = Some x <->
  exists before after, l = before ++ x :: after
    /\ p x = true /\ Forall (fun y => p y = false) before.
Proof.
  induction l as [|a l IH]; simpl.
  - split; [discriminate|]. intros (b & t & E & _). now destruct b.
  - destruct (p a) eqn:Ha; simpl.
    + split.
      * intros [= ->]. exists [], l. auto.
      * intros (b & t & E & Hx & Hb). destruct b as [|y b]; simpl in E.
        -- now injection E as -> _.
        -- injection E as -> _. inversion Hb; congruence.
    + rewrite IH. split.
      * intros (b & t & -> & Hx & Hb). exists (a :: b), t. auto.
      * intros (b & t & E & Hx & Hb). destruct b as [|y b]; simpl in E.
        -- injection E as -> _. congruence.
        -- injection E as -> ->. inversion Hb; subst. eauto.
Qed.

Lemma filter_none {A} (p : A -> bool) (l : list A) :
  (forall x, x ∈ l -> p x = false) -> List.filter p l = [].
Proof.
  induction l as [|a l IH]; simpl; [reflexivity|]. intros H.
  rewrite (H a) by constructor. apply IH. intros x Hx. apply H. now constructor.
Qed.

Lemma absent_value (r : role) (row : Pd.row) (columns : list string) :
  candidates r columns = [] -> role_value r columns row = absent r.
Proof.
  destruct r; simpl; unfold Pipeline.age_val, Pipeline.gender_val, Pipeline.vacc_val,
    Pipeline.visit_val, Pipeline.exercise_val, Pipeline.water_val, Pipeline.sleep_val,
    Pipeline.insurance_val; intros ->; reflexivity.
Qed.

Lemma bound_value (r : role) (row : Pd.row) (columns : list string) name :
  bound r columns = Some name -> role_value r columns row = value_under r name row.
Proof.
  unfold bound.
  destruct r; simpl; unfold Pipeline.age_val, Pipeline.gender_val, Pipeline.vacc_val,
    Pipeline.visit_val, Pipeline.exercise_val, Pipeline.water_val, Pipeline.sleep_val,
    Pipeline.insurance_val;
  match goal with |- head ?l = _ -> _ => destruct l; simpl; [discriminate | now intros [= ->]] end.
Qed.

Theorem resolver_binds_first_match (r : role) (columns : list string) :
  (forall name, bound r columns = Some name <->
     exists before after, columns = before ++ name :: after
       /\ matches r name = true /\ Forall (fun c => matches r c = false) before)
  /\ (forall name row, bound r columns = Some name ->
        role_value r columns row = value_under r name row)
  /\ ((forall c, c ∈ columns -> matches r c = false) ->
        bound r columns = None
        /\ forall row, role_value r columns row = absent r).
Proof.
  split; [|split].
  - intros name. unfold bound. rewrite candidates_filter. apply head_filter_Some.
  - intros name row. apply bound_value.
  - intros H. assert (candidates r columns = []) as E
      by (rewrite candidates_filter; now apply filter_none).
    split; [unfold bound; now rewrite E|]. intros row. now apply absent_value.
Qed.

Lemma resolver_tie_break_witness :
  bound age_group ["id"; "age_group_old"; "age_group_new"] = Some "age_group_old"
  /\ bound gender ["id"; "age_group_old"; "age_group_new"] = None.
Proof.
  split.
  - apply (proj1 (resolver_binds_first_match age_group _) "age_group_old").
    exists ["id"], ["age_group_new"]. repeat split. repeat constructor.
  - apply (proj2 (proj2 (resolver_binds_first_match gender _))).
    intros c Hc. repeat (apply elem_of_cons in Hc as [->|Hc]; [reflexivity|]).
    now apply elem_of_nil in Hc.
Defined.

(** ** Running the script *)

Section RunFacts.
Context {C : Type} `{Db.Store C}.

Lemma bind_inr {A B} (m : M C A) (k : A -> M C B) w w' a :
  m w = (w', inr a) -> bind m k w = k a w'.
Proof. unfold bind. now intros ->. Qed.

Lemma bind_inl {A B} (m : M C A) (k : A -> M C B) w w' e :
  m w = (w', inl e) -> bind m k w = (w', inl e).
Proof. unfold bind. now intros ->. Qed.

Lemma bind_print {B} l (k : unit -> M C B) w :
  bind (print l) k w = k tt (World (db w) (stdout w ++ [l]) (calls w)).
Proof. reflexivity. Qed.

Lemma bind_ret {A B} (a : A) (k : A -> M C B) w : bind (ret a) k w = k a w.
Proof. reflexivity. Qed.

Lemma db_call_cases c w :
  (exists d, Db.perform c (db w) = (d, None)
     /\ db_call c w = (World d (stdout w) (calls w ++ [(c, None)]), inr tt))
  \/ (exists d e, Db.perform c (db w) = (d, Some e)
     /\ db_call c w = (World d (stdout w) (calls w ++ [(c, Some e)]), inl e)).
Proof.
  unfold db_call. destruct (Db.perform c (db w)) as [d [e|]]; [right | left]; eauto.
Qed.

Lemma raised_app l1 l2 : raised (l1 ++ l2) = raised l1 ++ raised l2.
Proof. apply omap_app. Qed.

Lemma inserted_app l1 l2 : inserted (l1 ++ l2) = inserted l1 ++ inserted l2.
Proof. apply omap_app. Qed.

Lemma attempted_app l1 l2 : attempted (l1 ++ l2) = attempted l1 ++ attempted l2.
Proof. apply omap_app. Qed.

Lemma raised_cons_ok (c : Db.call) l : raised ((c, None) :: l) = raised l.
Proof. reflexivity. Qed.

Lemma raised_cons_raise (c : Db.call) e l : raised ((c, Some e) :: l) = (c, e) :: raised l.
Proof. reflexivity. Qed.

Lemma inserted_cons_ok columns it l :
  inserted ((insert_call columns it, None) :: l)
  = Pipeline.params columns (snd it) :: inserted l.
Proof. reflexivity. Qed.

Lemma inserted_cons_raise (c : Db.call) e l : inserted ((c, Some e) :: l) = inserted l.
Proof. unfold inserted. simpl. destruct c as [| |[]| | | |]; reflexivity. Qed.

Lemma attempted_cons columns it r l :
  attempted ((insert_call columns it, r) :: l)
  = Pipeline.params columns (snd it) :: attempted l.
Proof. reflexivity. Qed.

Lemma loop_log_calls columns its c :
  List.map fst (loop_log columns its c) = List.map (insert_call columns) its.
Proof.
  revert c. induction its as [|it its IH]; intros c; simpl; [reflexivity|].
  destruct (Db.perform (insert_call columns it) c) as [c' r]. simpl. now rewrite IH.
Qed.

Lemma loop_log_attempted columns its c :
  attempted (loop_log columns its c)
  = List.map (fun it => Pipeline.params columns (snd it)) its.
Proof.
  revert c. induction its as [|it its IH]; intros c; simpl; [reflexivity|].
  destruct (Db.perform (insert_call columns it) c) as [c' r].
  now rewrite attempted_cons, IH.
Qed.

Lemma loop_log_outcomes columns its c :
  (length (inserted (loop_log columns its c)) + length (raised (loop_log columns its c))
   = length its)%nat.
Proof.
  revert c. induction its as [|it its IH]; intros c; simpl; [reflexivity|].
  destruct (Db.perform (insert_call columns it) c) as [c' [e|]];
    rewrite ?raised_cons_ok, ?raised_cons_raise, ?inserted_cons_ok, ?inserted_cons_raise;
    specialize (IH c'); simpl; lia.
Qed.

(** One turn of the loop: the insert is sent, and whether it raises or not
    the turn ends normally, with one of the two counters moved. *)
Lemma insert_row_run df ri ec idx row w :
  let c := insert_call (Pd.columns df) (idx, row) in
  exists out,
    Pipeline.insert_row df (ri, ec) (idx, row) w
    = (World (fst (Db.perform c (db w))) (stdout w ++ out)
             (calls w ++ [(c, snd (Db.perform c (db w)))]),
       inr (match snd (Db.perform c (db w)) with
            | None => (S ri, ec)
            | Some _ => (ri, S ec)
            end))
    /\ length (List.filter is_warning out)
       = match snd (Db.perform c (db w)) with
         | None => 0%nat
         | Some _ => if (S ec <=? 3)%nat then 1%nat else 0%nat
         end
    /\ Forall (fun l => l <> MsgCompleted) out.
Proof.
  intros c.
  change c with (Db.execute (Pipeline.insert_query (Pipeline.params (Pd.columns df) row))).
  clear c. unfold Pipeline.insert_row, try_except, bind, db_call.
  destruct (Db.perform _ (db w)) as [d [e|]]; cbn [fst snd].
  - destruct (S ec <=? 3)%nat.
    + exists [MsgWarning idx e].
      split; [reflexivity | split; [reflexivity | constructor; [discriminate | constructor]]].
    + exists []. cbn. rewrite app_nil_r. repeat split. constructor.
  - destruct (S ri mod 10 =? 0)%nat.
    + exists [MsgProgress (S ri) (Pd.len df)].
      split; [reflexivity | split; [reflexivity | constructor; [discriminate | constructor]]].
    + exists []. cbn. rewrite app_nil_r. repeat split. constructor.
Qed.

(** The loop: it never raises, sends one insert per row, counts the
    inserts that went through and those that raised, and prints a warning
    for each of the first three that raised. *)
Lemma for_each_insert_row df its : forall ri ec w,
  let log := loop_log (Pd.columns df) its (db w) in
  exists out,
    for_each its (Pipeline.insert_row df) (ri, ec) w
    = (World (loop_db (Pd.columns df) its (db w)) (stdout w ++ out) (calls w ++ log),
       inr (ri + length (inserted log), ec + length (raised log))%nat)
    /\ length (List.filter is_warning out)
       = (Nat.min 3 (ec + length (raised log)) - Nat.min 3 ec)%nat
    /\ Forall (fun l => l <> MsgCompleted) out.
Proof.
  induction its as [|[idx row] its IH]; intros ri ec w log; subst log.
  - exists []. cbn. rewrite !app_nil_r, !Nat.add_0_r. destruct w. repeat split; [lia | constructor].
  - cbn [for_each loop_log loop_db].
    destruct (insert_row_run df ri ec idx row w) as (out1 & E1 & Hw1 & Hc1).
    cbv zeta in E1. rewrite (bind_inr _ _ _ _ _ E1).
    destruct (Db.perform (insert_call (Pd.columns df) (idx, row)) (db w)) as [d r].
    cbn [fst snd] in *.
    destruct r as [e|].
    + destruct (IH ri (S ec) (World d (stdout w ++ out1)
          (calls w ++ [(insert_call (Pd.columns df) (idx, row), Some e)])))
        as (out & -> & Hw & Hc).
      cbn [db stdout calls] in *. exists (out1 ++ out).
      rewrite <- !app_assoc, raised_cons_raise, inserted_cons_raise. cbn [length app].
      split; [do 2 f_equal; f_equal; lia|].
      split; [| now apply Forall_app].
      rewrite List.filter_app, length_app, Hw1, Hw.
      destruct (S ec <=? 3)%nat eqn:Hle;
        [apply Nat.leb_le in Hle | apply Nat.leb_gt in Hle]; lia.
    + destruct (IH (S ri) ec (World d (stdout w ++ out1)
          (calls w ++ [(insert_call (Pd.columns df) (idx, row), None)])))
        as (out & -> & Hw & Hc).
      cbn [db stdout calls] in *. exists (out1 ++ out).
      rewrite <- !app_assoc, raised_cons_ok, inserted_cons_ok. cbn [length app].
      split; [do 2 f_equal; f_equal; lia|].
      split; [| now apply Forall_app].
      rewrite List.filter_app, length_app, Hw1, Hw. lia.
Qed.

End RunFacts.

Section UploadFacts.
Context {C : Type} `{Db.Store C}.

Lemma bind_fetched {B} (k : Z -> M C B) w :
  bind db_fetched k w = k (Db.fetched (db w)) w.
Proof. reflexivity. Qed.

Lemma raised_elem (c : Db.call) e log : (c, Some e) ∈ log -> (c, e) ∈ raised log.
Proof.
  intros Hin. unfold raised. apply list_elem_of_omap. exists (c, Some e). auto.
Qed.

Ltac abandon c e :=
  right; exists e, c;
  split; [reflexivity |
  split; [reflexivity |
  split; [cbn [fst calls]; set_solver |
  eexists; split; [cbn [fst stdout];
                   first [symmetry; apply app_nil_r | rewrite <- ?app_assoc; reflexivity] |
                   repeat first [apply Forall_app_2 | apply List.Forall_cons | apply List.Forall_nil
                                 | discriminate | assumption]]]]].

Ltac call_step :=
  lazymatch goal with
  | |- context [bind (db_call ?c) ?k ?w] =>
      let d := fresh "d" in
      let e := fresh "e" in
      let Ep := fresh "Ep" in
      let E := fresh "E" in
      destruct (db_call_cases c w) as [(d & Ep & E) | (d & e & Ep & E)];
      [ rewrite (bind_inr _ _ _ _ _ E)
      | rewrite (bind_inl _ _ _ _ _ E) ];
      clear E; cbn [db stdout calls] in *;
      [ | abandon c e ]
  end.

(** Every way the load can go: it completes, with the statements around
    the loop in their order and none of them raising; or a call that is not
    an insert raised and the load was abandoned at that call. *)
Lemma upload_run df w :
  (exists c5 c' out total,
      let log := loop_log (Pd.columns df) (Pd.iterrows df) c5 in
      Pipeline.upload df w
      = (World c'
               (stdout w
                ++ [MsgConnected; MsgSchemaReady Pipeline.schema_name;
                    MsgTableCreated Pipeline.table_name; MsgInserting (Pd.len df)]
                ++ out
                ++ [MsgInserted (length (inserted log))]
                ++ (if (0 <? length (raised log))%nat
                    then [MsgFailed (length (raised log))] else [])
                ++ [MsgTotal total; MsgClosed; MsgCompleted])
               (calls w ++ prepare_calls ++ log ++ finish_calls),
         inr {| Pipeline.records_inserted := length (inserted log);
                Pipeline.errors_count := length (raised log);
                Pipeline.total_records := total |})
      /\ length (List.filter is_warning out) = Nat.min 3 (length (raised log))
      /\ Forall (fun l => l <> MsgCompleted) out)
  \/ (exists e c,
      snd (Pipeline.upload df w) = inl e
      /\ is_insert c = false
      /\ (c, Some e) ∈ calls (fst (Pipeline.upload df w))
      /\ exists out, stdout (fst (Pipeline.upload df w)) = stdout w ++ out
                     /\ Forall (fun l => l <> MsgCompleted) out).
Proof.
  unfold Pipeline.upload.
  call_step.
  call_step.
  rewrite bind_print; cbn [db stdout calls].
  call_step.
  rewrite bind_print; cbn [db stdout calls].
  call_step.
  call_step.
  rewrite !bind_print; cbn [db stdout calls].
  unfold Pipeline.insert_rows.
  match goal with |- context [bind (for_each _ _ _) _ ?w5] =>
    destruct (for_each_insert_row df (Pd.iterrows df) 0 0 w5) as (out & E & Hw & Hc)
  end.
  cbv zeta in E. rewrite (bind_inr _ _ _ _ _ E). clear E.
  cbn [db stdout calls Nat.add] in *.
  call_step.
  rewrite bind_print; cbn [db stdout calls].
  match goal with |- context [(0 <? ?n)%nat] => destruct (0 <? n)%nat eqn:Hpos end.
  - rewrite bind_print; cbn [db stdout calls].
    call_step.
    call_step.
    rewrite bind_fetched, bind_print; cbn [db stdout calls].
    call_step.
    call_step.
    rewrite !bind_print; cbn [db stdout calls].
    left. eexists _, _, out, _. cbv zeta. split.
    { unfold ret. rewrite <- !app_assoc. refine (f_equal2 pair _ eq_refl).
      rewrite Hpos. reflexivity. }
    split; [rewrite Hw; lia | exact Hc].
  - rewrite bind_ret; cbn [db stdout calls].
    call_step.
    call_step.
    rewrite bind_fetched, bind_print; cbn [db stdout calls].
    call_step.
    call_step.
    rewrite !bind_print; cbn [db stdout calls].
    left. eexists _, _, out, _. cbv zeta. split.
    { unfold ret. rewrite <- !app_assoc. refine (f_equal2 pair _ eq_refl).
      rewrite Hpos. reflexivity. }
    split; [rewrite Hw; lia | exact Hc].
Qed.

End UploadFacts.

Section LoaderFacts.
Context {C : Type} `{Db.Store C}.

Lemma iterrows_length df : length (Pd.iterrows df) = Pd.len df.
Proof. unfold Pd.iterrows, Pd.len. apply length_imap. Qed.

Lemma loop_log_no_commit columns its (c : C) :
  List.filter is_commit (loop_log columns its c) = [].
Proof.
  revert c. induction its as [|it its IH]; intros c; simpl; [reflexivity|].
  destruct (Db.perform (insert_call columns it) c) as [c' r]. simpl. apply IH.
Qed.

End LoaderFacts.

Section CallFacts.
Context {C : Type} `{Db.Store C}.

Lemma bind_db_call_ok {B} c (k : unit -> M C B) w d :
  Db.perform c (db w) = (d, None) ->
  bind (db_call c) k w = k tt (World d (stdout w) (calls w ++ [(c, None)])).
Proof. intros E. unfold bind, db_call. now rewrite E. Qed.

End CallFacts.

Section MainFacts.
Context `{Pd.Library} {C : Type} `{Db.Store C}.

Lemma main_not_200 response (w : world C) :
  Pipeline.status_code response <> 200 ->
  Pipeline.main response w
  = (World (db w)
           (stdout w ++ [MsgFetching; MsgFetchFailed (Pipeline.status_code response);
                         MsgPleaseCheck; MsgCheckCredentials; MsgCheckUrl; MsgCheckConnection])
           (calls w),
     inr None).
Proof.
  intros Hs. unfold Pipeline.main. rewrite bind_print.
  destruct (Z.eqb_spec (Pipeline.status_code response) 200) as [|_]; [contradiction|].
  rewrite !bind_print. unfold ret. cbn [db stdout calls].
  now rewrite <- !app_assoc.
Qed.

Lemma main_200 response raw df (w : world C) :
  Pipeline.status_code response = 200 ->
  Pd.read_csv (Pipeline.text response) = inr raw ->
  Pipeline.clean raw = inr df ->
  Pipeline.main response w
  = try_except (bind (Pipeline.upload df) (fun r => ret (Some r))) Pipeline.handler
      (World (db w)
             (stdout w ++ [MsgFetching; MsgFetched; MsgRecords (Pd.len raw);
                           MsgColumns (length (Pd.columns raw)); MsgProcessing;
                           MsgCleaned (Pd.len df); MsgConnecting])
             (calls w)).
Proof.
  intros Hs Hr Hc. unfold Pipeline.main. rewrite bind_print, Hs.
  rewrite Z.eqb_refl, bind_print.
  rewrite (bind_inr (lift (Pd.read_csv (Pipeline.text response))) _ _ _ raw)
    by (unfold lift; now rewrite Hr).
  rewrite !bind_print.
  rewrite (bind_inr (lift (Pipeline.clean raw)) _ _ _ df)
    by (unfold lift; now rewrite Hc).
  rewrite !bind_print. cbn [db stdout calls]. now rewrite <- !app_assoc.
Qed.

(** C6: for every answer of the fetch whose status is not 200, the run
    prints the failure with its status code and the three things to check
    (credentials, URL, connection) and ends there: the store is in the
    state it was in, no call was made to it (no drop, create or insert, no
    row attempted), nothing is fetched again, no report and no completion
    message come out. *)
Theorem fetch_failure_is_fatal (response : Pipeline.response) (c : C) :
  Pipeline.status_code response <> 200 ->
  Pipeline.main response (start c)
  = (World c [MsgFetching; MsgFetchFailed (Pipeline.status_code response);
              MsgPleaseCheck; MsgCheckCredentials; MsgCheckUrl; MsgCheckConnection] [],
     inr None)
  /\ attempted (calls (fst (Pipeline.main response (start c)))) = []
  /\ MsgCompleted ∉ stdout (fst (Pipeline.main response (start c))).
Proof.
  intros Hs. rewrite (main_not_200 response (start c) Hs). cbn [fst stdout calls db start app].
  split; [reflexivity|]. split; [reflexivity|].
  intros Hin. repeat (apply elem_of_cons in Hin as [Hin|Hin]; [discriminate|]).
  now apply elem_of_nil in Hin.
Qed.

End MainFacts.



Lemma fetch_failure_witness :
  403 <> 200
  /\ @Pipeline.main Sample.pandas _ _ (Pipeline.Build_response 403 "Forbidden")
       (start MemStore.empty)
     = (World MemStore.empty
          [MsgFetching; MsgFetchFailed 403;
           MsgPleaseCheck; MsgCheckCredentials; MsgCheckUrl; MsgCheckConnection] [],
        inr None).
Proof.
  split; [discriminate|].
  apply (@fetch_failure_is_fatal Sample.pandas _ _
           (Pipeline.Build_response 403 "Forbidden") MemStore.empty).
  discriminate.
Defined.

(** ** What every insert of a run carries *)

Section LogInvariant.
Context {C : Type} `{Db.Store C}.
Variable Q : Db.call -> Prop.

Lemma inv_ret {A} (a : A) : log_inv Q (ret a : M C A).
Proof. intros w Hw. exact Hw. Qed.

Lemma inv_lift {A} (r : Py.exn + A) : log_inv Q (lift r : M C A).
Proof. intros w Hw. exact Hw. Qed.

Lemma inv_print l : log_inv Q (print l : M C unit).
Proof. intros w Hw. exact Hw. Qed.

Lemma inv_fetched : log_inv Q db_fetched.
Proof. intros w Hw. exact Hw. Qed.

Lemma inv_db_call c : Q c -> log_inv Q (db_call c).
Proof.
  intros Hc w Hw. unfold db_call. destruct (Db.perform c (db w)) as [d r].
  cbn [fst calls]. apply Forall_app_2; [exact Hw | now constructor].
Qed.

Lemma inv_bind {A B} (m : M C A) (k : A -> M C B) :
  log_inv Q m -> (forall a, log_inv Q (k a)) -> log_inv Q (bind m k).
Proof.
  intros Hm Hk w Hw. unfold bind. specialize (Hm w Hw).
  destruct (m w) as [w' [e|a]]; [exact Hm | now apply Hk].
Qed.

Lemma inv_try {A} (body : M C A) handler :
  log_inv Q body -> (forall e, log_inv Q (handler e)) -> log_inv Q (try_except body handler).
Proof.
  intros Hb Hh w Hw. unfold try_except. specialize (Hb w Hw).
  destruct (body w) as [w' [e|a]]; [now apply Hh | exact Hb].
Qed.

Lemma inv_if {A} (b : bool) (m1 m2 : M C A) :
  log_inv Q m1 -> log_inv Q m2 -> log_inv Q (if b then m1 else m2).
Proof. now destruct b. Qed.

Lemma inv_for_each {A S} (l : list A) (body : S -> A -> M C S) :
  (forall acc x, x ∈ l -> log_inv Q (body acc x)) ->
  forall acc, log_inv Q (for_each l body acc).
Proof.
  induction l as [|x l IH]; intros Hb acc; cbn [for_each]; [apply inv_ret|].
  apply inv_bind; [apply Hb; constructor|].
  intros acc'. apply IH. intros ? ? ?. apply Hb. now constructor.
Qed.

Lemma inv_bind_lift {A B} (r : Py.exn + A) (k : A -> M C B) :
  (forall a, r = inr a -> log_inv Q (k a)) -> log_inv Q (bind (lift r) k).
Proof.
  intros Hk w Hw. unfold bind, lift. destruct r as [e|a]; [exact Hw | now apply Hk].
Qed.

Ltac inv_steps Hq :=
  repeat first
    [ apply inv_print | apply inv_ret | apply inv_fetched | apply inv_lift
    | apply inv_db_call, Hq; reflexivity
    | apply inv_if | apply inv_bind; [|intro] ].

Lemma inv_upload df :
  (forall c, is_insert c = false -> Q c) ->
  (forall it, it ∈ Pd.iterrows df -> Q (insert_call (Pd.columns df) it)) ->
  log_inv Q (Pipeline.upload df).
Proof.
  intros Hq Hi. unfold Pipeline.upload. inv_steps Hq.
  - unfold Pipeline.insert_rows. apply inv_for_each.
    intros [ri ec] [idx row] Hin. unfold Pipeline.insert_row.
    apply inv_try; [|intro; inv_steps Hq].
    apply inv_bind; [apply inv_db_call, (Hi _ Hin) | intro; inv_steps Hq].
  - match goal with a : (nat * nat)%type |- _ => destruct a end.
    inv_steps Hq.
Qed.

Lemma inv_main `{Pd.Library} response :
  (forall c, is_insert c = false -> Q c) ->
  (forall raw df it,
      Pd.read_csv (Pipeline.text response) = inr raw -> Pipeline.clean raw = inr df ->
      it ∈ Pd.iterrows df -> Q (insert_call (Pd.columns df) it)) ->
  log_inv Q (Pipeline.main response).
Proof.
  intros Hq Hi. unfold Pipeline.main.
  apply inv_bind; [apply inv_print | intros _].
  apply inv_if; [|inv_steps Hq].
  apply inv_bind; [apply inv_print | intros _].
  apply inv_bind_lift. intros raw Hr.
  apply inv_bind; [apply inv_print | intros _].
  apply inv_bind; [apply inv_print | intros _].
  apply inv_bind; [apply inv_print | intros _].
  apply inv_bind_lift. intros df Hc.
  inv_steps Hq.
  apply inv_try.
  - apply inv_bind; [|intro; apply inv_ret].
    apply inv_upload; [exact Hq|]. intros it Hin. now apply (Hi raw df).
  - intros e. destruct e; cbn [Pipeline.handler]; inv_steps Hq.
Qed.

End LogInvariant.

(** ** Submission times *)

Lemma get_absent (cols : list string) (r : list Py.scalar) key default :
  key ∉ cols -> Pd.get (zip cols r) key default = default.
Proof.
  intros Hk. unfold Pd.get.
  assert (List.filter (fun p : string * Py.scalar => String.eqb (fst p) key) (zip cols r) = []) as ->;
    [|reflexivity].
  revert r. induction cols as [|c cols IH]; intros r; [reflexivity|].
  destruct r as [|x r]; [reflexivity|]. cbn.
  apply not_elem_of_cons in Hk as [Hc Hk].
  destruct (String.eqb_spec c key) as [->|_]; [contradiction|]. now apply IH.
Qed.

Lemma iterrows_elem df it :
  it ∈ Pd.iterrows df -> exists r, r ∈ Pd.rows df /\ snd it = zip (Pd.columns df) r.
Proof.
  unfold Pd.iterrows. intros (i & r & -> & Hr)%elem_of_lookup_imap.
  exists r. split; [now apply list_elem_of_lookup_2 in Hr | reflexivity].
Qed.

Lemma convert_dates_columns `{Pd.Library} key df df' :
  Pd.convert_dates key df = inr df' -> Pd.columns df' = Pd.columns df.
Proof.
  unfold Pd.convert_dates.
  destruct (List.filter (String.eqb key) (Pd.columns df)) as [|a [|b l]];
    destruct (Pd.index_of key (Pd.columns df)); try destruct (Pd.to_datetime _);
    intros [= <-]; reflexivity.
Qed.

Lemma clean_columns `{Pd.Library} raw df :
  Pipeline.clean raw = inr df -> Pd.columns df = List.map normalize (Pd.columns raw).
Proof.
  unfold Pipeline.clean.
  destruct (Pd.convert_dates "start" _) as [e|df1] eqn:E1; [discriminate|].
  intros E2. apply convert_dates_columns in E1, E2. now rewrite E2, E1.
Qed.

Section SubmissionTimes.
Context `{Pd.Library} {C : Type} `{Db.Store C}.

(** C10: the two submission times are read under the exact names [start]
    and [end] and under no other: for every run and every insert it
    sends, if no cleaned column name is [start] the first parameter
    (submission_start) is null, and if none is [end] the second
    (submission_end) is null, whatever else the columns are called. *)
Theorem submission_times_by_exact_name (response : Pipeline.response) (c : C) raw ps :
  Pd.read_csv (Pipeline.text response) = inr raw ->
  ps ∈ attempted (calls (fst (Pipeline.main response (start c)))) ->
  ("start" ∉ List.map normalize (Pd.columns raw) -> ps !! 0%nat = Some (Py.Scalar Py.PyNone))
  /\ ("end" ∉ List.map normalize (Pd.columns raw) -> ps !! 1%nat = Some (Py.Scalar Py.PyNone)).
Proof.
  intros Hr Hps.
  set (P := fun ps : list Py.value =>
    ("start" ∉ List.map normalize (Pd.columns raw) -> ps !! 0%nat = Some (Py.Scalar Py.PyNone))
    /\ ("end" ∉ List.map normalize (Pd.columns raw) -> ps !! 1%nat = Some (Py.Scalar Py.PyNone))).
  assert (Forall (fun cr => carries P (fst cr))
            (calls (fst (Pipeline.main response (start c))))) as Hall.
  { apply (inv_main (carries P)); [| |constructor].
    - intros [| |[]| | | |]; (exact (fun _ => I) || discriminate).
    - intros raw' df [idx row] Hr' Hc Hin. rewrite Hr in Hr'. injection Hr' as <-.
      destruct (iterrows_elem df _ Hin) as (r & _ & Hit). cbn [snd] in Hit. subst row.
      unfold insert_call, Pipeline.insert_query, carries, P. cbn [snd].
      rewrite <- (clean_columns raw df Hc).
      split; intros Hk; cbn; now rewrite get_absent. }
  unfold attempted in Hps. apply list_elem_of_omap in Hps as ([call r] & Hin & Hcall).
  rewrite Forall_forall in Hall. specialize (Hall _ Hin). cbn [fst] in *.
  destruct call as [| |[]| | | |]; try discriminate. injection Hcall as ->. exact Hall.
Qed.

End SubmissionTimes.

Lemma submission_times_witness :
  let response := Pipeline.Build_response 200 "survey" in
  let ps := [Py.Scalar Py.PyNone; Py.Scalar Py.PyNone; Py.Scalar (Py.PyStr "18-25");
             Py.Scalar (Py.PyStr "F"); Py.Scalar (Py.PyStr "Yes"); Py.Scalar (Py.PyInt 0);
             Py.Scalar Py.PyNone; Py.Scalar Py.PyNone;
             Py.Scalar (Py.PyFloat Py.pos_zero); Py.Scalar Py.PyNone] in
  List.map normalize (Pd.columns Sample.survey)
  = ["Start"; "End"; "Age_Group"; "Gender"; "Vaccination_Status"]
  /\ ps ∈ attempted (calls (fst (@Pipeline.main Sample.pandas _ _ response (start MemStore.empty))))
  /\ ps !! 0%nat = Some (Py.Scalar Py.PyNone)
  /\ ps !! 1%nat = Some (Py.Scalar Py.PyNone).
Proof.
  cbv zeta. split; [reflexivity|].
  assert (forall x (l : list (list Py.value)), head l = Some x -> x ∈ l) as Hhead
    by (intros x [|y l]; [discriminate | intros [= ->]; constructor]).
  match goal with |- ?ps ∈ ?l /\ _ =>
    assert (ps ∈ l) as Hin by (apply Hhead; vm_compute; reflexivity)
  end.
  split; [exact Hin|].
  destruct (@submission_times_by_exact_name Sample.pandas _ _
              (Pipeline.Build_response 200 "survey") MemStore.empty Sample.survey _
              eq_refl Hin) as [Hs He].
  split; [apply Hs | apply He]; vm_compute; intros Hx;
    repeat (apply elem_of_cons in Hx as [Hx|Hx]; [discriminate|]);
    now apply elem_of_nil in Hx.
Defined.

(** ** Numeric roles *)



Section NumericRoles.
Context {C : Type} `{Db.Store C}.


End NumericRoles.

Example visits_truncate :
  List.map (fun x => Pipeline.int_float_or_zero (Py.Scalar x))
    [Py.PyStr "3.7"; Py.PyStr "-2.5"; Py.PyStr " 12 "; Py.PyStr "1e2"; Py.PyStr "N/A";
     Py.PyStr "many"; Py.NaN; Py.PyInt 4; Py.PyFloat Py.one; Py.PyStr "inf"; Py.PyNone]
  = [3; -2; 12; 100; 0; 0; 0; 4; 1; 0; 0].
Proof. vm_compute. reflexivity. Qed.

Example sleep_hours_parse :
  List.map (fun x => Pipeline.float_or_zero (Py.Scalar x))
    [Py.PyStr "7.5"; Py.PyStr "N/A"; Py.NaN; Py.PyInt 8]
  = [Py.PyFloat (S754_finite false 8444249301319680 (-50)); Py.PyInt 0; Py.PyInt 0;
     Py.PyFloat (S754_finite false 4503599627370496 (-49))].
Proof. vm_compute. reflexivity. Qed.

(** ** Date columns *)

Section DateColumns.
Context `{Pd.Library}.

Lemma filter_eqb_nil key (cols : list string) :
  List.filter (String.eqb key) cols = [] -> key ∉ cols.
Proof.
  intros Hf Hin. apply list_elem_of_In in Hin.
  assert (In key (List.filter (String.eqb key) cols)) as Hk
    by (apply List.filter_In; split; [exact Hin | apply String.eqb_refl]).
  rewrite Hf in Hk. exact Hk.
Qed.

Lemma index_of_unique key (cols : list string) j :
  (length (List.filter (String.eqb key) cols) <= 1)%nat ->
  cols !! j = Some key -> Pd.index_of key cols = Some j.
Proof.
  revert j. induction cols as [|c cols IH]; intros j Hlen Hj; [discriminate|].
  cbn in Hlen |- *. destruct (String.eqb_spec key c) as [<-|Hne].
  - rewrite String.eqb_refl. destruct j as [|j]; [reflexivity|].
    cbn in Hlen, Hj. destruct (List.filter (String.eqb key) cols) eqn:Hf; [|cbn in Hlen; lia].
    apply filter_eqb_nil in Hf. apply list_elem_of_lookup_2 in Hj. contradiction.
  - destruct (String.eqb_spec c key) as [->|_]; [contradiction|].
    destruct j as [|j]; [cbn in Hj; congruence|].
    cbn in Hj. now rewrite (IH j Hlen Hj).
Qed.

Lemma filter_eqb_one key (cols : list string) a :
  List.filter (String.eqb key) cols = [a] ->
  exists i, cols !! i = Some key /\ Pd.index_of key cols = Some i.
Proof.
  intros Hf.
  assert (In a (List.filter (String.eqb key) cols)) as Ha by (rewrite Hf; now left).
  apply List.filter_In in Ha as [Ha Hk]. apply String.eqb_eq in Hk. subst a.
  apply list_elem_of_In, list_elem_of_lookup_1 in Ha as [i Hi].
  exists i. split; [exact Hi|]. apply index_of_unique; [|exact Hi].
  rewrite Hf. cbn. lia.
Qed.

(** The conversion of one date column, when it returns: every cell under
    the name has become a [Timestamp] or [NaT], and every other cell is as
    it was. *)
Lemma convert_dates_cells key df df' :
  Pd.convert_dates key df = inr df' ->
  Pd.columns df' = Pd.columns df
  /\ length (Pd.rows df') = length (Pd.rows df)
  /\ forall k r, Pd.rows df !! k = Some r ->
     exists r', Pd.rows df' !! k = Some r' /\ length r' = length r
       /\ forall j name x, Pd.columns df !! j = Some name -> r !! j = Some x ->
            r' !! j = Some (if String.eqb name key then Pd.coerce (Pd.column_at j df) x else x).
Proof.
  unfold Pd.convert_dates.
  destruct (List.filter (String.eqb key) (Pd.columns df)) as [|a [|b l]] eqn:Hf.
  - intros [= <-]. apply filter_eqb_nil in Hf.
    split; [reflexivity|]. split; [reflexivity|].
    intros k r Hr. exists r. repeat split; [exact Hr|].
    intros j name x Hj Hx. destruct (String.eqb_spec name key) as [->|_]; [|exact Hx].
    apply list_elem_of_lookup_2 in Hj. contradiction.
  - destruct (filter_eqb_one key _ a Hf) as (i & Hi & ->).
    assert (length (List.filter (String.eqb key) (Pd.columns df)) <= 1)%nat as Hle
      by (rewrite Hf; cbn; lia).
    unfold Pd.to_datetime. destruct (Pd.to_datetime_error _); [discriminate|].
    intros [= <-]. cbn [Pd.columns Pd.rows].
    split; [reflexivity|].
    assert (length (List.map (Pd.coerce (Pd.column_at i df)) (Pd.column_at i df))
            = length (Pd.rows df)) as Hl
      by (unfold Pd.column_at; now rewrite !length_map).
    split; [rewrite length_zip_with; lia|].
    intros k r Hr.
    exists (<[i := Pd.coerce (Pd.column_at i df) (nth i r Py.PyNone)]> r).
    split; [|split; [apply length_insert|]].
    + rewrite lookup_zip_with, Hr, list_lookup_fmap. unfold Pd.column_at at 2.
      rewrite list_lookup_fmap, Hr. reflexivity.
    + intros j name x Hj Hx. destruct (String.eqb_spec name key) as [->|Hne].
      * assert (j = i) as ->
          by (pose proof (index_of_unique key _ i Hle Hi);
              pose proof (index_of_unique key _ j Hle Hj); congruence).
        rewrite list_lookup_insert_eq by (now apply lookup_lt_Some in Hx).
        now rewrite nth_lookup, Hx.
      * rewrite list_lookup_insert_ne; [exact Hx|]. intros ->. congruence.
  - discriminate.
Qed.

(** What the conversion of one date column raises, if anything. *)
Lemma convert_dates_raises key df e :
  Pd.convert_dates key df = inl e <->
  ((2 <= occurrences key (Pd.columns df))%nat
   /\ e = Py.Exception "ValueError" "cannot assemble with duplicate keys")
  \/ (occurrences key (Pd.columns df) = 1%nat
      /\ exists i, Pd.columns df !! i = Some key
                   /\ Pd.to_datetime_error (Pd.column_at i df) = Some e).
Proof.
  unfold Pd.convert_dates, occurrences.
  destruct (List.filter (String.eqb key) (Pd.columns df)) as [|a [|b l]] eqn:Hf; cbn [length].
  - split.
    + discriminate.
    + intros [[Hx _] | [Hx _]]; lia.
  - destruct (filter_eqb_one key _ a Hf) as (i & Hi & ->).
    assert (length (List.filter (String.eqb key) (Pd.columns df)) <= 1)%nat as Hle
      by (rewrite Hf; cbn; lia).
    unfold Pd.to_datetime. split.
    + destruct (Pd.to_datetime_error (Pd.column_at i df)) as [e'|] eqn:He; [|discriminate].
      intros [= <-]. right. split; [reflexivity|]. now exists i.
    + intros [[Hx _] | [_ (j & Hj & He)]]; [lia|].
      assert (j = i) as ->
        by (pose proof (index_of_unique key _ i Hle Hi);
            pose proof (index_of_unique key _ j Hle Hj); congruence).
      now rewrite He.
  - split.
    + intros [= <-]. left. split; [lia | reflexivity].
    + intros [[_ ->] | [Hx _]]; [reflexivity | lia].
Qed.

Lemma column_at_unchanged j (rows rows' : list (list Py.scalar)) :
  length rows' = length rows ->
  (forall k r, rows !! k = Some r ->
     exists r', rows' !! k = Some r' /\ length r' = length r /\
       forall x, r !! j = Some x -> r' !! j = Some x) ->
  List.map (fun r => nth j r Py.PyNone) rows' = List.map (fun r => nth j r Py.PyNone) rows.
Proof.
  intros Hlen Hrows. apply list_eq. intros k. rewrite !list_lookup_fmap.
  destruct (rows !! k) as [r|] eqn:Hr.
  - destruct (Hrows k r Hr) as (r' & -> & Hl & Hx). cbn. f_equal.
    rewrite !nth_lookup. destruct (r !! j) as [x|] eqn:Hj.
    + now rewrite (Hx x eq_refl).
    + apply lookup_ge_None in Hj. rewrite (proj2 (lookup_ge_None r' j)) by lia. reflexivity.
  - apply lookup_ge_None in Hr. rewrite (proj2 (lookup_ge_None rows' k)) by lia. reflexivity.
Qed.

(** The conversion of one date column leaves the columns of other names as
    they were. *)
Lemma convert_dates_other key df df' j name :
  Pd.convert_dates key df = inr df' ->
  Pd.columns df !! j = Some name -> name <> key ->
  Pd.column_at j df' = Pd.column_at j df.
Proof.
  intros E Hj Hne. destruct (convert_dates_cells key df df' E) as (_ & Hl & Hcells).
  unfold Pd.column_at. apply column_at_unchanged; [exact Hl|].
  intros k r Hr. destruct (Hcells k r Hr) as (r' & Hk & Hlen & Hcell).
  exists r'. split; [exact Hk|]. split; [exact Hlen|].
  intros x Hx. rewrite (Hcell j name x Hj Hx).
  now destruct (String.eqb_spec name key).
Qed.

(** What the cleaning step raises, if anything: what the conversion of the
    [start] column raises, else what that of the [end] column raises; each
    of the two on the decoded table with its names cleaned. *)
Lemma clean_raises raw e :
  let df0 := {| Pd.columns := List.map normalize (Pd.columns raw); Pd.rows := Pd.rows raw |} in
  Pipeline.clean raw = inl e <->
  Pd.convert_dates "start" df0 = inl e
  \/ ((exists df1, Pd.convert_dates "start" df0 = inr df1)
      /\ Pd.convert_dates "end" df0 = inl e).
Proof.
  intros df0. unfold Pipeline.clean. fold df0.
  destruct (Pd.convert_dates "start" df0) as [e1|df1] eqn:E1.
  - split; [intros [= <-]; now left | intros [[= <-]|[[df1 [=]] _]]; reflexivity].
  - assert (forall e', Pd.convert_dates "end" df1 = inl e' <-> Pd.convert_dates "end" df0 = inl e')
      as Hsame.
    { intros e'. rewrite !convert_dates_raises.
      rewrite (convert_dates_columns "start" df0 df1 E1).
      split; (intros [Hdup | [Hone (i & Hi & He)]]; [now left | right; split; [exact Hone|]]);
        exists i; (split; [exact Hi|]).
      - now rewrite <- (convert_dates_other "start" df0 df1 i "end" E1 Hi).
      - now rewrite (convert_dates_other "start" df0 df1 i "end" E1 Hi). }
    rewrite Hsame. split; [intros E2; right; split; [now exists df1 | exact E2]|].
    intros [[=] | [_ E2]]; exact E2.
Qed.


End DateColumns.



(** With two columns cleaned to the same reserved name the conversion
    raises, outside every handler. *)
Example clean_raises_on_repeated_start :
  @Pipeline.clean Sample.pandas
    {| Pd.columns := ["start"; " start"]; Pd.rows := [[Py.PyStr "1"; Py.PyStr "2"]] |}
  = inl (Py.Exception "ValueError" "cannot assemble with duplicate keys").
Proof. reflexivity. Qed.

(** ** Text roles *)

Lemma params_position (r : role) (columns : list string) (row : Pd.row) :
  Pipeline.params columns row !! position r = Some (role_value r columns row).
Proof. destruct r; reflexivity. Qed.

Lemma filter_zip_absent name (cols : list string) : forall cells : list Py.scalar,
  name ∉ cols ->
  List.filter (fun p : string * Py.scalar => String.eqb (fst p) name) (zip cols cells) = [].
Proof.
  induction cols as [|c cols IH]; intros [|x cells] Hk; try reflexivity. cbn.
  apply not_elem_of_cons in Hk as [Hc Hk].
  destruct (String.eqb_spec c name) as [->|_]; [contradiction|]. now apply IH.
Qed.

(** The lookup under a name borne by one column yields the cell of that
    column. *)
Lemma get_unique name (cols : list string) : forall (cells : list Py.scalar) j x default,
  occurrences name cols = 1%nat -> cols !! j = Some name -> cells !! j = Some x ->
  Pd.get (zip cols cells) name default = Py.Scalar x.
Proof.
  unfold occurrences, Pd.get.
  induction cols as [|c cols IH]; intros cells j x default Hocc Hj Hx; [discriminate|].
  destruct cells as [|x0 cells]; [discriminate|]. cbn in Hocc |- *.
  rewrite (String.eqb_sym name c) in Hocc.
  destruct (String.eqb_spec c name) as [->|Hne].
  - cbn in Hocc. destruct (List.filter (String.eqb name) cols) eqn:Hf; [|discriminate].
    assert (name ∉ cols) as Hno.
    { intros Hin. apply list_elem_of_In in Hin.
      assert (In name (List.filter (String.eqb name) cols)) as Hk
        by (apply List.filter_In; split; [exact Hin | apply String.eqb_refl]).
      now rewrite Hf in Hk. }
    destruct j as [|j]; [|cbn in Hj; apply list_elem_of_lookup_2 in Hj; contradiction].
    cbn in Hx. injection Hx as ->. now rewrite filter_zip_absent.
  - destruct j as [|j]; [cbn in Hj; congruence|].
    exact (IH cells j x default Hocc Hj Hx).
Qed.

(** X3: a text role passes on the cell the row holds under the bound name,
    unchanged, whatever the cell is: for a name borne by one column, the
    value of the role, and the parameter of the insert at the role's
    position, is that cell.  The float NaN of an empty field is sent as
    NaN. *)
Theorem text_role_sends_the_cell (r : role) (columns : list string)
    (cells : list Py.scalar) (name : string) (j : nat) (x : Py.scalar) :
  is_text r = true ->
  bound r columns = Some name ->
  occurrences name columns = 1%nat ->
  columns !! j = Some name ->
  cells !! j = Some x ->
  role_value r columns (zip columns cells) = Py.Scalar x
  /\ Pipeline.params columns (zip columns cells) !! position r = Some (Py.Scalar x).
Proof.
  intros Ht Hb Hocc Hj Hx.
  assert (role_value r columns (zip columns cells) = Py.Scalar x) as E.
  { rewrite (bound_value r _ columns name Hb).
    destruct r; try discriminate Ht; cbn [value_under];
      exact (get_unique name columns cells j x _ Hocc Hj Hx). }
  split; [exact E | now rewrite params_position, E].
Qed.

(** C4, at the table of the end-to-end scenario: the age group is bound to
    [Age_Group], both rows load, and the row without an age group is sent,
    and kept by the store, with the float NaN as its age group, which is
    not the null value [None]. *)
Theorem empty_age_group_is_sent_as_nan :
  let run := @Pipeline.main Sample.pandas _ _ (Pipeline.Build_response 200 "survey")
               (start MemStore.empty) in
  bound age_group (List.map normalize (Pd.columns Sample.survey)) = Some "Age_Group"
  /\ snd run = inr (Some {| Pipeline.records_inserted := 2;
                            Pipeline.errors_count := 0;
                            Pipeline.total_records := 2 |})
  /\ (List.map (fun ps => ps !! position age_group)
        <$> content Pipeline.schema_name Pipeline.table_name (db (fst run)))
     = Some [Some (Py.Scalar (Py.PyStr "18-25")); Some (Py.Scalar Py.NaN)]
  /\ Py.Scalar Py.NaN <> Py.Scalar Py.PyNone.
Proof.
  cbv zeta. split; [reflexivity|]. split; [vm_compute; reflexivity|].
  split; [vm_compute; reflexivity | discriminate].
Qed.

(** ** Further properties of the load *)

Section LoadReport.
Context {C : Type} `{Db.Store C}.

(** X1: whenever the load completes, whatever number of inserts raised:
    every row was sent once, in order, and the one commit came after the
    last of them, with no insert after it; the two counters of the report
    add up to the number of rows; and the warnings printed are as many as
    the failed rows, up to three. *)
Theorem load_reports_every_row (df : Pd.DataFrame) (c : C) rep :
  snd (Pipeline.upload df (start c)) = inr rep ->
  attempted (calls (fst (Pipeline.upload df (start c))))
  = List.map (fun it => Pipeline.params (Pd.columns df) (snd it)) (Pd.iterrows df)
  /\ (Pipeline.records_inserted rep + Pipeline.errors_count rep = Pd.len df)%nat
  /\ Pipeline.records_inserted rep = length (inserted (calls (fst (Pipeline.upload df (start c)))))
  /\ Pipeline.errors_count rep = length (raised (calls (fst (Pipeline.upload df (start c)))))
  /\ length (List.filter is_warning (stdout (fst (Pipeline.upload df (start c)))))
     = Nat.min 3 (Pipeline.errors_count rep)
  /\ length (List.filter is_commit (calls (fst (Pipeline.upload df (start c))))) = 1%nat
  /\ exists log rest,
       calls (fst (Pipeline.upload df (start c)))
       = prepare_calls ++ log ++ (Db.commit, None) :: rest
       /\ List.map fst log = List.map (insert_call (Pd.columns df)) (Pd.iterrows df)
       /\ attempted rest = [].
Proof.
  destruct (upload_run df (start c))
    as [(c5 & c' & out & total & E & Hw & Hc) | (e' & c0 & Er & _)];
    [|rewrite Er; discriminate].
  cbv zeta in E. rewrite E. cbn [fst snd calls stdout start app].
  intros [= <-]. cbn [Pipeline.records_inserted Pipeline.errors_count].
  set (log := loop_log (Pd.columns df) (Pd.iterrows df) c5) in *.
  rewrite !attempted_app, !inserted_app, !raised_app, !List.filter_app.
  change (attempted prepare_calls) with (@nil (list Py.value)).
  change (attempted finish_calls) with (@nil (list Py.value)).
  change (inserted prepare_calls) with (@nil (list Py.value)).
  change (inserted finish_calls) with (@nil (list Py.value)).
  change (raised prepare_calls) with (@nil (Db.call * Py.exn)).
  change (raised finish_calls) with (@nil (Db.call * Py.exn)).
  rewrite !app_nil_r. cbn [app].
  split; [apply loop_log_attempted|].
  split; [rewrite <- iterrows_length; apply loop_log_outcomes|].
  split; [reflexivity|]. split; [reflexivity|].
  split.
  { cbn [List.filter is_warning]. rewrite !List.filter_app, !length_app, Hw.
    destruct (0 <? length (raised log))%nat; cbn; lia. }
  split.
  { unfold log. rewrite loop_log_no_commit. reflexivity. }
  eexists log, _. split; [reflexivity|]. split; [apply loop_log_calls | reflexivity].
Qed.

End LoadReport.

Lemma load_reports_witness :
  snd (Pipeline.upload (Sample.cleaned Sample.late) (start Sample.loaded))
  = inr {| Pipeline.records_inserted := 3; Pipeline.errors_count := 1;
           Pipeline.total_records := 2 |}
  /\ length (List.filter is_warning
               (stdout (fst (Pipeline.upload (Sample.cleaned Sample.late)
                               (start Sample.loaded))))) = 1%nat.
Proof.
  assert (snd (Pipeline.upload (Sample.cleaned Sample.late) (start Sample.loaded))
          = inr {| Pipeline.records_inserted := 3; Pipeline.errors_count := 1;
                   Pipeline.total_records := 2 |}) as E by (vm_compute; reflexivity).
  split; [exact E|].
  exact (proj1 (proj2 (proj2 (proj2 (proj2
           (load_reports_every_row (Sample.cleaned Sample.late) Sample.loaded _ E)))))).
Defined.

Section Collisions.
Context `{Pd.Library} {C : Type} `{Db.Store C}.

(** X2: when the cleaning step raises (two raw names cleaned to the same
    reserved name make the date conversion raise), no handler catches it:
    the run ends with that exception before the store is touched. *)
Theorem cleaning_error_aborts_run (response : Pipeline.response) (c : C) raw e :
  Pipeline.status_code response = 200 ->
  Pd.read_csv (Pipeline.text response) = inr raw ->
  Pipeline.clean raw = inl e ->
  Pipeline.main response (start c)
  = (World c [MsgFetching; MsgFetched; MsgRecords (Pd.len raw);
              MsgColumns (length (Pd.columns raw)); MsgProcessing] [],
     inl e).
Proof.
  intros Hs Hr Hc. unfold Pipeline.main. rewrite bind_print, Hs.
  rewrite Z.eqb_refl, bind_print.
  rewrite (bind_inr (lift (Pd.read_csv (Pipeline.text response))) _ _ _ raw)
    by (unfold lift; now rewrite Hr).
  rewrite !bind_print.
  rewrite (bind_inl (lift (Pipeline.clean raw)) _ _ _ e)
    by (unfold lift; now rewrite Hc).
  reflexivity.
Qed.

End Collisions.

Lemma cleaning_error_witness :
  @Pipeline.main Sample.pandas _ _ (Pipeline.Build_response 200 "collision")
    (start MemStore.empty)
  = (World MemStore.empty
       [MsgFetching; MsgFetched; MsgRecords 1; MsgColumns 3; MsgProcessing] [],
     inl (Py.Exception "ValueError" "cannot assemble with duplicate keys")).
Proof.
  exact (@cleaning_error_aborts_run Sample.pandas _ _
           (Pipeline.Build_response 200 "collision") MemStore.empty Sample.collision _
           eq_refl eq_refl eq_refl).
Defined.

Lemma text_role_sends_the_cell_witness :
  Pipeline.params ["Start"; "End"; "Age_Group"; "Gender"; "Vaccination_Status"]
    (zip ["Start"; "End"; "Age_Group"; "Gender"; "Vaccination_Status"]
         [Py.PyStr "1709290800"; Py.PyStr "1709291100"; Py.NaN; Py.PyStr "M"; Py.PyStr "No"])
    !! position age_group
  = Some (Py.Scalar Py.NaN).
Proof.
  exact (proj2 (text_role_sends_the_cell age_group
           ["Start"; "End"; "Age_Group"; "Gender"; "Vaccination_Status"]
           [Py.PyStr "1709290800"; Py.PyStr "1709291100"; Py.NaN; Py.PyStr "M"; Py.PyStr "No"]
           "Age_Group" 2 Py.NaN eq_refl eq_refl eq_refl eq_refl eq_refl)).
Defined.

(** ** Keywords under cleaning *)

Lemma prefix_cons c d (sub s : string) :
  String.prefix (String c sub) (String d s)
  = if Ascii.ascii_dec c d then String.prefix sub s else false.
Proof. reflexivity. Qed.

Lemma prefix_iff (sub s : string) :
  String.prefix sub s = true <-> exists b, s = sub +:+ b.
Proof.
  revert s. induction sub as [|c sub IH]; intros s.
  - split; [intros _; now exists s | intros _; now destruct s].
  - destruct s as [|d s]; [split; [discriminate | intros [b Hb]; discriminate]|].
    rewrite prefix_cons. destruct (Ascii.ascii_dec c d) as [<-|Hne].
    + rewrite IH. split; intros [b Hb]; exists b.
      * now rewrite append_cons, <- Hb.
      * rewrite append_cons in Hb. now injection Hb.
    + split; [discriminate|]. intros [b Hb]. rewrite append_cons in Hb. congruence.
Qed.

Lemma contains_cons sub d (s : string) :
  Py.contains sub (String d s) = String.prefix sub (String d s) || Py.contains sub s.
Proof. reflexivity. Qed.

Lemma contains_iff (sub s : string) :
  Py.contains sub s = true <-> exists a b, s = a +:+ sub +:+ b.
Proof.
  induction s as [|d s IH].
  - change (Py.contains sub "") with (String.prefix sub "" || false).
    rewrite orb_false_r, prefix_iff. split.
    + intros [b Hb]. now exists "", b.
    + intros (a & b & Hab). destruct a; [now exists b|discriminate].
  - rewrite contains_cons, orb_true_iff, prefix_iff, IH. split.
    + intros [[b Hb]|(a & b & ->)]; [now exists "", b | now exists (String d a), b].
    + intros (a & b & Hab). destruct a as [|x a].
      * left. now exists b.
      * right. rewrite append_cons in Hab. injection Hab as _ ->. now exists a, b.
Qed.

Lemma lower_app (a b : string) : Py.lower (a +:+ b) = Py.lower a +:+ Py.lower b.
Proof.
  induction a as [|x a IH]; [reflexivity|].
  rewrite append_cons. cbn [Py.lower]. now rewrite IH, append_cons.
Qed.

(** Matching looks for the keyword anywhere in the name. *)
Lemma contains_lower_app kw pre c post :
  Py.contains kw (Py.lower c) = true ->
  Py.contains kw (Py.lower (pre +:+ c +:+ post)) = true.
Proof.
  rewrite !contains_iff. intros (a & b & E).
  exists (Py.lower pre +:+ a), (b +:+ Py.lower post).
  rewrite !lower_app, E, !append_assoc. reflexivity.
Qed.

Ltac bool_cases :=
  rewrite ?andb_true_iff, ?orb_true_iff in *; intuition auto.

(** X5: the keyword rules look for their keywords anywhere in a name: a
    name that matches a role still matches it with any text put before or
    after it. *)
Theorem matches_inside_longer_name (r : role) (pre c post : string) :
  matches r c = true -> matches r (pre +:+ c +:+ post) = true.
Proof.
  pose proof (fun kw => contains_lower_app kw pre c post) as Hk.
  destruct r; unfold matches; cbv zeta; bool_cases.
Qed.

Lemma matches_inside_witness :
  matches sleep_hours "hour" = true
  /\ matches sleep_hours ("Working_" +:+ "hour" +:+ "s_per_week") = true.
Proof.
  split; [reflexivity|].
  exact (matches_inside_longer_name sleep_hours "Working_" "hour" "s_per_week" eq_refl).
Defined.

Lemma isspace_lower c : Py.isspace (Py.lower_char c) = Py.isspace c.
Proof. each_char c; reflexivity. Qed.

Lemma lower_lstrip (s : string) : Py.lower (Py.lstrip s) = Py.lstrip (Py.lower s).
Proof.
  induction s as [|c s IH]; [reflexivity|].
  cbn [Py.lstrip Py.lower]. rewrite isspace_lower.
  destruct (Py.isspace c); [exact IH | reflexivity].
Qed.

Lemma lower_rstrip (s : string) : Py.lower (Py.rstrip s) = Py.rstrip (Py.lower s).
Proof.
  induction s as [|c s IH]; [reflexivity|].
  cbn [Py.rstrip Py.lower]. rewrite <- IH, isspace_lower.
  destruct (Py.rstrip s) as [|d t]; cbn [Py.lower]; [|reflexivity].
  now destruct (Py.isspace c).
Qed.

Lemma lower_strip (s : string) : Py.lower (Py.strip s) = Py.strip (Py.lower s).
Proof. unfold Py.strip. now rewrite lower_rstrip, lower_lstrip. Qed.

Lemma lower_flat_map f (s : string) :
  Py.lower (flat_map_string f s) = flat_map_string (fun c => Py.lower (f c)) s.
Proof.
  induction s as [|c s IH]; [reflexivity|].
  cbn [flat_map_string]. now rewrite lower_app, IH.
Qed.

Lemma flat_map_lower f (s : string) :
  flat_map_string f (Py.lower s) = flat_map_string (fun c => f (Py.lower_char c)) s.
Proof.
  induction s as [|c s IH]; [reflexivity|].
  cbn [flat_map_string Py.lower]. now rewrite IH.
Qed.

Lemma lower_substitute (s : string) : Py.lower (substitute s) = substitute (Py.lower s).
Proof.
  rewrite !substitute_flat_map, lower_flat_map, flat_map_lower.
  apply flat_map_string_ext. intros c. each_char c; reflexivity.
Qed.

(** Cleaning and lowercasing can be done in either order. *)
Lemma lower_normalize (raw : string) : Py.lower (normalize raw) = normalize (Py.lower raw).
Proof. unfold normalize. now rewrite lower_substitute, lower_strip. Qed.

Lemma lstrip_app c (a u : string) :
  Py.isspace c = false -> Py.lstrip (a +:+ String c u) = Py.lstrip a +:+ String c u.
Proof.
  intros Hc. induction a as [|x a IH].
  - cbn [Py.lstrip]. rewrite !append_nil_l. cbn [Py.lstrip]. now rewrite Hc.
  - rewrite append_cons. cbn [Py.lstrip]. destruct (Py.isspace x); [exact IH|].
    now rewrite append_cons.
Qed.

Lemma last_char_app (a u : string) c :
  last_char u = Some c -> last_char (a +:+ u) = Some c.
Proof.
  intros Hu. induction a as [|x a IH]; [exact Hu|].
  rewrite append_cons. destruct (a +:+ u) eqn:E; [discriminate IH | exact IH].
Qed.

Lemma rstrip_app (u b : string) c :
  last_char u = Some c -> Py.isspace c = false ->
  Py.rstrip (u +:+ b) = u +:+ Py.rstrip b.
Proof.
  intros Hu Hc. induction u as [|x u IH]; [discriminate|].
  rewrite !append_cons. cbn [Py.rstrip]. destruct u as [|y u].
  - injection Hu as ->. rewrite !append_nil_l.
    destruct (Py.rstrip b); [now rewrite Hc | reflexivity].
  - rewrite IH by exact Hu. now rewrite append_cons.
Qed.

Lemma plain_ends (kw : string) :
  plain kw = true -> kw <> "" ->
  exists c rest d, kw = String c rest /\ Py.isspace c = false
                   /\ last_char kw = Some d /\ Py.isspace d = false.
Proof.
  intros Hp Hne. destruct kw as [|c rest]; [contradiction|].
  destruct (last_char_cons c rest) as [d Hd]. exists c, rest, d.
  assert (forall t x, plain t = true -> last_char t = Some x -> Py.isspace x = false) as L.
  { induction t as [|y t IHt]; [discriminate|]. unfold plain. cbn [all_chars last_char].
    intros x [[_ Hy%negb_true_iff]%andb_true_iff Ht]%andb_true_iff.
    destruct t; [now intros [= <-] | now apply IHt]. }
  split; [reflexivity|]. split; [|split; [exact Hd | exact (L _ _ Hp Hd)]].
  unfold plain in Hp. cbn [all_chars] in Hp.
  apply andb_true_iff in Hp as [[_ Hc%negb_true_iff]%andb_true_iff _]. exact Hc.
Qed.

Lemma contains_strip kw (t : string) :
  plain kw = true -> kw <> "" ->
  Py.contains kw t = true -> Py.contains kw (Py.strip t) = true.
Proof.
  intros Hp Hne. rewrite !contains_iff. intros (a & b & ->).
  destruct (plain_ends kw Hp Hne) as (c & rest & d & Ek & Hc & Hd & Hds).
  exists (Py.lstrip a), (Py.rstrip b). unfold Py.strip.
  rewrite Ek at 1. rewrite append_cons, (lstrip_app c a _ Hc), <- append_cons, <- Ek.
  rewrite <- append_assoc.
  rewrite (rstrip_app (Py.lstrip a +:+ kw) b d (last_char_app _ _ _ Hd) Hds).
  now rewrite append_assoc.
Qed.

Lemma plain_no_target (kw : string) :
  plain kw = true -> all_chars (fun c => negb (is_target c)) kw = true.
Proof.
  unfold plain. induction kw as [|c kw IH]; [reflexivity|]. cbn [all_chars].
  intros [[-> _]%andb_true_iff Hk]%andb_true_iff. now rewrite IH.
Qed.

Lemma contains_substitute kw (u : string) :
  plain kw = true ->
  Py.contains kw u = true -> Py.contains kw (substitute u) = true.
Proof.
  intros Hp. rewrite !contains_iff. intros (a & b & ->).
  exists (substitute a), (substitute b).
  rewrite !substitute_flat_map, !flat_map_string_app, <- !substitute_flat_map.
  now rewrite (substitute_id kw (plain_no_target kw Hp)).
Qed.

Lemma contains_lower_normalize kw (raw : string) :
  plain kw = true -> kw <> "" ->
  Py.contains kw (Py.lower raw) = true ->
  Py.contains kw (Py.lower (normalize raw)) = true.
Proof.
  intros Hp Hne Hc. rewrite lower_normalize. unfold normalize.
  now apply contains_substitute, contains_strip.
Qed.

(** X6: cleaning a column name never loses a role: a raw name that matches
    the keywords of a role still matches them once cleaned (the keywords
    hold no character that cleaning trims or rewrites). *)
Theorem cleaning_keeps_matches (r : role) (raw : string) :
  matches r raw = true -> matches r (normalize raw) = true.
Proof.
  assert (forall kw, plain kw = true -> kw <> "" ->
            Py.contains kw (Py.lower raw) = true ->
            Py.contains kw (Py.lower (normalize raw)) = true) as Hk
    by (intros; now apply contains_lower_normalize).
  destruct r; unfold matches; cbv zeta;
    rewrite ?andb_true_iff, ?orb_true_iff;
    intuition (auto using Hk; try (left; apply Hk; [reflexivity | discriminate | assumption]);
               try (right; apply Hk; [reflexivity | discriminate | assumption]);
               try (apply Hk; [reflexivity | discriminate | assumption])).
Qed.

Lemma cleaning_keeps_matches_witness :
  matches water_source " Drinking-Water source? " = true
  /\ matches water_source (normalize " Drinking-Water source? ") = true.
Proof.
  split; [reflexivity|].
  exact (cleaning_keeps_matches water_source " Drinking-Water source? " eq_refl).
Defined.

(** X7: a cleaned name holds none of the characters the cleaning rewrites
    (space, slash, question mark, hyphen, ampersand), and the names that
    cleaning leaves as they are are exactly those that hold none of them
    and neither begin nor end with whitespace. *)
Theorem canonical_names (raw s : string) :
  all_chars (fun c => negb (is_target c)) (normalize raw) = true
  /\ (normalize s = s <->
      all_chars (fun c => negb (is_target c)) s = true /\ trimmed s = true).
Proof.
  split; [apply substitute_clean|]. split.
  - intros E.
    assert (all_chars (fun c => negb (is_target c)) s = true) as Hc
      by (rewrite <- E; apply substitute_clean).
    split; [exact Hc|]. apply trimmed_iff.
    unfold normalize in E. rewrite substitute_id in E by now apply all_chars_strip.
    exact E.
  - intros [Hc Ht]. unfold normalize. rewrite (trimmed_strip s Ht).
    now apply substitute_id.
Qed.

(** ** The shape of the log of a load *)

Section LogShape.
Context {C : Type} `{Db.Store C}.

Ltac call_step_with fail_tac :=
  lazymatch goal with
  | |- context [bind (db_call ?c) ?k ?w] =>
      let d := fresh "d" in
      let e := fresh "e" in
      let Ep := fresh "Ep" in
      let E := fresh "E" in
      destruct (db_call_cases c w) as [(d & Ep & E) | (d & e & Ep & E)];
      [ rewrite (bind_inr _ _ _ _ _ E)
      | rewrite (bind_inl _ _ _ _ _ E) ];
      clear E Ep; cbn [db stdout calls] in *;
      [ | fail_tac e ]
  end.

Ltac prep_fail n e :=
  left; exists n, e; cbn [fst snd calls];
  split; [lia | split; [rewrite <- ?app_assoc; reflexivity | reflexivity]].

Ltac finish_fail n e :=
  right; right; eexists _, n, e; cbn [fst snd calls];
  split; [lia | split; [rewrite <- ?app_assoc; reflexivity | reflexivity]].

(** The calls of a load, in every case: the preparation up to a call that
    raised; or the whole preparation, one insert per row, and then the
    closing calls, all of them or up to one that raised. *)
Lemma upload_log_shape df (w : world C) :
  let run := Pipeline.upload df w in
  (exists n e, (n < 5)%nat
     /\ calls (fst run) = calls w ++ cut prepare_calls n e
     /\ snd run = inl e)
  \/ (exists c5 rep,
     calls (fst run)
     = calls w ++ prepare_calls ++ loop_log (Pd.columns df) (Pd.iterrows df) c5 ++ finish_calls
     /\ snd run = inr rep)
  \/ (exists c5 n e, (n < 5)%nat
     /\ calls (fst run)
        = calls w ++ prepare_calls ++ loop_log (Pd.columns df) (Pd.iterrows df) c5
            ++ cut finish_calls n e
     /\ snd run = inl e).
Proof.
  cbv zeta. unfold Pipeline.upload.
  call_step_with ltac:(fun e => prep_fail 0%nat e).
  call_step_with ltac:(fun e => prep_fail 1%nat e).
  rewrite bind_print; cbn [db stdout calls].
  call_step_with ltac:(fun e => prep_fail 2%nat e).
  rewrite bind_print; cbn [db stdout calls].
  call_step_with ltac:(fun e => prep_fail 3%nat e).
  call_step_with ltac:(fun e => prep_fail 4%nat e).
  rewrite !bind_print; cbn [db stdout calls].
  unfold Pipeline.insert_rows.
  match goal with |- context [bind (for_each _ _ _) _ ?w5] =>
    destruct (for_each_insert_row df (Pd.iterrows df) 0 0 w5) as (out & E & _)
  end.
  cbv zeta in E. rewrite (bind_inr _ _ _ _ _ E). clear E.
  cbn [db stdout calls Nat.add] in *.
  call_step_with ltac:(fun e => finish_fail 0%nat e).
  rewrite bind_print; cbn [db stdout calls].
  match goal with |- context [(0 <? ?n)%nat] => destruct (0 <? n)%nat end.
  - rewrite bind_print; cbn [db stdout calls].
    call_step_with ltac:(fun e => finish_fail 1%nat e).
    call_step_with ltac:(fun e => finish_fail 2%nat e).
    rewrite bind_fetched, bind_print; cbn [db stdout calls].
    call_step_with ltac:(fun e => finish_fail 3%nat e).
    call_step_with ltac:(fun e => finish_fail 4%nat e).
    rewrite !bind_print; cbn [db stdout calls].
    right; left. eexists _, _. unfold ret. cbn [fst snd calls].
    split; [rewrite <- !app_assoc; reflexivity | reflexivity].
  - rewrite bind_ret; cbn [db stdout calls].
    call_step_with ltac:(fun e => finish_fail 1%nat e).
    call_step_with ltac:(fun e => finish_fail 2%nat e).
    rewrite bind_fetched, bind_print; cbn [db stdout calls].
    call_step_with ltac:(fun e => finish_fail 3%nat e).
    call_step_with ltac:(fun e => finish_fail 4%nat e).
    rewrite !bind_print; cbn [db stdout calls].
    right; left. eexists _, _. unfold ret. cbn [fst snd calls].
    split; [rewrite <- !app_assoc; reflexivity | reflexivity].
Qed.

Ltac upto5 n := destruct n as [|[|[|[|[|n]]]]]; [| | | | |lia].

(** X8: a load either fails while preparing the table, and then sends no
    insert and no commit at all; or it prepares the table and then sends
    one insert for every row, in order, however many of them raise, and
    asks for the commit once, right after the last row. *)
Theorem load_attempts_all_rows_or_none (df : Pd.DataFrame) (c : C) :
  let run := Pipeline.upload df (start c) in
  (attempted (calls (fst run)) = []
   /\ List.filter is_commit (calls (fst run)) = []
   /\ exists e, snd run = inl e)
  \/ (attempted (calls (fst run))
      = List.map (fun it => Pipeline.params (Pd.columns df) (snd it)) (Pd.iterrows df)
      /\ exists c5 r rest,
           calls (fst run)
           = prepare_calls ++ loop_log (Pd.columns df) (Pd.iterrows df) c5
               ++ (Db.commit, r) :: rest
           /\ List.filter is_commit rest = []).
Proof.
  cbv zeta.
  destruct (upload_log_shape df (start c))
    as [(n & e & Hn & -> & ->) | [(c5 & rep & -> & ->) | (c5 & n & e & Hn & -> & ->)]];
    cbn [start calls app].
  - left. upto5 n; (split; [reflexivity | split; [reflexivity | now exists e]]).
  - right. rewrite !attempted_app, loop_log_attempted.
    split; [cbn; now rewrite app_nil_r|].
    eexists c5, _, _. split; [reflexivity | reflexivity].
  - right. rewrite !attempted_app, loop_log_attempted.
    upto5 n; (split; [cbn; now rewrite app_nil_r|]);
      eexists c5, _, _; (split; [reflexivity | reflexivity]).
Qed.

(** X4: a load in which a call other than a row's insert raised was
    abandoned at that call: the call is the last one the load made, the
    load ends with the very exception the call raised, which the outer
    handlers of the script then report, and it never prints its completion
    message. *)
Theorem load_abandoned_on_fatal_error (df : Pd.DataFrame) (c : C) call e :
  is_insert call = false ->
  (call, Some e) ∈ calls (fst (Pipeline.upload df (start c))) ->
  snd (Pipeline.upload df (start c)) = inl e
  /\ last (calls (fst (Pipeline.upload df (start c)))) = Some (call, Some e)
  /\ (MsgCompleted ∉ stdout (fst (Pipeline.upload df (start c)))).
Proof.
  intros Hi Hin.
  assert (forall l, (call, Some e) ∈ loop_log (Pd.columns df) (Pd.iterrows df) l -> False) as Hloop.
  { intros l Hl.
    assert (call ∈ List.map fst (loop_log (Pd.columns df) (Pd.iterrows df) l)) as Hc'
      by (apply list_elem_of_In, List.in_map_iff; exists (call, Some e);
          split; [reflexivity | now apply list_elem_of_In]).
    rewrite loop_log_calls in Hc'.
    apply list_elem_of_In, List.in_map_iff in Hc' as (it & <- & _). discriminate. }
  assert (forall l n e', l = prepare_calls \/ l = finish_calls ->
            (call, Some e) ∈ cut l n e' ->
            e' = e /\ exists pre, cut l n e' = pre ++ [(call, Some e)]) as Hcut.
  { intros l n e' Hl Hx. unfold cut in *.
    assert (Forall (fun cr : Db.call * option Py.exn => snd cr = None) (take n l)) as Hnone.
    { apply Forall_take. destruct Hl as [-> | ->]; repeat constructor. }
    apply elem_of_app in Hx as [Hx|Hx].
    { rewrite Forall_forall in Hnone. now specialize (Hnone _ Hx). }
    destruct (l !! n) as [[c0 r0]|]; [|now apply elem_of_nil in Hx].
    apply list_elem_of_singleton in Hx. injection Hx as <- <-.
    split; [reflexivity | now exists (take n l)]. }
  assert (MsgCompleted ∉ stdout (fst (Pipeline.upload df (start c))) \/
          exists rep, snd (Pipeline.upload df (start c)) = inr rep) as Hout.
  { destruct (upload_run df (start c))
      as [(c5 & c' & out & total & E & _) | (e' & c0 & _ & _ & _ & out & Eo & Ho)].
    - right. cbv zeta in E. rewrite E. eauto.
    - left. rewrite Eo. cbn [stdout start app].
      rewrite Forall_forall in Ho. intros Hx. now apply (Ho _ Hx). }
  destruct (upload_log_shape df (start c))
    as [(n & e' & Hn & Ec & Er) | [(c5 & rep & Ec & Er) | (c5 & n & e' & Hn & Ec & Er)]];
    cbv zeta in Ec, Er; rewrite Ec, Er in *; cbn [start calls app] in *.
  - destruct (Hcut _ n e' (or_introl eq_refl) Hin) as (-> & pre & Epre).
    split; [reflexivity|]. split; [rewrite Epre; apply last_snoc|].
    destruct Hout as [Hout | [rep Hrep]]; [exact Hout | discriminate].
  - exfalso. apply elem_of_app in Hin as [Hin|Hin].
    { unfold prepare_calls in Hin.
      repeat (apply elem_of_cons in Hin as [Hin|Hin]; [discriminate|]).
      now apply elem_of_nil in Hin. }
    apply elem_of_app in Hin as [Hin|Hin]; [now apply (Hloop c5)|].
    unfold finish_calls in Hin.
    repeat (apply elem_of_cons in Hin as [Hin|Hin]; [discriminate|]).
    now apply elem_of_nil in Hin.
  - apply elem_of_app in Hin as [Hin|Hin].
    { exfalso. unfold prepare_calls in Hin.
      repeat (apply elem_of_cons in Hin as [Hin|Hin]; [discriminate|]).
      now apply elem_of_nil in Hin. }
    apply elem_of_app in Hin as [Hin|Hin]; [exfalso; now apply (Hloop c5)|].
    destruct (Hcut _ n e' (or_intror eq_refl) Hin) as (-> & pre & Epre).
    split; [reflexivity|]. split; [rewrite Epre, !app_assoc; apply last_snoc|].
    destruct Hout as [Hout | [rep Hrep]]; [exact Hout | discriminate].
Qed.

End LogShape.

Lemma load_abandoned_witness :
  (Db.connect, Some (Py.Psycopg2Error "could not connect to server"))
    ∈ calls (fst (Pipeline.upload Sample.batch (start tt)))
  /\ snd (Pipeline.upload Sample.batch (start tt))
     = inl (Py.Psycopg2Error "could not connect to server")
  /\ (MsgCompleted ∉ stdout (fst (Pipeline.upload Sample.batch (start tt)))).
Proof.
  assert ((Db.connect, Some (Py.Psycopg2Error "could not connect to server"))
            ∈ calls (fst (Pipeline.upload Sample.batch (start tt)))) as Hin
    by (vm_compute; constructor).
  split; [exact Hin|].
  destruct (load_abandoned_on_fatal_error Sample.batch tt Db.connect
              (Py.Psycopg2Error "could not connect to server") eq_refl Hin) as (E & _ & Hc).
  split; [exact E | exact Hc].
Defined.

(** ** Which exceptions the script lets out *)

Section Escapes.
Context `{Pd.Library} {C : Type} `{Db.Store C}.

Lemma try_upload_cases df (w : world C) :
  let run := try_except (bind (Pipeline.upload df) (fun r => ret (Some r))) Pipeline.handler w in
  (exists rep out,
      snd run = inr (Some rep)
      /\ snd (Pipeline.upload df w) = inr rep
      /\ calls (fst run) = calls (fst (Pipeline.upload df w))
      /\ stdout (fst run) = stdout w ++ out ++ [MsgCompleted])
  \/ (exists e call out,
      snd run = inr None
      /\ snd (Pipeline.upload df w) = inl e
      /\ calls (fst run) = calls (fst (Pipeline.upload df w))
      /\ is_insert call = false
      /\ (call, Some e) ∈ calls (fst run)
      /\ stdout (fst run) = stdout w ++ out ++ [error_line e]
      /\ Forall (fun l => l <> MsgCompleted) out).
Proof.
  cbv zeta. unfold try_except.
  destruct (upload_run df w)
    as [(c5 & c' & out & total & E & _ & _) | (e & call & Er & Hi & Hin & out & Eo & Ho)].
  - left. cbv zeta in E. rewrite (bind_inr _ _ _ _ _ E), E. unfold ret. cbn [fst snd calls stdout].
    exists {| Pipeline.records_inserted :=
                length (inserted (loop_log (Pd.columns df) (Pd.iterrows df) c5));
              Pipeline.errors_count :=
                length (raised (loop_log (Pd.columns df) (Pd.iterrows df) c5));
              Pipeline.total_records := total |},
      ([MsgConnected; MsgSchemaReady Pipeline.schema_name;
        MsgTableCreated Pipeline.table_name; MsgInserting (Pd.len df)]
       ++ out
       ++ [MsgInserted (length (inserted (loop_log (Pd.columns df) (Pd.iterrows df) c5)))]
       ++ (if (0 <? length (raised (loop_log (Pd.columns df) (Pd.iterrows df) c5)))%nat
           then [MsgFailed (length (raised (loop_log (Pd.columns df) (Pd.iterrows df) c5)))]
           else [])
       ++ [MsgTotal total; MsgClosed]).
    split; [reflexivity|]. split; [reflexivity|]. split; [reflexivity|].
    rewrite <- !app_assoc. reflexivity.
  - right. destruct (Pipeline.upload df w) as [w' r] eqn:Eu. cbn [fst snd] in *. subst r.
    rewrite (bind_inl _ _ _ _ _ Eu).
    exists e, call, out.
    destruct e; cbn [Pipeline.handler error_line]; rewrite bind_print; unfold ret;
      cbn [fst snd calls stdout]; rewrite Eo, <- app_assoc; repeat split; assumption.
Qed.

(** X9: an exception leaves the script only from the decoding of the CSV
    text or from the cleaning step, before the store is touched and before
    the connection is announced; what the store raises never leaves it. *)
Theorem only_decoding_and_cleaning_errors_escape (response : Pipeline.response) (c : C) e :
  snd (Pipeline.main response (start c)) = inl e ->
  Pipeline.status_code response = 200
  /\ calls (fst (Pipeline.main response (start c))) = []
  /\ (MsgConnecting ∉ stdout (fst (Pipeline.main response (start c))))
  /\ (Pd.read_csv (Pipeline.text response) = inl e
      \/ exists raw, Pd.read_csv (Pipeline.text response) = inr raw
                     /\ Pipeline.clean raw = inl e).
Proof.
  destruct (Z.eq_dec (Pipeline.status_code response) 200) as [Hs|Hs];
    [|rewrite (main_not_200 response (start c) Hs); discriminate].
  intros He. split; [exact Hs|]. revert He.
  destruct (Pd.read_csv (Pipeline.text response)) as [e'|raw] eqn:Hr.
  - unfold Pipeline.main. rewrite bind_print, Hs, Z.eqb_refl, bind_print.
    rewrite (bind_inl (lift (Pd.read_csv (Pipeline.text response))) _ _ _ e')
      by (unfold lift; now rewrite Hr).
    cbn [fst snd calls stdout start app]. intros [= <-].
    split; [reflexivity|]. split; [|now left].
    intros Hin. repeat (apply elem_of_cons in Hin as [Hin|Hin]; [discriminate|]).
    now apply elem_of_nil in Hin.
  - destruct (Pipeline.clean raw) as [e'|df] eqn:Hc.
    + unfold Pipeline.main. rewrite bind_print, Hs, Z.eqb_refl, bind_print.
      rewrite (bind_inr (lift (Pd.read_csv (Pipeline.text response))) _ _ _ raw)
        by (unfold lift; now rewrite Hr).
      rewrite !bind_print.
      rewrite (bind_inl (lift (Pipeline.clean raw)) _ _ _ e')
        by (unfold lift; now rewrite Hc).
      cbn [fst snd calls stdout start app]. intros [= <-].
      split; [reflexivity|]. split; [|right; now exists raw].
      intros Hin. repeat (apply elem_of_cons in Hin as [Hin|Hin]; [discriminate|]).
      now apply elem_of_nil in Hin.
    + rewrite (main_200 response raw df _ Hs Hr Hc).
      match goal with |- context [try_except _ _ ?w0] =>
        destruct (try_upload_cases df w0) as [(rep & out & -> & _) | (e' & call & out & -> & _)]
      end; discriminate.
Qed.

(** X10: once the table is fetched, decoded and cleaned, the run ends
    normally whatever the store does.  Either the load completed: the run
    yields its report and its last line is the completion message.  Or a
    call other than a row's insert raised: the run yields no report, its
    last line is the error message for that exception (the PostgreSQL one
    for a [psycopg2.Error], the general one otherwise), and the completion
    message is not printed. *)
Theorem store_errors_are_caught (response : Pipeline.response) (c : C) raw df :
  Pipeline.status_code response = 200 ->
  Pd.read_csv (Pipeline.text response) = inr raw ->
  Pipeline.clean raw = inr df ->
  let run := Pipeline.main response (start c) in
  (exists rep, snd run = inr (Some rep)
     /\ last (stdout (fst run)) = Some MsgCompleted
     /\ Forall (fun cr => is_insert (fst cr) = true) (raised (calls (fst run))))
  \/ (exists e call, snd run = inr None
     /\ is_insert call = false
     /\ (call, Some e) ∈ calls (fst run)
     /\ last (stdout (fst run)) = Some (error_line e)
     /\ (MsgCompleted ∉ stdout (fst run))).
Proof.
  intros Hs Hr Hc run. subst run. rewrite (main_200 response raw df _ Hs Hr Hc).
  match goal with |- context [try_except _ _ ?w0] =>
    set (w := w0);
    destruct (try_upload_cases df w)
      as [(rep & out & -> & Eu & -> & ->) | (e & call & out & -> & Eu & Ec & Hi & Hin & -> & Ho)]
  end.
  - left. exists rep. split; [reflexivity|].
    split; [now rewrite !app_assoc, last_snoc|].
    destruct (upload_run df w)
      as [(c5 & c' & out' & total & E & _ & _) | (e & call & Er & _)];
      [|rewrite Er in Eu; discriminate].
    cbv zeta in E. rewrite E. subst w. cbn [fst calls app].
    rewrite !raised_app. cbn [raised omap prepare_calls finish_calls app]. rewrite app_nil_r.
    apply Forall_forall. intros [call e] Hin.
    apply list_elem_of_omap in Hin as ([call' r] & Hin & Hx).
    cbn [fst snd] in *. destruct r; [|discriminate]. injection Hx as -> ->.
    assert (call ∈ List.map fst (loop_log (Pd.columns df) (Pd.iterrows df) c5)) as Hc'
      by (apply list_elem_of_In, List.in_map_iff; exists (call, Some e);
          split; [reflexivity | now apply list_elem_of_In]).
    rewrite loop_log_calls in Hc'.
    apply list_elem_of_In, List.in_map_iff in Hc' as (it & <- & _). reflexivity.
  - right. exists e, call. split; [reflexivity|]. split; [exact Hi|]. split; [exact Hin|].
    split; [now rewrite !app_assoc, last_snoc|].
    subst w. cbn [stdout start app]. rewrite Forall_forall in Ho.
    intros Hx. repeat (apply elem_of_cons in Hx as [Hx|Hx]; [discriminate|]).
    apply elem_of_app in Hx as [Hx|Hx].
    + now apply (Ho _ Hx).
    + apply list_elem_of_singleton in Hx. destruct e; discriminate.
Qed.

End Escapes.

Lemma escapes_witness :
  snd (@Pipeline.main Sample.pandas _ _ (Pipeline.Build_response 200 "")
         (start MemStore.empty))
  = inl (Py.Exception "EmptyDataError" "No columns to parse from file")
  /\ calls (fst (@Pipeline.main Sample.pandas _ _ (Pipeline.Build_response 200 "")
                   (start MemStore.empty))) = [].
Proof.
  assert (snd (@Pipeline.main Sample.pandas _ _ (Pipeline.Build_response 200 "")
                 (start MemStore.empty))
          = inl (Py.Exception "EmptyDataError" "No columns to parse from file")) as E
    by (vm_compute; reflexivity).
  split; [exact E|].
  exact (proj1 (proj2 (@only_decoding_and_cleaning_errors_escape Sample.pandas _ _
                         (Pipeline.Build_response 200 "") MemStore.empty _ E))).
Defined.

Lemma store_errors_witness :
  snd (@Pipeline.main Sample.pandas _ DownStore.store (Pipeline.Build_response 200 "survey")
         (start tt)) = inr None
  /\ last (stdout (fst (@Pipeline.main Sample.pandas _ DownStore.store
                          (Pipeline.Build_response 200 "survey") (start tt))))
     = Some (MsgPostgresError (Py.Psycopg2Error "could not connect to server")).
Proof.
  destruct (@store_errors_are_caught Sample.pandas _ DownStore.store
              (Pipeline.Build_response 200 "survey") tt Sample.survey
              {| Pd.columns := ["Start"; "End"; "Age_Group"; "Gender"; "Vaccination_Status"];
                 Pd.rows := Pd.rows Sample.survey |}
              eq_refl eq_refl eq_refl)
    as [(rep & E & _) | (e & call & _)];
    [vm_compute in E; discriminate | split; vm_compute; reflexivity].
Defined.

(** ** What the loop prints *)

Lemma div10_step (ri : nat) :
  if (S ri mod 10 =? 0)%nat
  then (S ri / 10 = S (ri / 10) /\ 10 * S (ri / 10) = S ri)%nat
  else (S ri / 10 = ri / 10)%nat.
Proof.
  pose proof (Nat.div_mod_eq ri 10) as E1.
  pose proof (Nat.div_mod_eq (S ri) 10) as E2.
  pose proof (Nat.mod_upper_bound ri 10 ltac:(lia)) as B1.
  pose proof (Nat.mod_upper_bound (S ri) 10 ltac:(lia)) as B2.
  destruct (Nat.eqb_spec (S ri mod 10) 0) as [E|E]; lia.
Qed.

Lemma failures_snoc log c r :
  failures (log ++ [(c, r)])
  = failures log ++ match r with Some e => [MsgWarning (length log) e] | None => [] end.
Proof.
  unfold failures. rewrite imap_app, omap_app. f_equal.
  cbn. rewrite Nat.add_0_r. now destruct r.
Qed.

Lemma inserts_snoc log c r :
  inserts (log ++ [(c, r)]) = inserts log ++ (if is_insert c then [(c, r)] else []).
Proof. unfold inserts. rewrite List.filter_app. cbn. now destruct (is_insert c). Qed.

Lemma inserted_snoc log c r :
  inserted (log ++ [(c, r)])
  = inserted log ++ match c, r with
                    | Db.execute (Db.INSERT_INTO _ _ _ ps), None => [ps]
                    | _, _ => []
                    end.
Proof.
  unfold inserted. rewrite omap_app. f_equal. cbn.
  destruct c as [| |[]| | | |]; destruct r; reflexivity.
Qed.

Section LoopOutput.
Context {C : Type} `{Db.Store C}.

Lemma follows_db n (w : world C) (d : C) :
  output_follows n w -> output_follows n (World d (stdout w) (calls w)).
Proof. exact (fun H => H). Qed.

Lemma follows_print n (d : C) out log l :
  is_warning l = false -> is_progress l = false ->
  output_follows n (World d out log) -> output_follows n (World d (out ++ [l]) log).
Proof.
  intros Hw Hp [H1 H2]. unfold output_follows in *. cbn [stdout calls] in *.
  rewrite !List.filter_app. cbn [List.filter]. rewrite Hw, Hp, !app_nil_r. now split.
Qed.

Lemma follows_call n (d : C) out log c r :
  is_insert c = false ->
  output_follows n (World d out log) -> output_follows n (World d out (log ++ [(c, r)])).
Proof.
  intros Hc [H1 H2]. unfold output_follows in *. cbn [stdout calls] in *.
  rewrite inserts_snoc, inserted_snoc, Hc, !app_nil_r.
  split; [exact H1|]. rewrite H2.
  destruct c as [| |[]| | | |]; try discriminate; destruct r; now rewrite app_nil_r.
Qed.

(** One turn of the loop keeps the output in step with the log, given that
    the counters and the row's position are in step with it. *)
Lemma follows_turn df ri ec idx row (w : world C) :
  output_follows (Pd.len df) w ->
  ri = length (inserted (calls w)) ->
  ec = length (failures (inserts (calls w))) ->
  idx = length (inserts (calls w)) ->
  exists w' ri' ec',
    Pipeline.insert_row df (ri, ec) (idx, row) w = (w', inr (ri', ec'))
    /\ output_follows (Pd.len df) w'
    /\ ri' = length (inserted (calls w'))
    /\ ec' = length (failures (inserts (calls w')))
    /\ S idx = length (inserts (calls w')).
Proof.
  intros [Hw Hp] Hri Hec Hidx.
  unfold Pipeline.insert_row, try_except, bind, db_call.
  destruct (Db.perform _ (db w)) as [d [e|]]; cbn [fst snd].
  - (* the insert raised *)
    assert (forall out,
      List.filter is_progress out = List.filter is_progress (stdout w) ->
      List.filter is_warning out
      = List.filter is_warning (stdout w)
        ++ (if (S ec <=? 3)%nat then [MsgWarning idx e] else []) ->
      let w' := World d out (calls w ++ [(Db.execute (Pipeline.insert_query
                       (Pipeline.params (Pd.columns df) row)), Some e)]) in
      output_follows (Pd.len df) w'
      /\ ri = length (inserted (calls w'))
      /\ S ec = length (failures (inserts (calls w')))
      /\ S idx = length (inserts (calls w'))) as Hend.
    { intros out Ho Hwarn w'. subst w'. unfold output_follows. cbn [stdout calls].
      rewrite inserts_snoc, inserted_snoc. cbn [is_insert Pipeline.insert_query].
      rewrite failures_snoc, app_nil_r, !length_app, <- Hidx, <- Hec, <- Hri. cbn [length].
      split; [split|].
      - rewrite Hwarn, Hw.
        destruct (Nat.leb_spec (S ec) 3) as [Hle|Hgt].
        + rewrite !take_ge by (rewrite ?length_app; cbn [length]; lia). reflexivity.
        + rewrite app_nil_r, take_app_le by lia. reflexivity.
      - rewrite Ho, Hp, <- Hri. reflexivity.
      - repeat split; lia. }
    destruct (S ec <=? 3)%nat eqn:Hle.
    + eexists _, _, _. split; [reflexivity|]. apply Hend.
      * rewrite List.filter_app. cbn. now rewrite app_nil_r.
      * rewrite List.filter_app, ?Hle. reflexivity.
    + eexists _, _, _. split; [reflexivity|]. apply Hend.
      * reflexivity.
      * now rewrite ?Hle, app_nil_r.
  - (* the insert went through *)
    assert (forall out,
      List.filter is_warning out = List.filter is_warning (stdout w) ->
      List.filter is_progress out
      = List.filter is_progress (stdout w)
        ++ (if (S ri mod 10 =? 0)%nat then [MsgProgress (S ri) (Pd.len df)] else []) ->
      let w' := World d out (calls w ++ [(Db.execute (Pipeline.insert_query
                       (Pipeline.params (Pd.columns df) row)), None)]) in
      output_follows (Pd.len df) w'
      /\ S ri = length (inserted (calls w'))
      /\ ec = length (failures (inserts (calls w')))
      /\ S idx = length (inserts (calls w'))) as Hend.
    { intros out Ho Hprog w'. subst w'. unfold output_follows. cbn [stdout calls].
      rewrite inserts_snoc, inserted_snoc. cbn [is_insert Pipeline.insert_query].
      rewrite failures_snoc, app_nil_r, !length_app, <- Hidx, <- Hec, <- Hri. cbn [length].
      split; [split|].
      - now rewrite Ho, Hw.
      - rewrite Hprog, Hp, <- Hri, Nat.add_1_r.
        pose proof (div10_step ri) as Hd.
        destruct (S ri mod 10 =? 0)%nat.
        + destruct Hd as [-> Hd]. rewrite seq_S, List.map_app. cbn [List.map Nat.add].
          now rewrite Hd.
        + now rewrite Hd, app_nil_r.
      - repeat split; lia. }
    destruct (S ri mod 10 =? 0)%nat eqn:Hm.
    + eexists _, _, _. split; [reflexivity|]. apply Hend.
      * rewrite List.filter_app. cbn. now rewrite app_nil_r.
      * rewrite List.filter_app, ?Hm. reflexivity.
    + eexists _, _, _. split; [reflexivity|]. apply Hend.
      * reflexivity.
      * now rewrite ?Hm, app_nil_r.
Qed.

Lemma follows_loop df its : forall ri ec (w : world C),
  List.map fst its = seq (length (inserts (calls w))) (length its) ->
  output_follows (Pd.len df) w ->
  ri = length (inserted (calls w)) ->
  ec = length (failures (inserts (calls w))) ->
  exists w' acc,
    for_each its (Pipeline.insert_row df) (ri, ec) w = (w', inr acc)
    /\ output_follows (Pd.len df) w'.
Proof.
  induction its as [|[idx row] its IH]; intros ri ec w Hidx Hf Hri Hec.
  - exists w, (ri, ec). split; [reflexivity | exact Hf].
  - cbn [List.map length seq fst] in Hidx. injection Hidx as Hidx Hrest.
    destruct (follows_turn df ri ec idx row w Hf Hri Hec Hidx)
      as (w1 & ri1 & ec1 & E1 & Hf1 & Hri1 & Hec1 & Hidx1).
    cbn [for_each]. rewrite (bind_inr _ _ _ _ _ E1).
    apply IH; [now rewrite <- Hidx1, Hidx | exact Hf1 | exact Hri1 | exact Hec1].
Qed.

Lemma iterrows_positions df : List.map fst (Pd.iterrows df) = seq 0 (length (Pd.iterrows df)).
Proof.
  unfold Pd.iterrows. rewrite length_imap. apply list_eq. intros i.
  rewrite list_lookup_fmap, list_lookup_imap.
  destruct (Pd.rows df !! i) as [r|] eqn:E; cbn; symmetry.
  - apply lookup_seq. split; [reflexivity | now apply lookup_lt_Some in E].
  - apply lookup_seq_ge. now apply lookup_ge_None.
Qed.

Ltac quiet :=
  cbn [fst];
  repeat first
    [ apply follows_print; [reflexivity | reflexivity |]
    | apply follows_call; [reflexivity |] ];
  first [ eassumption | apply follows_db; eassumption ].

Ltac call_or_quiet :=
  lazymatch goal with
  | |- context [bind (db_call ?c) ?k ?w] =>
      let d := fresh "d" in
      let e := fresh "e" in
      let Ep := fresh "Ep" in
      let E := fresh "E" in
      destruct (db_call_cases c w) as [(d & Ep & E) | (d & e & Ep & E)];
      [ rewrite (bind_inr _ _ _ _ _ E)
      | rewrite (bind_inl _ _ _ _ _ E) ];
      clear E Ep; cbn [db stdout calls];
      [ | quiet ]
  end.

(** The load keeps the output in step with the log, from a world where no
    insert has been sent. *)
Lemma upload_follows df (w : world C) :
  inserts (calls w) = [] ->
  output_follows (Pd.len df) w ->
  output_follows (Pd.len df) (fst (Pipeline.upload df w)).
Proof.
  intros Hnone Hf. unfold Pipeline.upload.
  call_or_quiet.
  call_or_quiet.
  rewrite bind_print; cbn [db stdout calls].
  call_or_quiet.
  rewrite bind_print; cbn [db stdout calls].
  call_or_quiet.
  call_or_quiet.
  rewrite !bind_print; cbn [db stdout calls].
  unfold Pipeline.insert_rows.
  match goal with |- context [bind (for_each _ _ _) _ ?w5] =>
    assert (output_follows (Pd.len df) w5) as Hf5 by quiet;
    assert (inserts (calls w5) = []) as Hn5
      by (cbn [calls]; rewrite !inserts_snoc, Hnone; reflexivity);
    assert (inserted (calls w5) = []) as Hi5;
    [| destruct (follows_loop df (Pd.iterrows df) 0 0 w5) as (w6 & [ri6 ec6] & E & Hf6) ]
  end.
  { cbn [calls]. rewrite !inserted_snoc, !app_nil_r.
    clear -Hnone. unfold inserts, inserted in *.
    induction (calls w) as [|[c r] l IH]; [reflexivity|].
    cbn in Hnone |- *. destruct c as [| |[]| | | |]; cbn in *; try discriminate; auto. }
  { rewrite Hn5. apply iterrows_positions. }
  { exact Hf5. }
  { now rewrite Hi5. }
  { now rewrite Hn5. }
  rewrite (bind_inr _ _ _ _ _ E). clear E Hf5 Hn5 Hi5.
  call_or_quiet.
  rewrite bind_print; cbn [db stdout calls].
  destruct (0 <? ec6)%nat.
  - rewrite bind_print; cbn [db stdout calls].
    call_or_quiet.
    call_or_quiet.
    rewrite bind_fetched, bind_print; cbn [db stdout calls].
    call_or_quiet.
    call_or_quiet.
    rewrite !bind_print; cbn [db stdout calls]. unfold ret. quiet.
  - rewrite bind_ret; cbn [db stdout calls].
    call_or_quiet.
    call_or_quiet.
    rewrite bind_fetched, bind_print; cbn [db stdout calls].
    call_or_quiet.
    call_or_quiet.
    rewrite !bind_print; cbn [db stdout calls]. unfold ret. quiet.
Qed.

(** X11: what a load prints while it inserts, whether it completes or is
    abandoned: its warnings are those of the first three inserts that
    raised, in order, each with the position of its row and the exception
    raised; its progress lines are one for each full ten of rows inserted,
    in order. *)
Theorem load_output_follows_inserts (df : Pd.DataFrame) (c : C) :
  let run := Pipeline.upload df (start c) in
  List.filter is_warning (stdout (fst run)) = take 3 (failures (inserts (calls (fst run))))
  /\ List.filter is_progress (stdout (fst run))
     = List.map (fun k => MsgProgress (10 * k) (Pd.len df))
         (seq 1 (length (inserted (calls (fst run))) / 10)).
Proof.
  cbv zeta. apply (upload_follows df (start c)); [reflexivity|].
  split; reflexivity.
Qed.

End LoopOutput.

(** ** The outcomes of the inserts *)

Lemma inserted_sublist log : inserted log `sublist_of` attempted log.
Proof.
  induction log as [|[c r] log IH]; [constructor|].
  unfold inserted, attempted in *. cbn [omap fst snd].
  destruct c as [| |[]| | | |]; cbn; try exact IH.
  destruct r; [now apply sublist_cons | now apply sublist_skip].
Qed.

Lemma attempted_of_inserts columns its : forall log,
  List.map fst log = List.map (insert_call columns) its ->
  attempted log = List.map (fun it => Pipeline.params columns (snd it)) its.
Proof.
  induction its as [|it its IH]; intros [|[c r] log] E; try discriminate; [reflexivity|].
  cbn [List.map fst] in E. injection E as -> E.
  rewrite attempted_cons. cbn [List.map]. now rewrite (IH log E).
Qed.

Lemma outcomes_of_inserts columns its : forall log,
  List.map fst log = List.map (insert_call columns) its ->
  (length (inserted log) + length (raised log) = length its)%nat
  /\ (raised log = [] -> inserted log = attempted log).
Proof.
  induction its as [|it its IH]; intros [|[c r] log] E; try discriminate; [now split|].
  cbn [List.map fst] in E. injection E as -> E.
  destruct (IH log E) as [Hlen Hall]. rewrite attempted_cons.
  destruct r as [e|].
  - rewrite raised_cons_raise, inserted_cons_raise. split; [cbn [length]; lia | discriminate].
  - rewrite raised_cons_ok, inserted_cons_ok. split; [cbn [length]; lia|].
    intros Hr. now rewrite (Hall Hr).
Qed.

Lemma convert_dates_len `{Pd.Library} key df df' :
  Pd.convert_dates key df = inr df' -> Pd.len df' = Pd.len df.
Proof.
  intros E. unfold Pd.len. now destruct (convert_dates_cells key df df' E) as (_ & Hl & _).
Qed.

Lemma clean_len `{Pd.Library} raw df : Pipeline.clean raw = inr df -> Pd.len df = Pd.len raw.
Proof.
  unfold Pipeline.clean.
  destruct (Pd.convert_dates "start" _) as [e|df1] eqn:E1; [discriminate|].
  intros E2. apply convert_dates_len in E1, E2. now rewrite E2, E1.
Qed.

(** ** Repeated names *)

Lemma filter_zip_occurrences name (cols : list string) : forall cells : list Py.scalar,
  (length cols <= length cells)%nat ->
  length (List.filter (fun p : string * Py.scalar => String.eqb (fst p) name) (zip cols cells))
  = occurrences name cols.
Proof.
  unfold occurrences.
  induction cols as [|c cols IH]; intros [|x cells] Hlen; cbn in *; try reflexivity; [lia|].
  rewrite (String.eqb_sym name c).
  destruct (String.eqb c name); cbn [length]; rewrite IH by lia; reflexivity.
Qed.

Lemma get_repeated name (cols : list string) (cells : list Py.scalar) default :
  (length cols <= length cells)%nat ->
  (2 <= occurrences name cols)%nat ->
  Pd.get (zip cols cells) name default
  = Py.Series (List.map snd (List.filter (fun p => String.eqb (fst p) name) (zip cols cells))).
Proof.
  intros Hlen Hocc. rewrite <- (filter_zip_occurrences name cols cells Hlen) in Hocc.
  unfold Pd.get.
  destruct (List.filter _ (zip cols cells)) as [|p [|q l]]; cbn in Hocc |- *; [lia | lia | reflexivity].
Qed.

(** X13: when the name a role is bound to is borne by two or more columns
    (cleaning can make two raw names equal), the lookup in a row yields all
    the cells under the name at once, and no single value: a numeric role
    then sends 0 whatever the cells hold, and a text role sends the whole
    series of cells. *)
Theorem repeated_name_loses_the_value (r : role) (columns : list string)
    (cells : list Py.scalar) (name : string) :
  bound r columns = Some name ->
  length cells = length columns ->
  (2 <= occurrences name columns)%nat ->
  let under := List.map snd (List.filter (fun p => String.eqb (fst p) name) (zip columns cells)) in
  length under = occurrences name columns
  /\ role_value r columns (zip columns cells)
     = if is_text r then Py.Series under else Py.Scalar (Py.PyInt 0).
Proof.
  intros Hb Hlen Hocc under. subst under. split.
  - rewrite length_map. apply filter_zip_occurrences. lia.
  - rewrite (bound_value r _ columns name Hb).
    destruct r; cbn [value_under is_text];
      rewrite get_repeated by (exact Hocc || lia); reflexivity.
Qed.

Lemma repeated_name_witness :
  List.map normalize ["Sleep hours"; "Sleep-hours"; "Gender /sex"; "Gender-/sex"]
  = ["Sleep_hours"; "Sleep_hours"; "Gender__sex"; "Gender__sex"]
  /\ role_value sleep_hours ["Sleep_hours"; "Sleep_hours"; "Gender__sex"; "Gender__sex"]
       (zip ["Sleep_hours"; "Sleep_hours"; "Gender__sex"; "Gender__sex"]
            [Py.PyStr "7.5"; Py.PyStr "8"; Py.PyStr "F"; Py.PyStr "F"])
     = Py.Scalar (Py.PyInt 0)
  /\ role_value gender ["Sleep_hours"; "Sleep_hours"; "Gender__sex"; "Gender__sex"]
       (zip ["Sleep_hours"; "Sleep_hours"; "Gender__sex"; "Gender__sex"]
            [Py.PyStr "7.5"; Py.PyStr "8"; Py.PyStr "F"; Py.PyStr "F"])
     = Py.Series [Py.PyStr "F"; Py.PyStr "F"].
Proof.
  split; [reflexivity|]. split.
  - exact (proj2 (repeated_name_loses_the_value sleep_hours
                    ["Sleep_hours"; "Sleep_hours"; "Gender__sex"; "Gender__sex"]
                    [Py.PyStr "7.5"; Py.PyStr "8"; Py.PyStr "F"; Py.PyStr "F"]
                    "Sleep_hours" eq_refl eq_refl ltac:(vm_compute; lia))).
  - exact (proj2 (repeated_name_loses_the_value gender
                    ["Sleep_hours"; "Sleep_hours"; "Gender__sex"; "Gender__sex"]
                    [Py.PyStr "7.5"; Py.PyStr "8"; Py.PyStr "F"; Py.PyStr "F"]
                    "Gender__sex" eq_refl eq_refl ltac:(vm_compute; lia))).
Defined.


(** ** The session of the script on the server in memory *)

Section Keeps.
Context {C : Type} `{Db.Store C}.
Variable P : C -> Prop.

Lemma keeps_ret {A} (a : A) : keeps P (ret a : M C A).
Proof. intros w Hw. exact Hw. Qed.

Lemma keeps_print l : keeps P (print l : M C unit).
Proof. intros w Hw. exact Hw. Qed.

Lemma keeps_fetched : keeps P db_fetched.
Proof. intros w Hw. exact Hw. Qed.

Lemma keeps_db_call c : (forall d, P d -> P (fst (Db.perform c d))) -> keeps P (db_call c).
Proof.
  intros Hc w Hw. unfold db_call. specialize (Hc (db w) Hw).
  destruct (Db.perform c (db w)) as [d r]. exact Hc.
Qed.

Lemma keeps_bind {A B} (m : M C A) (k : A -> M C B) :
  keeps P m -> (forall a, keeps P (k a)) -> keeps P (bind m k).
Proof.
  intros Hm Hk w Hw. unfold bind. specialize (Hm w Hw).
  destruct (m w) as [w' [e|a]]; [exact Hm | now apply Hk].
Qed.

Lemma keeps_if {A} (b : bool) (m1 m2 : M C A) :
  keeps P m1 -> keeps P m2 -> keeps P (if b then m1 else m2).
Proof. now destruct b. Qed.

Lemma keeps_after_commit ri ec :
  (forall c d, c <> Db.commit -> P d -> P (fst (Db.perform c d))) ->
  keeps P (after_commit ri ec).
Proof.
  intros Hc. unfold after_commit.
  repeat first
    [ apply keeps_print | apply keeps_ret | apply keeps_fetched
    | apply keeps_db_call; intros d; apply Hc; discriminate
    | apply keeps_if | apply keeps_bind; [|intro] ].
Qed.

End Keeps.

Section Adds.
Context {C : Type} `{Db.Store C}.
Variable Q : Db.call * option Py.exn -> Prop.

Lemma adds_ret {A} (a : A) : adds Q (ret a : M C A).
Proof. intros w. exists [], []. now rewrite !app_nil_r. Qed.

Lemma adds_print l : adds Q (print l : M C unit).
Proof. intros w. exists [], [l]. now rewrite app_nil_r. Qed.

Lemma adds_fetched : adds Q db_fetched.
Proof. intros w. exists [], []. now rewrite !app_nil_r. Qed.

Lemma adds_db_call c : (forall r, Q (c, r)) -> adds Q (db_call c).
Proof.
  intros Hc w. unfold db_call. destruct (Db.perform c (db w)) as [d r].
  exists [(c, r)], []. cbn [fst calls stdout]. rewrite app_nil_r.
  split; [reflexivity|]. split; [now repeat constructor | reflexivity].
Qed.

Lemma adds_bind {A B} (m : M C A) (k : A -> M C B) :
  adds Q m -> (forall a, adds Q (k a)) -> adds Q (bind m k).
Proof.
  intros Hm Hk w. unfold bind. destruct (Hm w) as (rest & out & Ec & Hq & Eo).
  destruct (m w) as [w' [e|a]]; cbn [fst] in *; [now exists rest, out|].
  destruct (Hk a w') as (rest' & out' & Ec' & Hq' & Eo').
  exists (rest ++ rest'), (out ++ out'). rewrite Ec', Eo', Ec, Eo, !app_assoc.
  split; [reflexivity|]. split; [now apply Forall_app | reflexivity].
Qed.

Lemma adds_if {A} (b : bool) (m1 m2 : M C A) :
  adds Q m1 -> adds Q m2 -> adds Q (if b then m1 else m2).
Proof. now destruct b. Qed.

Lemma adds_after_commit ri ec :
  (forall c r, is_insert c = false -> c <> Db.commit -> Q (c, r)) ->
  adds Q (after_commit ri ec).
Proof.
  intros Hq. unfold after_commit.
  repeat first
    [ apply adds_print | apply adds_ret | apply adds_fetched
    | apply adds_db_call; intros r; apply Hq; [reflexivity | discriminate]
    | apply adds_if | apply adds_bind; [|intro] ].
Qed.

End Adds.

Lemma after_commit_announces {C} `{Db.Store C} ri ec (w : world C) :
  exists out, stdout (fst (after_commit ri ec w)) = stdout w ++ MsgInserted ri :: out.
Proof.
  unfold after_commit. rewrite bind_print.
  set (w1 := World (db w) (stdout w ++ [MsgInserted ri]) (calls w)).
  match goal with |- context [stdout (fst (?m w1))] =>
    assert (adds (fun _ => True) m) as Hm
      by (repeat first
            [ apply adds_print | apply adds_ret | apply adds_fetched
            | apply adds_db_call; intros r; exact I
            | apply adds_if | apply adds_bind; [|intro] ])
  end.
  destruct (Hm w1) as (rest & out & _ & _ & Eo). exists out.
  rewrite Eo. subst w1. cbn [stdout]. now rewrite <- app_assoc.
Qed.

(** What the load does after its commit, on any store: it announces the
    count of inserted rows first, sends no insert and no commit, and leaves
    every property of the store that no call other than a commit can
    change. *)
Lemma after_commit_run {C} `{Db.Store C} (P : C -> Prop) ri ec (w : world C) :
  (forall c d, c <> Db.commit -> P d -> P (fst (Db.perform c d))) ->
  P (db w) ->
  P (db (fst (after_commit ri ec w)))
  /\ exists rest out,
       calls (fst (after_commit ri ec w)) = calls w ++ rest
       /\ attempted rest = [] /\ List.filter is_commit rest = []
       /\ stdout (fst (after_commit ri ec w)) = stdout w ++ MsgInserted ri :: out.
Proof.
  intros Hc Hw.
  split; [now apply (keeps_after_commit P ri ec Hc)|].
  destruct (adds_after_commit (fun cr => is_insert (fst cr) = false /\ is_commit cr = false)
              ri ec) with (w := w) as (rest & out & Ec & Hq & _).
  { intros c r Hi Hn. split; [exact Hi|]. now destruct c. }
  destruct (after_commit_announces ri ec w) as (out' & Eo).
  exists rest, out'. split; [exact Ec|].
  split; [|split; [|exact Eo]]; clear Ec.
  - induction Hq as [|[c r] rest [Hi _] _ IH]; [reflexivity|].
    cbn [fst] in Hi. unfold attempted in *. cbn [omap fst].
    destruct c as [| |[]| | | |]; try discriminate; exact IH.
  - induction Hq as [|[c r] rest [_ Hn] _ IH]; [reflexivity|].
    cbn [List.filter]. now rewrite Hn.
Qed.

(** *** The store in memory, call by call *)

Lemma perform_rules c (m : MemStore.t) :
  MemStore.rules (fst (Db.perform c m)) = MemStore.rules m.
Proof.
  destruct c as [| |q| | | |]; cbn; try reflexivity.
  - destruct (negb (MemStore.sendable q)); [reflexivity|].
    destruct (MemStore.aborted m); [reflexivity|].
    now destruct (MemStore.exec m q) as [e|[d r]].
  - now destruct (MemStore.result m).
  - now destruct (MemStore.aborted m).
Qed.

Lemma perform_committed c (m : MemStore.t) :
  c <> Db.commit -> MemStore.committed (fst (Db.perform c m)) = MemStore.committed m.
Proof.
  intros Hc. destruct c as [| |q| | | |]; cbn; try reflexivity; try contradiction.
  - destruct (negb (MemStore.sendable q)); [reflexivity|].
    destruct (MemStore.aborted m); [reflexivity|].
    now destruct (MemStore.exec m q) as [e|[d r]].
  - now destruct (MemStore.result m).
Qed.

Lemma commit_ok (m : MemStore.t) :
  Db.perform Db.commit m = (fst (Db.perform Db.commit m), None).
Proof. cbn. now destruct (MemStore.aborted m). Qed.

(** The insert of a tuple, case by case. *)
Lemma insert_perform (m : MemStore.t) ps :
  Db.perform (Db.execute (Pipeline.insert_query ps)) m
  = if negb (forallb MemStore.adaptable ps)
    then (m, Some (Py.Psycopg2Error "can't adapt type 'Series'"))
    else if MemStore.aborted m
    then (m, Some (Py.Psycopg2Error "current transaction is aborted, commands ignored until end of transaction block"))
    else match MemStore.tables (MemStore.session m) !! target with
         | Some (tcols, rs) =>
             match MemStore.rules m tcols insert_columns ps with
             | None =>
                 (MemStore.Mem (MemStore.rules m) (MemStore.committed m)
                    (MemStore.Database (MemStore.schemas (MemStore.session m))
                       (<[target := (tcols, rs ++ [ps])]> (MemStore.tables (MemStore.session m))))
                    false (MemStore.result m), None)
             | Some e =>
                 (MemStore.Mem (MemStore.rules m) (MemStore.committed m) (MemStore.session m)
                    true (MemStore.result m), Some e)
             end
         | None =>
             (MemStore.Mem (MemStore.rules m) (MemStore.committed m) (MemStore.session m)
                true (MemStore.result m), Some (Py.Psycopg2Error "relation does not exist"))
         end.
Proof.
  unfold Db.perform, MemStore.store, MemStore.perform, Pipeline.insert_query.
  cbn [MemStore.sendable].
  destruct (negb (forallb MemStore.adaptable ps)); [reflexivity|].
  destruct (MemStore.aborted m); [reflexivity|].
  unfold MemStore.exec. fold target. change (MemStore.tables (MemStore.session m) !! _)
    with (MemStore.tables (MemStore.session m) !! target).
  destruct (MemStore.tables (MemStore.session m) !! target) as [[tcols rs]|]; [|reflexivity].
  fold insert_columns.
  now destruct (MemStore.rules m tcols _ ps).
Qed.

Lemma insert_call_perform (m : MemStore.t) columns it :
  Db.perform (insert_call columns it) m
  = Db.perform (Db.execute (Pipeline.insert_query (Pipeline.params columns (snd it)))) m.
Proof. reflexivity. Qed.

Lemma refused_rules (c c' : MemStore.t) columns it :
  MemStore.rules c' = MemStore.rules c -> refused c' columns it = refused c columns it.
Proof. intros E. unfold refused, verdict. now rewrite E. Qed.

Lemma existsb_refused_rules (c c' : MemStore.t) columns its :
  MemStore.rules c' = MemStore.rules c ->
  existsb (refused c' columns) its = existsb (refused c columns) its.
Proof.
  intros E. induction its as [|it its IH]; [reflexivity|].
  cbn [existsb]. now rewrite IH, (refused_rules c c' columns it E).
Qed.

(** Once the transaction is aborted the loop changes nothing, and every
    insert raises. *)
Lemma loop_aborted columns its : forall m : MemStore.t,
  MemStore.aborted m = true ->
  loop_db columns its m = m
  /\ Forall (fun cr => snd cr <> None) (loop_log columns its m).
Proof.
  induction its as [|it its IH]; intros m Ha; cbn [loop_db loop_log]; [now split|].
  rewrite insert_call_perform, insert_perform, Ha.
  destruct (negb (forallb MemStore.adaptable _)); cbn [fst];
    (destruct (IH m Ha) as [-> Hall]; split; [reflexivity|]; constructor; [discriminate | exact Hall]).
Qed.

(** The loop on a session whose transaction is open and that sees the
    table: the transaction ends up aborted exactly when the server refuses
    a row; as long as it refuses none, the rows that can be sent are added
    to the table in order.  What is committed is not touched. *)
Lemma loop_open columns its : forall (m : MemStore.t) rs,
  MemStore.aborted m = false ->
  MemStore.tables (MemStore.session m) !! target = Some (target_columns, rs) ->
  MemStore.rules (loop_db columns its m) = MemStore.rules m
  /\ MemStore.committed (loop_db columns its m) = MemStore.committed m
  /\ MemStore.result (loop_db columns its m) = MemStore.result m
  /\ MemStore.aborted (loop_db columns its m) = existsb (refused m columns) its
  /\ (existsb (refused m columns) its = false ->
      MemStore.session (loop_db columns its m)
      = MemStore.Database (MemStore.schemas (MemStore.session m))
          (<[target := (target_columns, rs ++ sent_rows columns its)]>
             (MemStore.tables (MemStore.session m)))
      /\ inserted (loop_log columns its m) = sent_rows columns its).
Proof.
  induction its as [|it its IH]; intros m rs Ha Ht; cbn [loop_db loop_log existsb].
  - split; [reflexivity|]. split; [reflexivity|]. split; [reflexivity|].
    split; [exact Ha|]. intros _. split; [|reflexivity].
    unfold sent_rows. cbn [List.map List.filter]. rewrite app_nil_r, insert_id by exact Ht.
    now destruct (MemStore.session m).
  - rewrite insert_call_perform, insert_perform, Ha, Ht.
    unfold refused at 1 3, verdict. fold insert_columns.
    unfold sent_rows. cbn [List.map List.filter]. fold (sent_rows columns its).
    destruct (forallb MemStore.adaptable (Pipeline.params columns (snd it))) eqn:Hs;
      cbn [negb andb fst snd].
    + destruct (MemStore.rules m target_columns insert_columns _) as [e|] eqn:Hv; cbn [fst snd].
      * (* refused: the transaction is aborted *)
        rewrite bool_decide_eq_true_2 by eauto. cbn [orb].
        match goal with |- context [loop_db columns its ?m1] =>
          destruct (loop_aborted columns its m1 eq_refl) as [-> _]
        end.
        repeat split; discriminate.
      * rewrite bool_decide_eq_false_2 by (intros [? ?]; discriminate). cbn [orb].
        match goal with |- context [loop_db columns its ?m1] =>
          destruct (IH m1 (rs ++ [Pipeline.params columns (snd it)]) eq_refl) as (Hr & Hc & Hres & Hab & Hok);
            [cbn; apply lookup_insert_eq|];
            change (refused m1 columns) with (refused m columns) in Hab, Hok
        end.
        cbn [MemStore.rules MemStore.committed MemStore.result MemStore.session
             MemStore.schemas MemStore.tables] in *.
        split; [exact Hr|]. split; [exact Hc|]. split; [exact Hres|]. split; [exact Hab|].
        intros Hno. destruct (Hok Hno) as [Hsess Hins]. rewrite Hsess, insert_insert_eq, <- app_assoc.
        split; [reflexivity|]. rewrite inserted_cons_ok. now rewrite Hins.
    + destruct (IH m rs Ha Ht) as (Hr & Hc & Hres & Hab & Hok).
      split; [exact Hr|]. split; [exact Hc|]. split; [exact Hres|]. split; [exact Hab|].
      intros Hno. destruct (Hok Hno) as [Hsess Hins]. split; [exact Hsess|].
      now rewrite inserted_cons_raise.
Qed.

(** A session is fit for the loop when its transaction is aborted or it
    sees the table; an insert leaves it so. *)
Lemma insert_ready (m : MemStore.t) columns it :
  MemStore.aborted m = true
  \/ (exists rs, MemStore.tables (MemStore.session m) !! target = Some (target_columns, rs)) ->
  MemStore.aborted (fst (Db.perform (insert_call columns it) m)) = true
  \/ (exists rs, MemStore.tables (MemStore.session (fst (Db.perform (insert_call columns it) m)))
                 !! target = Some (target_columns, rs)).
Proof.
  intros Hready. rewrite insert_call_perform, insert_perform.
  destruct (negb (forallb MemStore.adaptable _)); [exact Hready|].
  destruct (MemStore.aborted m) eqn:Ha; [now left|].
  destruct Hready as [|[rs Ht]]; [discriminate|]. rewrite Ht.
  destruct (MemStore.rules m target_columns insert_columns _); cbn; [now left|].
  right. eexists. apply lookup_insert_eq.
Qed.

(** A row that the server refuses raises, and leaves the transaction
    aborted. *)
Lemma refused_raises (m : MemStore.t) columns it :
  MemStore.aborted m = true
  \/ (exists rs, MemStore.tables (MemStore.session m) !! target = Some (target_columns, rs)) ->
  refused m columns it = true ->
  snd (Db.perform (insert_call columns it) m) <> None
  /\ MemStore.aborted (fst (Db.perform (insert_call columns it) m)) = true.
Proof.
  intros Hready Href. rewrite insert_call_perform, insert_perform.
  unfold refused, verdict in Href. apply andb_true_iff in Href as [Hs Hv].
  apply bool_decide_eq_true in Hv as [e Hv]. rewrite Hs. cbn [negb].
  destruct (MemStore.aborted m) eqn:Ha; [now split|].
  destruct Hready as [|[rs Ht]]; [discriminate|]. rewrite Ht, Hv. now split.
Qed.

(** From a row that the server refuses on, every insert of the loop
    raises. *)
Lemma loop_after_refusal columns its : forall (m : MemStore.t) k it,
  MemStore.aborted m = true
  \/ (exists rs, MemStore.tables (MemStore.session m) !! target = Some (target_columns, rs)) ->
  its !! k = Some it -> refused m columns it = true ->
  forall j cr, (k <= j)%nat -> loop_log columns its m !! j = Some cr -> snd cr <> None.
Proof.
  induction its as [|it0 its IH]; intros m k it Hready Hk Href j cr Hj Hcr; [discriminate|].
  cbn [loop_log] in Hcr.
  pose proof (insert_ready m columns it0 Hready) as Hready'.
  pose proof (perform_rules (insert_call columns it0) m) as Hrules.
  destruct k as [|k].
  - cbn in Hk. injection Hk as ->.
    destruct (refused_raises m columns it Hready Href) as [Hr Hab].
    destruct (Db.perform (insert_call columns it) m) as [m' r]. cbn [fst snd] in *.
    destruct j as [|j]; cbn in Hcr.
    + now injection Hcr as <-.
    + destruct (loop_aborted columns its m' Hab) as [_ Hall].
      rewrite Forall_forall in Hall. apply Hall. exact (list_elem_of_lookup_2 _ _ _ Hcr).
  - destruct j as [|j]; [lia|]. cbn in Hk.
    destruct (Db.perform (insert_call columns it0) m) as [m' r]. cbn [fst snd] in *.
    cbn in Hcr. refine (IH m' k it Hready' Hk _ j cr _ Hcr); [|lia].
    now rewrite (refused_rules m m' columns it Hrules).
Qed.

(** *** The load on the store in memory *)

Lemma prepared_ready (c : MemStore.t) :
  MemStore.aborted (prepared c) = false
  /\ MemStore.tables (MemStore.session (prepared c)) !! target = Some (target_columns, []).
Proof. split; [reflexivity|]. cbn. apply lookup_insert_eq. Qed.

Ltac mem_step Ep :=
  lazymatch goal with
  | |- context [bind (db_call ?c) ?k ?w] =>
      rewrite (bind_db_call_ok c k w _ Ep); cbn [db stdout calls]
  end.

(** Up to its commit the load never raises on this store: the table is
    prepared in the session, the loop runs from there, and the commit
    comes after it. *)
Lemma upload_mem df (w : world MemStore.t) :
  let log := loop_log (Pd.columns df) (Pd.iterrows df) (prepared (db w)) in
  exists out,
    Pipeline.upload df w
    = after_commit (length (inserted log)) (length (raised log))
        (World (fst (Db.perform Db.commit
                       (loop_db (Pd.columns df) (Pd.iterrows df) (prepared (db w)))))
               (stdout w ++ out)
               (calls w ++ prepare_calls ++ log ++ [(Db.commit, None)])).
Proof.
  intros log. unfold Pipeline.upload.
  set (c := db w).
  set (m1 := MemStore.Mem (MemStore.rules c) (MemStore.committed c) (MemStore.committed c)
               false None).
  set (m3 := MemStore.Mem (MemStore.rules c) (MemStore.committed c)
               (MemStore.Database
                  ({[ Pipeline.schema_name ]} ∪ MemStore.schemas (MemStore.committed c))
                  (MemStore.tables (MemStore.committed c))) false None).
  set (m4 := MemStore.Mem (MemStore.rules c) (MemStore.committed c)
               (MemStore.Database
                  ({[ Pipeline.schema_name ]} ∪ MemStore.schemas (MemStore.committed c))
                  (delete target (MemStore.tables (MemStore.committed c)))) false None).
  assert (Db.perform Db.connect c = (m1, None)) as Ep1 by reflexivity.
  assert (Db.perform Db.cursor m1 = (m1, None)) as Ep2 by reflexivity.
  assert (Db.perform (Db.execute Pipeline.create_schema_query) m1 = (m3, None)) as Ep3
    by reflexivity.
  assert (Db.perform (Db.execute Pipeline.drop_table_query) m3 = (m4, None)) as Ep4
    by reflexivity.
  assert (Db.perform (Db.execute Pipeline.create_table_query) m4 = (prepared c, None)) as Ep5.
  { unfold Db.perform, MemStore.store, MemStore.perform, MemStore.exec,
      Pipeline.create_table_query, m4.
    cbn [MemStore.sendable negb MemStore.aborted MemStore.session
      MemStore.schemas MemStore.tables MemStore.rules MemStore.committed MemStore.result].
    rewrite decide_True by (apply elem_of_union; left; now apply elem_of_singleton).
    fold target. rewrite lookup_delete_eq. reflexivity. }
  mem_step Ep1. mem_step Ep2. rewrite bind_print; cbn [db stdout calls].
  mem_step Ep3. rewrite bind_print; cbn [db stdout calls].
  mem_step Ep4. mem_step Ep5.
  cbn [db stdout calls]. rewrite !bind_print; cbn [db stdout calls].
  unfold Pipeline.insert_rows.
  match goal with |- context [bind (for_each _ _ _) _ ?w5] =>
    destruct (for_each_insert_row df (Pd.iterrows df) 0 0 w5) as (out & E & _)
  end.
  cbv zeta in E. rewrite (bind_inr _ _ _ _ _ E). clear E.
  cbn [db stdout calls Nat.add].
  mem_step (commit_ok (loop_db (Pd.columns df) (Pd.iterrows df) (prepared c))).
  eexists. unfold after_commit, log. rewrite <- !app_assoc. reflexivity.
Qed.

(** After the commit, on a session whose transaction is open and that sees
    the table: the count is read back and the load completes. *)
Lemma after_commit_open ri ec (w : world MemStore.t) tcols rows :
  MemStore.aborted (db w) = false ->
  MemStore.tables (MemStore.session (db w)) !! target = Some (tcols, rows) ->
  snd (after_commit ri ec w)
  = inr {| Pipeline.records_inserted := ri;
           Pipeline.errors_count := ec;
           Pipeline.total_records := Z.of_nat (length rows) |}
  /\ exists out, stdout (fst (after_commit ri ec w)) = stdout w ++ out /\ MsgCompleted ∈ out.
Proof.
  intros Ha Ht. unfold after_commit.
  set (m := db w) in *.
  set (m1 := MemStore.Mem (MemStore.rules m) (MemStore.committed m) (MemStore.session m)
               false (Some (Z.of_nat (length rows)))).
  set (m2 := MemStore.Mem (MemStore.rules m) (MemStore.committed m) (MemStore.committed m)
               false None).
  assert (Db.perform (Db.execute Pipeline.count_query) m = (m1, None)) as Ep1.
  { unfold Db.perform, MemStore.store, MemStore.perform, MemStore.exec, Pipeline.count_query.
    cbn [MemStore.sendable negb]. rewrite Ha. fold target. now rewrite Ht. }
  assert (Db.perform Db.fetchone m1 = (m1, None)) as Ep2 by reflexivity.
  assert (Db.perform Db.cursor_close m1 = (m1, None)) as Ep3 by reflexivity.
  assert (Db.perform Db.close m1 = (m2, None)) as Ep4 by reflexivity.
  rewrite bind_print; cbn [db stdout calls].
  destruct (0 <? ec)%nat.
  - rewrite bind_print; cbn [db stdout calls].
    mem_step Ep1. mem_step Ep2. rewrite bind_fetched, bind_print; cbn [db stdout calls].
    mem_step Ep3. mem_step Ep4. rewrite !bind_print. unfold ret. cbn [fst snd stdout].
    split; [reflexivity|]. eexists. rewrite <- !app_assoc. split; [reflexivity | set_solver].
  - rewrite bind_ret; cbn [db stdout calls].
    mem_step Ep1. mem_step Ep2. rewrite bind_fetched, bind_print; cbn [db stdout calls].
    mem_step Ep3. mem_step Ep4. rewrite !bind_print. unfold ret. cbn [fst snd stdout].
    split; [reflexivity|]. eexists. rewrite <- !app_assoc. split; [reflexivity | set_solver].
Qed.

(** Every way a load can go on the store in memory.  It never raises
    before its commit.  When the server refuses a row, every later insert
    raises as well and the commit leaves what is committed as it was before
    the load; when it refuses none, the load completes and the table holds
    the rows that could be sent, in order. *)
Lemma upload_outcome df (w : world MemStore.t) :
  exists log rest out,
    calls (fst (Pipeline.upload df w))
    = calls w ++ prepare_calls ++ log ++ (Db.commit, None) :: rest
    /\ List.map fst log = List.map (insert_call (Pd.columns df)) (Pd.iterrows df)
    /\ attempted rest = [] /\ List.filter is_commit rest = []
    /\ stdout (fst (Pipeline.upload df w)) = stdout w ++ out
    /\ MsgInserted (length (inserted log)) ∈ out
    /\ (forall k it, Pd.iterrows df !! k = Some it ->
          refused (db w) (Pd.columns df) it = true ->
          forall j cr, (k <= j)%nat -> log !! j = Some cr -> snd cr <> None)
    /\ MemStore.rules (db (fst (Pipeline.upload df w))) = MemStore.rules (db w)
    /\ if existsb (refused (db w) (Pd.columns df)) (Pd.iterrows df)
       then MemStore.committed (db (fst (Pipeline.upload df w))) = MemStore.committed (db w)
       else MemStore.committed (db (fst (Pipeline.upload df w)))
            = replaced (MemStore.committed (db w))
                (sent_rows (Pd.columns df) (Pd.iterrows df))
            /\ inserted log = sent_rows (Pd.columns df) (Pd.iterrows df)
            /\ snd (Pipeline.upload df w)
               = inr {| Pipeline.records_inserted :=
                          length (sent_rows (Pd.columns df) (Pd.iterrows df));
                        Pipeline.errors_count :=
                          Pd.len df - length (sent_rows (Pd.columns df) (Pd.iterrows df));
                        Pipeline.total_records :=
                          Z.of_nat (length (sent_rows (Pd.columns df) (Pd.iterrows df))) |}
            /\ MsgCompleted ∈ out.
Proof.
  destruct (upload_mem df w) as (out0 & E). cbv zeta in E. rewrite E. clear E.
  set (c := db w).
  set (log := loop_log (Pd.columns df) (Pd.iterrows df) (prepared c)).
  set (m6 := loop_db (Pd.columns df) (Pd.iterrows df) (prepared c)).
  set (w7 := World _ _ _).
  destruct (prepared_ready c) as [Ha5 Ht5].
  destruct (loop_open (Pd.columns df) (Pd.iterrows df) (prepared c) [] Ha5 Ht5)
    as (Hr6 & Hc6 & Hres6 & Hab6 & Hok6).
  fold m6 log in Hr6, Hc6, Hres6, Hab6, Hok6.
  change (refused (prepared c)) with (refused c) in Hab6, Hok6.
  change (MemStore.rules (prepared c)) with (MemStore.rules c) in Hr6.
  change (MemStore.committed (prepared c)) with (MemStore.committed c) in Hc6.
  destruct (after_commit_run
              (fun d => MemStore.committed d = MemStore.committed (db w7)
                        /\ MemStore.rules d = MemStore.rules (db w7))
              (length (inserted log)) (length (raised log)) w7)
    as ([Hcf Hrf] & rest & out & Ec & Hatt & Hcom & Eo).
  { intros call d Hcall [H1 H2].
    now rewrite perform_committed, perform_rules. }
  { now split. }
  exists log, rest, (out0 ++ MsgInserted (length (inserted log)) :: out).
  split. { rewrite Ec. subst w7. cbn [calls]. now rewrite <- !app_assoc. }
  split; [apply loop_log_calls|]. split; [exact Hatt|]. split; [exact Hcom|].
  split. { rewrite Eo. subst w7. cbn [stdout]. now rewrite <- !app_assoc. }
  split; [apply elem_of_app; right; constructor|].
  split.
  { intros k it Hk Href. apply (loop_after_refusal _ _ (prepared c) k it); [|exact Hk|exact Href].
    right. eexists. exact Ht5. }
  split.
  { rewrite Hrf. subst w7. cbn [db]. now rewrite perform_rules. }
  rewrite Hcf. subst w7. cbn [db].
  destruct (existsb (refused c (Pd.columns df)) (Pd.iterrows df)) eqn:Hex.
  - cbn. now rewrite Hab6.
  - destruct (Hok6 eq_refl) as [Hs6 Hi6]. cbn [app] in Hs6.
    assert (MemStore.session m6
            = replaced (MemStore.committed c) (sent_rows (Pd.columns df) (Pd.iterrows df)))
      as Hs6'.
    { rewrite Hs6. unfold replaced, prepared.
      cbn [MemStore.session MemStore.schemas MemStore.tables].
      now rewrite insert_insert_eq, insert_delete_eq. }
    split. { cbn. now rewrite Hab6. }
    split; [exact Hi6|].
    destruct (after_commit_open (length (inserted log)) (length (raised log))
                (World (fst (Db.perform Db.commit m6)) (stdout w ++ out0)
                   (calls w ++ prepare_calls ++ log ++ [(Db.commit, None)]))
                target_columns (sent_rows (Pd.columns df) (Pd.iterrows df)))
      as (Hrep & out' & Eo' & Hdone).
    { cbn. now rewrite Hab6. }
    { cbn. rewrite Hab6. cbn. rewrite Hs6'. unfold replaced. cbn. apply lookup_insert_eq. }
    pose proof (loop_log_outcomes (Pd.columns df) (Pd.iterrows df) (prepared c)) as Hn.
    fold log in Hn. rewrite iterrows_length, Hi6 in Hn.
    assert (length (raised log)
            = (Pd.len df - length (sent_rows (Pd.columns df) (Pd.iterrows df)))%nat) as Hraised
      by lia.
    split.
    + rewrite Hrep, Hi6, Hraised. reflexivity.
    + rewrite Eo in Eo'. apply app_inv_head in Eo'. rewrite <- Eo' in Hdone.
      apply elem_of_app. now right.
Qed.

(** The outer handlers only print: the store is left as the load left
    it. *)
Lemma try_upload_db {C} `{Db.Store C} df (w : world C) :
  db (fst (try_except (bind (Pipeline.upload df) (fun r => ret (Some r))) Pipeline.handler w))
  = db (fst (Pipeline.upload df w))
  /\ calls (fst (try_except (bind (Pipeline.upload df) (fun r => ret (Some r)))
                   Pipeline.handler w))
     = calls (fst (Pipeline.upload df w))
  /\ snd (try_except (bind (Pipeline.upload df) (fun r => ret (Some r))) Pipeline.handler w)
     = match snd (Pipeline.upload df w) with
       | inr rep => inr (Some rep)
       | inl _ => inr None
       end.
Proof.
  unfold try_except, bind.
  destruct (Pipeline.upload df w) as [w' [e|rep]]; [destruct e|]; repeat split.
Qed.

Lemma content_committed (m m' : MemStore.t) s t :
  MemStore.committed m = MemStore.committed m' -> content s t m = content s t m'.
Proof. intros E. unfold content, MemStore.observable. now rewrite E. Qed.

(** C1, on the server the script addresses: when the server refuses the
    insert of a row, the load still goes on to its commit, which does not
    raise, and announces the rows it counted as inserted; but that row and
    every row after it fail, and the commit keeps nothing: what is
    committed after the load is what was committed before it, so the rows
    counted as inserted are lost and the table the load dropped is back. *)
Theorem refused_row_discards_the_load (df : Pd.DataFrame) (c : MemStore.t)
    (k : nat) (it : nat * Pd.row) :
  Pd.iterrows df !! k = Some it ->
  refused c (Pd.columns df) it = true ->
  let run := Pipeline.upload df (start c) in
  (exists log rest,
      calls (fst run) = prepare_calls ++ log ++ (Db.commit, None) :: rest
      /\ List.map fst log = List.map (insert_call (Pd.columns df)) (Pd.iterrows df)
      /\ (forall j cr, (k <= j)%nat -> log !! j = Some cr -> snd cr <> None)
      /\ MsgInserted (length (inserted log)) ∈ stdout (fst run))
  /\ MemStore.committed (db (fst run)) = MemStore.committed c
  /\ content Pipeline.schema_name Pipeline.table_name (db (fst run))
     = content Pipeline.schema_name Pipeline.table_name c.
Proof.
  intros Hk Href run. subst run.
  destruct (upload_outcome df (start c))
    as (log & rest & out & Ec & Hlog & _ & _ & Eo & Hmsg & Hafter & _ & Hcase).
  cbn [start db calls stdout app] in *.
  assert (existsb (refused c (Pd.columns df)) (Pd.iterrows df) = true) as Hex.
  { apply existsb_exists. exists it. split; [|exact Href].
    apply list_elem_of_In. exact (list_elem_of_lookup_2 _ _ _ Hk). }
  rewrite Hex in Hcase.
  split.
  - exists log, rest. split; [exact Ec|]. split; [exact Hlog|].
    split; [exact (Hafter k it Hk Href) | now rewrite Eo].
  - split; [exact Hcase | now apply content_committed].
Qed.

Lemma refused_row_witness :
  snd (Pipeline.upload (Sample.cleaned Sample.late) (start Sample.loaded))
  = inr {| Pipeline.records_inserted := 3; Pipeline.errors_count := 1;
           Pipeline.total_records := 2 |}
  /\ length (raised (calls (fst (Pipeline.upload (Sample.cleaned Sample.late)
                                   (start Sample.loaded))))) = 1%nat
  /\ content Pipeline.schema_name Pipeline.table_name
       (db (fst (Pipeline.upload (Sample.cleaned Sample.late) (start Sample.loaded))))
     = content Pipeline.schema_name Pipeline.table_name Sample.loaded
  /\ (length <$> content Pipeline.schema_name Pipeline.table_name Sample.loaded) = Some 2%nat.
Proof.
  split; [vm_compute; reflexivity|]. split; [vm_compute; reflexivity|].
  split; [|vm_compute; reflexivity].
  assert (exists it, Pd.iterrows (Sample.cleaned Sample.late) !! 3%nat = Some it
                     /\ refused Sample.loaded (Pd.columns (Sample.cleaned Sample.late)) it = true)
    as (it & Hk & Href)
    by (eexists; split; [vm_compute; reflexivity|]; vm_compute; reflexivity).
  exact (proj2 (proj2 (refused_row_discards_the_load (Sample.cleaned Sample.late)
                         Sample.loaded 3 it Hk Href))).
Defined.

Section MainOnMemStore.
Context `{Pd.Library}.

(** A run either leaves the store as it found it, or got as far as the
    load and leaves it as the load did. *)
Lemma main_db {C} `{Db.Store C} response (w : world C) :
  db (fst (Pipeline.main response w)) = db w
  \/ exists raw df,
       Pd.read_csv (Pipeline.text response) = inr raw /\ Pipeline.clean raw = inr df
       /\ db (fst (Pipeline.main response w))
          = db (fst (Pipeline.upload df
                       (World (db w)
                          (stdout w ++ [MsgFetching; MsgFetched; MsgRecords (Pd.len raw);
                                        MsgColumns (length (Pd.columns raw)); MsgProcessing;
                                        MsgCleaned (Pd.len df); MsgConnecting])
                          (calls w)))).
Proof.
  destruct (Z.eq_dec (Pipeline.status_code response) 200) as [Hs|Hs];
    [|left; now rewrite (main_not_200 response w Hs)].
  destruct (Pd.read_csv (Pipeline.text response)) as [e|raw] eqn:Hr.
  { left. unfold Pipeline.main. rewrite bind_print, Hs, Z.eqb_refl, bind_print.
    rewrite (bind_inl (lift (Pd.read_csv (Pipeline.text response))) _ _ _ e)
      by (unfold lift; now rewrite Hr).
    reflexivity. }
  destruct (Pipeline.clean raw) as [e|df] eqn:Hc.
  { left. unfold Pipeline.main. rewrite bind_print, Hs, Z.eqb_refl, bind_print.
    rewrite (bind_inr (lift (Pd.read_csv (Pipeline.text response))) _ _ _ raw)
      by (unfold lift; now rewrite Hr).
    rewrite !bind_print.
    rewrite (bind_inl (lift (Pipeline.clean raw)) _ _ _ e)
      by (unfold lift; now rewrite Hc).
    reflexivity. }
  right. exists raw, df. split; [reflexivity|]. split; [exact Hc|].
  rewrite (main_200 response raw df _ Hs Hr Hc). apply try_upload_db.
Qed.

(** No run changes the rule by which the server refuses tuples. *)
Lemma main_rules response (c : MemStore.t) :
  MemStore.rules (db (fst (Pipeline.main response (start c)))) = MemStore.rules c.
Proof.
  destruct (main_db response (start c)) as [-> | (raw & df & _ & _ & ->)]; [reflexivity|].
  destruct (upload_outcome df (World c
              ([] ++ [MsgFetching; MsgFetched; MsgRecords (Pd.len raw);
                      MsgColumns (length (Pd.columns raw)); MsgProcessing;
                      MsgCleaned (Pd.len df); MsgConnecting]) []))
    as (log & rest & out & _ & _ & _ & _ & _ & _ & _ & Hrules & _).
  exact Hrules.
Qed.

(** A run that got as far as the load, on the store in memory. *)
Lemma main_outcome response (c : MemStore.t) raw df :
  Pipeline.status_code response = 200 ->
  Pd.read_csv (Pipeline.text response) = inr raw ->
  Pipeline.clean raw = inr df ->
  (exists log rest,
      calls (fst (Pipeline.main response (start c)))
      = prepare_calls ++ log ++ (Db.commit, None) :: rest
      /\ List.map fst log = List.map (insert_call (Pd.columns df)) (Pd.iterrows df))
  /\ if existsb (refused c (Pd.columns df)) (Pd.iterrows df)
     then MemStore.committed (db (fst (Pipeline.main response (start c))))
          = MemStore.committed c
     else MemStore.committed (db (fst (Pipeline.main response (start c))))
          = replaced (MemStore.committed c) (sent_rows (Pd.columns df) (Pd.iterrows df))
          /\ snd (Pipeline.main response (start c))
             = inr (Some {| Pipeline.records_inserted :=
                              length (sent_rows (Pd.columns df) (Pd.iterrows df));
                            Pipeline.errors_count :=
                              Pd.len df - length (sent_rows (Pd.columns df) (Pd.iterrows df));
                            Pipeline.total_records :=
                              Z.of_nat (length (sent_rows (Pd.columns df) (Pd.iterrows df))) |}).
Proof.
  intros Hs Hr Hc. rewrite (main_200 response raw df _ Hs Hr Hc).
  set (w0 := World _ _ _).
  destruct (try_upload_db df w0) as (-> & -> & ->).
  destruct (upload_outcome df w0)
    as (log & rest & out & Ec & Hlog & _ & _ & _ & _ & _ & _ & Hcase).
  split. { exists log, rest. rewrite Ec. subst w0. now cbn [calls start app]. }
  change (db w0) with c in Hcase.
  destruct (existsb (refused c (Pd.columns df)) (Pd.iterrows df)); [exact Hcase|].
  destruct Hcase as (Hcom & _ & -> & _). now split.
Qed.

(** C7, on the server the script addresses: the second of two runs
    prepares the table anew and sends an insert for every one of its rows.
    When the server refuses none of them, the table then holds exactly the
    rows of the second run that could be sent, and nothing of the first.
    But when the server refuses one, the commit undoes the whole load, the
    dropping of the table included: the table holds what the first run
    left, and none of the second run's rows. *)
Theorem second_run_replaces_table_unless_a_row_is_refused
    (first second : Pipeline.response) (c : MemStore.t) raw df :
  Pipeline.status_code second = 200 ->
  Pd.read_csv (Pipeline.text second) = inr raw ->
  Pipeline.clean raw = inr df ->
  let run1 := Pipeline.main first (start c) in
  let run2 := Pipeline.main second (start (db (fst run1))) in
  (exists log rest,
      calls (fst run2) = prepare_calls ++ log ++ (Db.commit, None) :: rest
      /\ List.map fst log = List.map (insert_call (Pd.columns df)) (Pd.iterrows df))
  /\ if existsb (refused c (Pd.columns df)) (Pd.iterrows df)
     then MemStore.committed (db (fst run2)) = MemStore.committed (db (fst run1))
          /\ content Pipeline.schema_name Pipeline.table_name (db (fst run2))
             = content Pipeline.schema_name Pipeline.table_name (db (fst run1))
     else content Pipeline.schema_name Pipeline.table_name (db (fst run2))
          = Some (sent_rows (Pd.columns df) (Pd.iterrows df))
          /\ has_schema Pipeline.schema_name (db (fst run2)) = true
          /\ snd run2
             = inr (Some {| Pipeline.records_inserted :=
                              length (sent_rows (Pd.columns df) (Pd.iterrows df));
                            Pipeline.errors_count :=
                              Pd.len df - length (sent_rows (Pd.columns df) (Pd.iterrows df));
                            Pipeline.total_records :=
                              Z.of_nat (length (sent_rows (Pd.columns df) (Pd.iterrows df))) |}).
Proof.
  intros Hs Hr Hc run1 run2. subst run2.
  destruct (main_outcome second (db (fst run1)) raw df Hs Hr Hc) as [Hlog Hcase].
  split; [exact Hlog|].
  assert (existsb (refused (db (fst run1)) (Pd.columns df)) (Pd.iterrows df)
          = existsb (refused c (Pd.columns df)) (Pd.iterrows df)) as Hsame.
  { apply existsb_refused_rules, main_rules. }
  rewrite Hsame in Hcase.
  destruct (existsb (refused c (Pd.columns df)) (Pd.iterrows df)).
  - split; [exact Hcase | now apply content_committed].
  - destruct Hcase as [Hcom Hrep]. split; [|split; [|exact Hrep]].
    + unfold content, MemStore.observable. rewrite Hcom. unfold replaced.
      cbn [MemStore.tables]. now rewrite lookup_insert_eq.
    + unfold has_schema, MemStore.observable. rewrite Hcom. unfold replaced.
      cbn [MemStore.schemas]. apply bool_decide_eq_true, elem_of_union. left.
      now apply elem_of_singleton.
Qed.

(** X12: on the server the script addresses, a run that got as far as the
    load is all or nothing.  When the server refuses none of the rows, the
    run completes and what is committed is the table replaced by the rows
    that could be sent, in the order of the CSV, as many as the run counts
    as inserted and reads back.  When the server refuses a row, what is
    committed after the run is what was committed before it. *)
Theorem load_is_all_or_nothing (response : Pipeline.response) (c : MemStore.t) raw df :
  Pipeline.status_code response = 200 ->
  Pd.read_csv (Pipeline.text response) = inr raw ->
  Pipeline.clean raw = inr df ->
  let run := Pipeline.main response (start c) in
  let kept := sent_rows (Pd.columns df) (Pd.iterrows df) in
  if existsb (refused c (Pd.columns df)) (Pd.iterrows df)
  then MemStore.committed (db (fst run)) = MemStore.committed c
  else MemStore.committed (db (fst run)) = replaced (MemStore.committed c) kept
       /\ kept `sublist_of`
            List.map (fun it => Pipeline.params (Pd.columns df) (snd it)) (Pd.iterrows df)
       /\ snd run = inr (Some {| Pipeline.records_inserted := length kept;
                                 Pipeline.errors_count := Pd.len raw - length kept;
                                 Pipeline.total_records := Z.of_nat (length kept) |}).
Proof.
  intros Hs Hr Hc run kept. subst run kept.
  destruct (main_outcome response c raw df Hs Hr Hc) as [_ Hcase].
  destruct (existsb (refused c (Pd.columns df)) (Pd.iterrows df)); [exact Hcase|].
  destruct Hcase as [Hcom Hrep]. split; [exact Hcom|]. split.
  - unfold sent_rows.
    induction (List.map _ (Pd.iterrows df)) as [|ps l IH]; [constructor|].
    cbn [List.filter]. destruct (forallb MemStore.adaptable ps);
      [now apply sublist_skip | now apply sublist_cons].
  - now rewrite <- (clean_len raw df Hc).
Qed.

End MainOnMemStore.

Lemma second_run_witness :
  let first := Pipeline.Build_response 200 "survey" in
  let second := Pipeline.Build_response 200 "batch" in
  let run1 := @Pipeline.main Sample.pandas _ _ first (start MemStore.empty) in
  let run2 := @Pipeline.main Sample.pandas _ _ second (start (db (fst run1))) in
  content Pipeline.schema_name Pipeline.table_name (db (fst run2))
  = content Pipeline.schema_name Pipeline.table_name (db (fst run1))
  /\ (length <$> content Pipeline.schema_name Pipeline.table_name (db (fst run1))) = Some 2%nat
  /\ snd run2 = inr (Some {| Pipeline.records_inserted := 1; Pipeline.errors_count := 3;
                             Pipeline.total_records := 2 |}).
Proof.
  cbv zeta. split; [|split; vm_compute; reflexivity].
  pose proof (@second_run_replaces_table_unless_a_row_is_refused Sample.pandas
                (Pipeline.Build_response 200 "survey") (Pipeline.Build_response 200 "batch")
                MemStore.empty Sample.batch (Sample.cleaned Sample.batch)
                eq_refl eq_refl ltac:(vm_compute; reflexivity)) as Hthm.
  cbv zeta in Hthm. destruct Hthm as [_ Hcase].
  assert (existsb (refused MemStore.empty (Pd.columns (Sample.cleaned Sample.batch)))
            (Pd.iterrows (Sample.cleaned Sample.batch)) = true) as Hex
    by (vm_compute; reflexivity).
  rewrite Hex in Hcase. exact (proj2 Hcase).
Defined.

Lemma all_or_nothing_witness :
  let run := @Pipeline.main Sample.pandas _ _ (Pipeline.Build_response 200 "survey")
               (start MemStore.empty) in
  MemStore.committed (db (fst run))
  = replaced (MemStore.committed MemStore.empty)
      (sent_rows (Pd.columns (Sample.cleaned Sample.survey))
         (Pd.iterrows (Sample.cleaned Sample.survey)))
  /\ snd run = inr (Some {| Pipeline.records_inserted := 2; Pipeline.errors_count := 0;
                            Pipeline.total_records := 2 |}).
Proof.
  cbv zeta.
  pose proof (@load_is_all_or_nothing Sample.pandas
                (Pipeline.Build_response 200 "survey") MemStore.empty
                Sample.survey (Sample.cleaned Sample.survey)
                eq_refl eq_refl ltac:(vm_compute; reflexivity)) as Hthm.
  cbv zeta in Hthm.
  assert (existsb (refused MemStore.empty (Pd.columns (Sample.cleaned Sample.survey)))
            (Pd.iterrows (Sample.cleaned Sample.survey)) = false) as Hex
    by (vm_compute; reflexivity).
  rewrite Hex in Hthm. destruct Hthm as (Hcom & _ & Hrep).
  split; [exact Hcom|]. rewrite Hrep. vm_compute. reflexivity.
Defined.

(** ** When the cleaning raises *)

Section CleaningRaises.
Context `{Pd.Library}.

Lemma date_failure_convert key raw e :
  date_failure key raw e
  <-> Pd.convert_dates key
        {| Pd.columns := List.map normalize (Pd.columns raw); Pd.rows := Pd.rows raw |}
      = inl e.
Proof.
  symmetry.
  exact (convert_dates_raises key
           {| Pd.columns := List.map normalize (Pd.columns raw); Pd.rows := Pd.rows raw |} e).
Qed.

(** X14: the cleaning step raises exactly when one of its two date
    conversions does, the one of [start] coming first: a conversion raises
    the [ValueError] of a repeated key when two or more cleaned column
    names are the reserved name, and whatever [pd.to_datetime] raises on
    the column when one column bears the name and [pd.to_datetime] raises
    on it in spite of [errors='coerce']; otherwise it does not raise,
    whatever the cells hold. *)
Theorem cleaning_raises_exactly_when_a_conversion_does (raw : Pd.DataFrame) (e : Py.exn) :
  Pipeline.clean raw = inl e
  <-> date_failure "start" raw e
      \/ ((forall e', ~ date_failure "start" raw e') /\ date_failure "end" raw e).
Proof.
  rewrite clean_raises, !date_failure_convert.
  set (df0 := {| Pd.columns := List.map normalize (Pd.columns raw); Pd.rows := Pd.rows raw |}).
  split; (intros [E | [Hno E]]; [now left | right; split; [|exact E]]).
  - destruct Hno as [df1 E1]. intros e' He'. apply date_failure_convert in He'.
    fold df0 in He'. congruence.
  - destruct (Pd.convert_dates "start" df0) as [e'|df1] eqn:E1; [|now exists df1].
    exfalso. apply (Hno e'). apply date_failure_convert. exact E1.
Qed.

End CleaningRaises.

Lemma cleaning_raises_witness :
  @Pipeline.clean Sample.pandas Sample.offsets
  = inl (Py.Exception "ValueError" "Mixed timezones detected. Pass utc=True in to_datetime")
  /\ @Pipeline.clean Sample.pandas Sample.collision
     = inl (Py.Exception "ValueError" "cannot assemble with duplicate keys").
Proof.
  split.
  - apply (@cleaning_raises_exactly_when_a_conversion_does Sample.pandas). left. right.
    split; [reflexivity|]. exists 0%nat. split; reflexivity.
  - apply (@cleaning_raises_exactly_when_a_conversion_does Sample.pandas). left. left.
    split; [vm_compute; lia | reflexivity].
Defined.
